(** * TrashMail client: a shallow embedding of [trashmail_api.py] and
    [failing_opaque_code.py]

    The two Python scripts are HTTP glue around [requests.Session.post].
    Everything behind that call (the requests library, the network and the
    remote service) is an oracle, [Transport]; the scripts themselves are
    embedded as functions in a state-and-exception monad whose state is the
    mutable Python object at hand (the client, or the session) together with
    the log of calls made to [session.post].  Calls to the [logging] module
    have no effect on that state and are left out. *)

From Stdlib Require Import ZArith NArith String Ascii List Strings.Byte Lia.
From Stdlib Require Import Floats.SpecFloat.
From Stdlib Require Import DecimalString.
From stdpp Require Import base option gmap strings list.

Set Warnings "-register-all".
Local Open Scope string_scope.
Local Open Scope list_scope.

(** ** Python values *)

(** The values that flow through the scripts: what [json.loads] produces,
    plus [bytes] (the OPAQUE messages). *)
Inductive pyval : Type :=
| PyNone
| PyBool (b : bool)
| PyInt (z : Z)
| PyFloat (f : spec_float)
| PyStr (s : string)
| PyBytes (b : list byte)
| PyList (l : list pyval)
| PyDict (d : gmap string pyval).

(** [bool(v)], the truth value tested by [if v] and [not v]. *)
Definition truthy (v : pyval) : bool :=
  match v with
  | PyNone => false
  | PyBool b => b
  | PyInt z => negb (z =? 0)%Z
  | PyFloat f => match f with S754_zero _ => false | _ => true end
  | PyStr s => negb (String.eqb s "")
  | PyBytes b => match b with [] => false | _ => true end
  | PyList l => match l with [] => false | _ => true end
  | PyDict d => match map_to_list d with [] => false | _ => true end
  end.

(** [type(v).__name__] *)
Definition type_name (v : pyval) : string :=
  match v with
  | PyNone => "NoneType"
  | PyBool _ => "bool"
  | PyInt _ => "int"
  | PyFloat _ => "float"
  | PyStr _ => "str"
  | PyBytes _ => "bytes"
  | PyList _ => "list"
  | PyDict _ => "dict"
  end.

(** [s.startswith(p)] *)
Definition startswith (p s : string) : bool := String.prefix p s.

(** [s.rstrip(c)] for a one-character [c], on the list of characters. *)
Fixpoint rstrip_list {A} (is_c : A -> bool) (l : list A) : list A :=
  match l with
  | [] => []
  | x :: rest =>
      match rstrip_list is_c rest with
      | [] => if is_c x then [] else [x]
      | rest' => x :: rest'
      end
  end.

Definition rstrip (c : ascii) (s : string) : string :=
  string_of_list_ascii (rstrip_list (Ascii.eqb c) (list_ascii_of_string s)).

(** [s[:n]] *)
Definition str_prefix (n : nat) (s : string) : string := String.substring 0 n s.

(** ** Exceptions *)

(** The exception classes the scripts and the libraries under them raise.
    All of them derive from [Exception]; signals that do not
    ([KeyboardInterrupt], [SystemExit]) are not part of the model. *)
Inductive exc_class : Type :=
| Exception
| TypeError
| ValueError
| AttributeError
| KeyError
| NameError
| ModuleNotFoundError
| UnicodeError
| BinasciiError
| JSONDecodeError
| RequestException
| ConnectionError
| Timeout
| InvalidJSONError
| RequestsJSONDecodeError.

Global Instance exc_class_eq_dec : EqDecision exc_class.
Proof. solve_decision. Defined.

(** Direct base classes. [requests.exceptions.JSONDecodeError] has two. *)
Definition bases (c : exc_class) : list exc_class :=
  match c with
  | Exception => []
  | TypeError | ValueError | AttributeError | KeyError | NameError
  | ModuleNotFoundError | RequestException => [Exception]
  | UnicodeError | BinasciiError | JSONDecodeError => [ValueError]
  | ConnectionError | Timeout | InvalidJSONError => [RequestException]
  | RequestsJSONDecodeError => [InvalidJSONError; JSONDecodeError]
  end.

Fixpoint ancestors (fuel : nat) (c : exc_class) : list exc_class :=
  match fuel with
  | O => [c]
  | S n => c :: flat_map (ancestors n) (bases c)
  end.

(** [issubclass(c, target)]; the hierarchy is four levels deep. *)
Definition issubclass (c target : exc_class) : bool :=
  bool_decide (target ∈ ancestors 4 c).

(** An exception raised by library code: its class and [str(e)]. *)
Record lib_exn : Type := LibExn { exc_cls : exc_class; exc_str : string }.

(** ** HTTP: [requests.Response], [requests.Session] and the transport *)

(** What the scripts look at in a response: the outcome of [response.json()]
    and the cookies the response sets on the session. *)
Record Response : Type := mkResponse {
  json_method : lib_exn + pyval;
  set_cookie : gmap string string
}.

Inductive exn : Type :=
| TrashMailAPIError (message : pyval) (error_code : pyval) (response : option Response)
| PyExc (e : lib_exn).

(** [isinstance(e, c)] for a library class [c]; [TrashMailAPIError] derives
    from [Exception] alone. *)
Definition isinstance (e : exn) (c : exc_class) : bool :=
  match e with
  | TrashMailAPIError _ _ _ => bool_decide (c = Exception)
  | PyExc le => issubclass (exc_cls le) c
  end.

(** A [requests.Session]: its cookie jar. *)
Record Session : Type := mkSession { cookies : gmap string pyval }.

(** [requests.Session()] *)
Definition Session_new : Session := {| cookies := ∅ |}.

(** [session.cookies.set(name, value)]: [None] removes the cookie. *)
Definition cookies_set (name : string) (value : pyval) (s : Session) : Session :=
  match value with
  | PyNone => {| cookies := delete name (cookies s) |}
  | _ => {| cookies := <[name := value]> (cookies s) |}
  end.

(** One call [session.post(url=..., params=..., json=...)], with the jar of
    the session it was made on. *)
Record PostCall : Type := mkPostCall {
  post_url : string;
  post_params : gmap string pyval;
  post_json : pyval;
  post_cookies : gmap string pyval
}.

(** Everything behind [session.post]: given the calls made so far and the
    present call, it answers with a response or raises. *)
Definition Transport : Type := list PostCall -> PostCall -> lib_exn + Response.

(** The dict a URL builder returns, splatted into [session.post]. *)
Record UrlSpec : Type := mkUrlSpec { url : string; params : gmap string pyval }.

Definition the_call (u : UrlSpec) (body : pyval) (sess : Session) : PostCall :=
  {| post_url := url u; post_params := params u;
     post_json := body; post_cookies := cookies sess |}.

(** The session after a response: the cookies it sets are stored. *)
Definition store_cookies (r : Response) (sess : Session) : Session :=
  {| cookies := (PyStr <$> set_cookie r) ∪ cookies sess |}.

(** ** The monad: mutable state that survives a raised exception *)

Inductive outcome (A : Type) : Type :=
| Return (a : A)
| Raise (e : exn).
Arguments Return {A} a.
Arguments Raise {A} e.

Definition M (S A : Type) : Type := S -> outcome A * S.

Definition ret {S A} (a : A) : M S A := fun s => (Return a, s).

Definition raise {S A} (e : exn) : M S A := fun s => (Raise e, s).

Definition bind {S A B} (c : M S A) (k : A -> M S B) : M S B :=
  fun s => match c s with
           | (Return a, s') => k a s'
           | (Raise e, s') => (Raise e, s')
           end.

Definition get_state {S} : M S S := fun s => (Return s, s).

Definition modify {S} (f : S -> S) : M S unit := fun s => (Return tt, f s).

(** [try: body  except ...: handler]; the handler sees the exception and
    decides by its class whether to handle it or let it go on. *)
Definition try_except {S A} (body : M S A) (handler : exn -> M S A) : M S A :=
  fun s => match body s with
           | (Return a, s') => (Return a, s')
           | (Raise e, s') => handler e s'
           end.

Definition lift_lib {S A} (r : lib_exn + A) : M S A :=
  match r with
  | inl e => raise (PyExc e)
  | inr a => ret a
  end.

Declare Scope py_scope.
Delimit Scope py_scope with py.
Notation "x <- c ;; k" := (bind c (fun x => k))
  (at level 100, c at next level, right associativity) : py_scope.
Notation "c ;;; k" := (bind c (fun _ => k))
  (at level 100, right associativity) : py_scope.
Local Open Scope py_scope.

Definition raise_lib {S A} (c : exc_class) (msg : string) : M S A :=
  raise (PyExc (LibExn c msg)).

(** [v.get(k, dflt)]: only a dict has the method. *)
Definition py_get {S} (v : pyval) (k : string) (dflt : pyval) : M S pyval :=
  match v with
  | PyDict d => ret (default dflt (d !! k))
  | _ => raise_lib AttributeError
           ("'" +:+ type_name v +:+ "' object has no attribute 'get'")
  end.

(** [v[k]] for a string key [k]. *)
Definition py_getitem {S} (v : pyval) (k : string) : M S pyval :=
  match v with
  | PyDict d =>
      match d !! k with
      | Some x => ret x
      | None => raise_lib KeyError ("'" +:+ k +:+ "'")
      end
  | PyStr _ => raise_lib TypeError "string indices must be integers"
  | PyBytes _ => raise_lib TypeError "byte indices must be integers or slices, not str"
  | PyList _ => raise_lib TypeError "list indices must be integers or slices, not str"
  | _ => raise_lib TypeError ("'" +:+ type_name v +:+ "' object is not subscriptable")
  end.

(** Binding of a call [f(positional..., **kw)]: a keyword that names a
    parameter already bound positionally is a [TypeError]. *)
Definition bind_kwargs {S} (fname : string) (bound : list string)
    (kw : gmap string pyval) : M S unit :=
  match List.find (fun p => bool_decide (is_Some (kw !! p))) bound with
  | None => ret tt
  | Some p => raise_lib TypeError
                (fname +:+ "() got multiple values for argument '" +:+ p +:+ "'")
  end.

(** * [trashmail_api.py] *)

Module TrashmailApi.

(** [API_BASE_URL] and [DEFAULT_LANG], from the value of the environment
    variable ([None] when it is not set). *)
Definition API_BASE_URL (TRASHMAIL_API_URL : option string) : string :=
  rstrip "/" (default "https://trashmail.com" TRASHMAIL_API_URL).

Definition DEFAULT_LANG (TRASHMAIL_LANG : option string) : string :=
  str_prefix 2 (default "en" TRASHMAIL_LANG).

(** The attributes of a [TrashMailClient].  [_authenticated] and [_username]
    are kept as Python values: that they hold a bool and a str-or-None is a
    property of the methods, not of the record. *)
Record TrashMailClient : Type := mkClient {
  base_url : string;
  lang : string;
  session : Session;
  _authenticated : pyval;
  _username : pyval
}.

(** The state the methods run in: the object [self] and the calls made to
    [session.post] so far. *)
Record St : Type := mkSt { self : TrashMailClient; wire : list PostCall }.

Definition set_authenticated (v : pyval) (s : St) : St :=
  let c := self s in
  {| self := {| base_url := base_url c; lang := lang c; session := session c;
                _authenticated := v; _username := _username c |};
     wire := wire s |}.

Definition set_username (v : pyval) (s : St) : St :=
  let c := self s in
  {| self := {| base_url := base_url c; lang := lang c; session := session c;
                _authenticated := _authenticated c; _username := v |};
     wire := wire s |}.

Definition set_session (v : Session) (s : St) : St :=
  let c := self s in
  {| self := {| base_url := base_url c; lang := lang c; session := v;
                _authenticated := _authenticated c; _username := _username c |};
     wire := wire s |}.

(** [TrashMailClient.__init__] *)
Definition __init__ (base_url lang : string) : TrashMailClient :=
  {| base_url := base_url; lang := lang; session := Session_new;
     _authenticated := PyBool false; _username := PyNone |}.

(** [TrashMailClient._build_url] *)
Definition _build_url (c : TrashMailClient) (cmd : string) (api : bool)
    (extra_params : gmap string pyval) : UrlSpec :=
  let params : gmap string pyval := {[ "lang" := PyStr (lang c) ]} in
  let params := if api then <["api" := PyInt 1]> params else params in
  let params := if truthy (PyStr cmd) then <["cmd" := PyStr cmd]> params else params in
  let params := extra_params ∪ params in
  {| url := base_url c +:+ "/"; params := params |}.

(** [TrashMailClient._safe_json] *)
Definition _safe_json (response : Response) : M St pyval :=
  try_except (lift_lib (json_method response))
    (fun e => if isinstance e RequestsJSONDecodeError then ret PyNone
              else raise e).

(** The state a call [self.session.post(url=..., params=..., json=body)]
    leaves: the call is on the wire, and the cookies of a response are in the
    session's jar. *)
Definition posted (net : Transport) (spec : UrlSpec) (body : pyval) (s : St) : St :=
  let call := the_call spec body (session (self s)) in
  let s' := {| self := self s; wire := wire s ++ [call] |} in
  match net (wire s) call with
  | inl _ => s'
  | inr r => set_session (store_cookies r (session (self s))) s'
  end.

(** [self.session.post] with the builder's dict splatted in and [json=body]:
    it returns the response or raises what the transport raises. *)
Definition post (net : Transport) (spec : UrlSpec) (body : pyval) : M St Response :=
  fun s =>
    (match net (wire s) (the_call spec body (session (self s))) with
     | inl e => Raise (PyExc e)
     | inr r => Return r
     end, posted net spec body s).

Definition no_auth_methods : pyval :=
  PyDict (<["opaque_enabled" := PyBool false]>
          (<["srp_enabled" := PyBool false]>
           (<["migration_available" := PyBool false]> ∅))).

(** [TrashMailClient.check_auth_methods] *)
Definition check_auth_methods (net : Transport) (username : string) : M St pyval :=
  try_except
    (c <- get_state ;;
     response <- post net (_build_url (self c) "opaque_check" true ∅)
                   (PyDict {[ "username" := PyStr username ]}) ;;
     r <- _safe_json response ;;
     let result := if truthy r then r else PyDict ∅ in
     o <- py_get result "opaque_enabled" (PyBool false) ;;
     s <- py_get result "srp_enabled" (PyBool false) ;;
     m <- py_get result "migration_available" (PyBool false) ;;
     ret (PyDict (<["opaque_enabled" := o]>
                  (<["srp_enabled" := s]>
                   (<["migration_available" := m]> ∅)))))
    (fun e => if isinstance e Exception then ret no_auth_methods else raise e).

(** [TrashMailClient.login] *)
Definition login (net : Transport) (username password : string) : M St bool :=
  try_except
    (c <- get_state ;;
     response <- post net (_build_url (self c) "login" true ∅)
                   (PyDict (<["fe-login-user" := PyStr username]>
                            (<["fe-login-pass" := PyStr password]> ∅))) ;;
     result <- _safe_json response ;;
     if negb (truthy result) then
       raise (TrashMailAPIError (PyStr "Invalid response from server") PyNone None)
     else
       success <- py_get result "success" PyNone ;;
       if truthy success then
         modify (set_authenticated (PyBool true)) ;;;
         modify (set_username (PyStr username)) ;;;
         data <- py_get result "data" (PyDict ∅) ;;
         requires_2fa <- py_get data "requires_2fa" PyNone ;;
         if truthy requires_2fa then ret false else ret true
       else
         error_msg <- py_get result "msg" (PyStr "Login failed") ;;
         error_code <- py_get result "error_code" PyNone ;;
         raise (TrashMailAPIError error_msg error_code (Some response)))
    (fun e =>
       match e with
       | TrashMailAPIError _ _ _ => raise e
       | PyExc le =>
           if isinstance e Exception then
             raise (TrashMailAPIError (PyStr ("Login error: " +:+ exc_str le)) PyNone None)
           else raise e
       end).

(** [TrashMailClient.login_with_pat] *)
Definition login_with_pat (net : Transport) (username pat_token : string) : M St bool :=
  if negb (startswith "tmpat_" pat_token) then
    raise_lib ValueError "Invalid PAT format. Must start with 'tmpat_'"
  else
    login net username pat_token.

(** [TrashMailClient.api_call] *)
Definition api_call (net : Transport) (cmd : string) (params : gmap string pyval)
  : M St pyval :=
  c <- get_state ;;
  if negb (truthy (_authenticated (self c))) then
    raise (TrashMailAPIError (PyStr "Not authenticated. Call login() first.") PyNone None)
  else
    response <- post net (_build_url (self c) cmd true ∅) (PyDict params) ;;
    result <- _safe_json response ;;
    if negb (truthy result) then
      raise (TrashMailAPIError (PyStr "Invalid response from server") PyNone None)
    else
      success <- py_get result "success" (PyBool true) ;;
      if negb (truthy success) then
        error_msg <- py_get result "msg" (PyStr "API call failed") ;;
        error_code <- py_get result "error_code" PyNone ;;
        raise (TrashMailAPIError error_msg error_code (Some response))
      else
        ret result.

(** A call [self.api_call(cmd, **params)]: [self] and [cmd] are bound
    positionally, the keywords go to [**params]. *)
Definition call_api_call (net : Transport) (cmd : string) (kw : gmap string pyval)
  : M St pyval :=
  bind_kwargs "TrashMailClient.api_call" ["self"; "cmd"] kw ;;;
  api_call net cmd kw.

(** [TrashMailClient.get_deas] *)
Definition get_deas (net : Transport) : M St pyval :=
  result <- api_call net "read_dea" ∅ ;;
  py_get result "data" (PyList []).

(** [TrashMailClient.create_dea] *)
Definition create_dea (net : Transport) (real_email : string)
    (options : gmap string pyval) : M St pyval :=
  let params : gmap string pyval := {[ "realemail" := PyStr real_email ]} in
  let params := options ∪ params in
  result <- call_api_call net "save_dea" params ;;
  py_get result "data" (PyDict ∅).

(** [TrashMailClient.logout] *)
Definition logout (net : Transport) : M St bool :=
  try_except (api_call net "logout" ∅ ;;; ret tt)
    (fun e => if isinstance e Exception then ret tt else raise e) ;;;
  modify (set_authenticated (PyBool false)) ;;;
  modify (set_username PyNone) ;;;
  modify (set_session Session_new) ;;;
  ret true.

(** The properties [is_authenticated] and [username]. *)
Definition is_authenticated (c : TrashMailClient) : pyval := _authenticated c.

Definition username (c : TrashMailClient) : pyval := _username c.

(** Module-level [is_pat_token]. *)
Definition is_pat_token (password : pyval) : bool :=
  truthy password
  && match password with
     | PyStr s => startswith "tmpat_" s && (6 <? String.length s)%nat
     | _ => false
     end.

(** *** Sequences of method calls on one client *)

Inductive method_call : Type :=
| Call_build_url (cmd : string) (api : bool) (extra_params : gmap string pyval)
| Call_safe_json (response : Response)
| Call_check_auth_methods (username : string)
| Call_login (username password : string)
| Call_login_with_pat (username pat_token : string)
| Call_api_call (cmd : string) (params : gmap string pyval)
| Call_get_deas
| Call_create_dea (real_email : string) (options : gmap string pyval)
| Call_logout
| Read_is_authenticated
| Read_username.

Definition discard {A} (c : M St A) : St -> St := fun s => snd (c s).

(** The state after one call, whether it returned or raised. *)
Definition step (net : Transport) (m : method_call) : St -> St :=
  match m with
  | Call_build_url _ _ _ => fun s => s
  | Call_safe_json r => discard (_safe_json r)
  | Call_check_auth_methods u => discard (check_auth_methods net u)
  | Call_login u p => discard (login net u p)
  | Call_login_with_pat u t => discard (login_with_pat net u t)
  | Call_api_call cmd kw => discard (call_api_call net cmd kw)
  | Call_get_deas => discard (get_deas net)
  | Call_create_dea r o => discard (create_dea net r o)
  | Call_logout => discard (logout net)
  | Read_is_authenticated | Read_username => fun s => s
  end.

Definition run (net : Transport) (ms : list method_call) (s : St) : St :=
  fold_left (fun s m => step net m s) ms s.

(** [TrashMailClient(base_url, lang)] on a quiet wire. *)
Definition fresh (base_url lang : string) : St :=
  {| self := __init__ base_url lang; wire := [] |}.

End TrashmailApi.

(** * The [base64] and [binascii] functions the scripts call *)

Module Base64.

Local Open Scope N_scope.

Definition alphabet : list byte :=
  list_byte_of_string
    "ABCDEFGHIJKLMNOPQRSTUVWXYZabcdefghijklmnopqrstuvwxyz0123456789+/".

Definition pad : byte := "="%byte.

(** [table_b2a_base64[n]] *)
Definition b2a (n : N) : byte := nth (N.to_nat n) alphabet pad.

Fixpoint index_of (ch : byte) (l : list byte) (i : N) : option N :=
  match l with
  | [] => None
  | x :: rest => if Byte.eqb x ch then Some i else index_of ch rest (N.succ i)
  end.

(** [table_a2b_base64[ch]]; [None] for a character outside the alphabet. *)
Definition a2b (ch : byte) : option N := index_of ch alphabet 0.

Definition byte_of (n : N) : byte :=
  match Byte.of_N (n mod 256) with
  | Some b => b
  | None => x00
  end.

(** A count as [PyErr_Format] prints it. *)
Definition decimal (n : N) : string := NilEmpty.string_of_uint (N.to_uint n).

(** [binascii.b2a_base64(data, newline=False)] *)
Fixpoint b2a_base64 (data : list byte) : list byte :=
  match data with
  | [] => []
  | [x] =>
      let a := Byte.to_N x in
      [b2a (N.shiftr a 2); b2a (N.shiftl (N.land a 3) 4); pad; pad]
  | [x; y] =>
      let a := Byte.to_N x in
      let b := Byte.to_N y in
      [b2a (N.shiftr a 2);
       b2a (N.lor (N.shiftl (N.land a 3) 4) (N.shiftr b 4));
       b2a (N.shiftl (N.land b 15) 2); pad]
  | x :: y :: z :: rest =>
      let a := Byte.to_N x in
      let b := Byte.to_N y in
      let c := Byte.to_N z in
      b2a (N.shiftr a 2)
      :: b2a (N.lor (N.shiftl (N.land a 3) 4) (N.shiftr b 4))
      :: b2a (N.lor (N.shiftl (N.land b 15) 2) (N.shiftr c 6))
      :: b2a (N.land c 63)
      :: b2a_base64 rest
  end.

(** The loop of [binascii.a2b_base64(data, strict_mode=False)]: a character
    outside the alphabet is skipped, a pad that completes a quad ends the
    decoding, and data that stop inside a quad are an error. *)
Fixpoint a2b_loop (data : list byte) (quad_pos leftchar pads : N)
    (bin_data : list byte) : lib_exn + list byte :=
  match data with
  | [] =>
      if quad_pos =? 0 then inr bin_data
      else if quad_pos =? 1 then
        inl (LibExn BinasciiError
               ("Invalid base64-encoded string: number of data characters ("
                +:+ decimal (N.of_nat (length bin_data) / 3 * 4 + 1)
                +:+ ") cannot be 1 more than a multiple of 4"))
      else inl (LibExn BinasciiError "Incorrect padding")
  | ch :: rest =>
      if Byte.eqb ch pad then
        if 2 <=? quad_pos then
          if 4 <=? quad_pos + (pads + 1) then inr bin_data
          else a2b_loop rest quad_pos leftchar (pads + 1) bin_data
        else a2b_loop rest quad_pos leftchar pads bin_data
      else
        match a2b ch with
        | None => a2b_loop rest quad_pos leftchar pads bin_data
        | Some this_ch =>
            if quad_pos =? 0 then a2b_loop rest 1 this_ch 0 bin_data
            else if quad_pos =? 1 then
              a2b_loop rest 2 (N.land this_ch 15) 0
                (bin_data ++ [byte_of (N.lor (N.shiftl leftchar 2) (N.shiftr this_ch 4))])
            else if quad_pos =? 2 then
              a2b_loop rest 3 (N.land this_ch 3) 0
                (bin_data ++ [byte_of (N.lor (N.shiftl leftchar 4) (N.shiftr this_ch 2))])
            else
              a2b_loop rest 0 0 0
                (bin_data ++ [byte_of (N.lor (N.shiftl leftchar 6) this_ch)])
        end
  end.

Definition a2b_base64 (data : list byte) : lib_exn + list byte :=
  a2b_loop data 0 0 0 [].

Definition is_ascii (b : byte) : bool := Byte.to_N b <? 128.

(** [base64._bytes_from_decode_data(s)] for a str [s] *)
Definition _bytes_from_decode_data (s : string) : lib_exn + list byte :=
  let b := list_byte_of_string s in
  if forallb is_ascii b then inr b
  else inl (LibExn ValueError "string argument should contain only ASCII characters").

(** [b.decode('ascii')] *)
Definition decode_ascii (b : list byte) : lib_exn + string :=
  if forallb is_ascii b then inr (string_of_list_byte b)
  else inl (LibExn UnicodeError "'ascii' codec can't decode byte: ordinal not in range(128)").

(** [bytes.translate] with the two-character tables of the url-safe
    alphabet. *)
Definition _urlsafe_encode_translation (ch : byte) : byte :=
  if Byte.eqb ch "+"%byte then "-"%byte
  else if Byte.eqb ch "/"%byte then "_"%byte else ch.

Definition _urlsafe_decode_translation (ch : byte) : byte :=
  if Byte.eqb ch "-"%byte then "+"%byte
  else if Byte.eqb ch "_"%byte then "/"%byte else ch.

(** [base64.b64encode(s)] *)
Definition b64encode (s : list byte) : list byte := b2a_base64 s.

(** [base64.urlsafe_b64encode(s)] *)
Definition urlsafe_b64encode (s : list byte) : list byte :=
  map _urlsafe_encode_translation (b64encode s).

(** [base64.b64decode(s)] for a str [s], [validate] left at False *)
Definition b64decode (s : string) : lib_exn + list byte :=
  match _bytes_from_decode_data s with
  | inl e => inl e
  | inr b => a2b_base64 b
  end.

(** [base64.urlsafe_b64decode(s)] for a str [s] *)
Definition urlsafe_b64decode (s : string) : lib_exn + list byte :=
  match _bytes_from_decode_data s with
  | inl e => inl e
  | inr b => a2b_base64 (map _urlsafe_decode_translation b)
  end.

End Base64.

(** * [failing_opaque_code.py] *)

Module FailingOpaque.

(** The names bound at module level, in order: by the [import] statements,
    the assignments and the [def]s. *)
Definition module_globals : list string :=
  ["base64"; "time"; "logging"; "os"; "Path"; "Optional"; "requests";
   "RequestsJSONDecodeError";
   "API_BASE_URL"; "DEFAULT_LANG"; "OPAQUE_CONTEXT";
   "build_url"; "_safe_json"; "is_pat_token"; "_b64encode"; "_b64decode";
   "opaque_check"; "pat_opaque_start"; "pat_opaque_finish";
   "auths"; "cache_time"; "api_login"].

(** The names of the [builtins] module, searched after the module's own. *)
Definition builtins : list string :=
  ["ArithmeticError"; "AssertionError"; "AttributeError"; "BaseException";
   "BaseExceptionGroup"; "BlockingIOError"; "BrokenPipeError"; "BufferError";
   "BytesWarning"; "ChildProcessError"; "ConnectionAbortedError";
   "ConnectionError"; "ConnectionRefusedError"; "ConnectionResetError";
   "DeprecationWarning"; "EOFError"; "Ellipsis"; "EncodingWarning";
   "EnvironmentError"; "Exception"; "ExceptionGroup"; "False";
   "FileExistsError"; "FileNotFoundError"; "FloatingPointError";
   "FutureWarning"; "GeneratorExit"; "IOError"; "ImportError";
   "ImportWarning"; "IndentationError"; "IndexError"; "InterruptedError";
   "IsADirectoryError"; "KeyError"; "KeyboardInterrupt"; "LookupError";
   "MemoryError"; "ModuleNotFoundError"; "NameError"; "None";
   "NotADirectoryError"; "NotImplemented"; "NotImplementedError"; "OSError";
   "OverflowError"; "PendingDeprecationWarning"; "PermissionError";
   "ProcessLookupError"; "RecursionError"; "ReferenceError";
   "ResourceWarning"; "RuntimeError"; "RuntimeWarning"; "StopAsyncIteration";
   "StopIteration"; "SyntaxError"; "SyntaxWarning"; "SystemError";
   "SystemExit"; "TabError"; "TimeoutError"; "True"; "TypeError";
   "UnboundLocalError"; "UnicodeDecodeError"; "UnicodeEncodeError";
   "UnicodeError"; "UnicodeTranslateError"; "UnicodeWarning"; "UserWarning";
   "ValueError"; "Warning"; "ZeroDivisionError"; "__build_class__";
   "__debug__"; "__doc__"; "__import__"; "__loader__"; "__name__";
   "__package__"; "__spec__"; "abs"; "aiter"; "all"; "anext"; "any"; "ascii";
   "bin"; "bool"; "breakpoint"; "bytearray"; "bytes"; "callable"; "chr";
   "classmethod"; "compile"; "complex"; "copyright"; "credits"; "delattr";
   "dict"; "dir"; "divmod"; "enumerate"; "eval"; "exec"; "exit"; "filter";
   "float"; "format"; "frozenset"; "getattr"; "globals"; "hasattr"; "hash";
   "help"; "hex"; "id"; "input"; "int"; "isinstance"; "issubclass"; "iter";
   "len"; "license"; "list"; "locals"; "map"; "max"; "memoryview"; "min";
   "next"; "object"; "oct"; "open"; "ord"; "pow"; "print"; "property"; "quit";
   "range"; "repr"; "reversed"; "round"; "set"; "setattr"; "slice"; "sorted";
   "staticmethod"; "str"; "sum"; "super"; "tuple"; "type"; "vars"; "zip"].

Definition name_is_bound (name : string) : bool :=
  bool_decide (name ∈ (module_globals ++ builtins)%list).

(** Evaluation of a global name inside a function body: [bound_to] is what
    goes on when the name resolves; a name bound nowhere is a [NameError]. *)
Definition load_global {S A} (name : string) (bound_to : M S A) : M S A :=
  if name_is_bound name then bound_to
  else raise_lib NameError ("name '" +:+ name +:+ "' is not defined").

Definition API_BASE_URL (TRASHMAIL_API_URL : option string) : string :=
  rstrip "/" (default "https://trashmail.com" TRASHMAIL_API_URL).

Definition DEFAULT_LANG (TRASHMAIL_LANG : option string) : string :=
  str_prefix 2 (default "en" TRASHMAIL_LANG).

Definition OPAQUE_CONTEXT : list byte := list_byte_of_string "pat_opaque_auth".

(** The functions of the [opaque] package the script calls. *)
Record OpaqueLib : Type := mkOpaqueLib {
  CreateCredentialRequest : string -> lib_exn + (list byte * list byte);
  RecoverCredentials :
    list byte -> list byte -> list byte -> lib_exn + (pyval * list byte * pyval)
}.

(** The session object [api_login] creates and hands to its helpers, and the
    calls made to [session.post] so far. *)
Record St : Type := mkSt { session : Session; wire : list PostCall }.

(** [is_pat_token] *)
Definition is_pat_token (password : pyval) : bool :=
  truthy password
  && match password with
     | PyStr s => startswith "tmpat_" s && (6 <? String.length s)%nat
     | _ => false
     end.

(** [_b64encode] *)
Definition _b64encode (data : list byte) : lib_exn + string :=
  Base64.decode_ascii
    (rstrip_list (Byte.eqb "="%byte) (Base64.urlsafe_b64encode data)).

(** [_b64decode] *)
Definition _b64decode (data : string) : lib_exn + list byte :=
  let padded :=
    data +:+ string_of_list_ascii
               (repeat "="%char ((4 - String.length data mod 4) mod 4)) in
  match Base64.b64decode padded with
  | inr b => inr b
  | inl e =>
      if issubclass (exc_cls e) Exception then Base64.urlsafe_b64decode padded
      else inl e
  end.

Section Script.

(** The environment the module is imported in. *)
Variable TRASHMAIL_API_URL TRASHMAIL_LANG : option string.
Variable net : Transport.
(** What [import opaque] yields. *)
Variable opaque_lib : lib_exn + OpaqueLib.
(** [legacy_login] and [HTTPError] are used by the script; these are what
    the names would stand for in a namespace that binds them. *)
Variable legacy_login : string -> string -> M St pyval.
Variable HTTPError : pyval -> Response -> exn.
Variable isinstance_HTTPError : exn -> bool.

(** [build_url] *)
Definition build_url (api : bool) (lang : string) (cmd : option string)
    (paramss : gmap string pyval) : UrlSpec :=
  let params : gmap string pyval := {[ "lang" := PyStr lang ]} in
  let params := if api then <["api" := PyInt (Z.b2z api)]> params else params in
  let params :=
    match cmd with
    | Some c => if truthy (PyStr c) then <["cmd" := PyStr c]> params else params
    | None => params
    end in
  {| url := API_BASE_URL TRASHMAIL_API_URL +:+ "/"; params := paramss ∪ params |}.

(** [_safe_json] *)
Definition _safe_json (response : Response) : M St pyval :=
  try_except (lift_lib (json_method response))
    (fun e => if isinstance e RequestsJSONDecodeError then ret PyNone
              else raise e).

(** The state a call [session.post(url=..., params=..., json=body)] leaves. *)
Definition posted (spec : UrlSpec) (body : pyval) (s : St) : St :=
  let call := the_call spec body (session s) in
  match net (wire s) call with
  | inl _ => {| session := session s; wire := wire s ++ [call] |}
  | inr r => {| session := store_cookies r (session s); wire := wire s ++ [call] |}
  end.

(** [session.post] with the builder's dict splatted in and [json=body]. *)
Definition post (spec : UrlSpec) (body : pyval) : M St Response :=
  fun s =>
    (match net (wire s) (the_call spec body (session s)) with
     | inl e => Raise (PyExc e)
     | inr r => Return r
     end, posted spec body s).

Definition set_cookie_on_session (name : string) (value : pyval) : M St unit :=
  modify (fun s => {| session := cookies_set name value (session s); wire := wire s |}).

(** [opaque_check] *)
Definition opaque_check (username lang : string) : M St pyval :=
  try_except
    (response <- post (build_url true lang (Some "opaque_check") ∅)
                   (PyDict {[ "username" := PyStr username ]}) ;;
     r <- _safe_json response ;;
     let result := if truthy r then r else PyDict ∅ in
     o <- py_get result "opaque_enabled" (PyBool false) ;;
     s <- py_get result "srp_enabled" (PyBool false) ;;
     m <- py_get result "migration_available" (PyBool false) ;;
     ret (PyDict (<["opaque_enabled" := o]>
                  (<["srp_enabled" := s]>
                   (<["migration_available" := m]> ∅)))))
    (fun e => if isinstance e Exception then ret PyNone else raise e).

(** [pat_opaque_start] *)
Definition pat_opaque_start (username token lang : string)
  : M St (list byte * pyval * pyval) :=
  lib <- lift_lib opaque_lib ;;
  keys <- lift_lib (CreateCredentialRequest lib token) ;;
  let '(start_pub, client_sec) := keys in
  start_login_request <- lift_lib (_b64encode start_pub) ;;
  let payload : gmap string pyval :=
    <["username" := PyStr username]>
    (<["token_prefix" :=
         PyStr (if (12 <? String.length token)%nat
                then str_prefix 12 token +:+ "..." else token)]>
     (<["startLoginRequest" := PyStr start_login_request]> ∅)) in
  response <- post (build_url true lang (Some "pat_opaque_auth_init") ∅)
                (PyDict payload) ;;
  result <- lift_lib (json_method response) ;;
  success <- py_get result "success" PyNone ;;
  (if negb (truthy success) then
     load_global "HTTPError"
       (raise (HTTPError
                 (PyList [PyStr "400 Client Error: OPAQUE start failed"; result])
                 response))
   else ret tt) ;;;
  session_id <- py_getitem result "session_id" ;;
  set_cookie_on_session "session_id" session_id ;;;
  login_response <- py_getitem result "loginResponse" ;;
  session_id' <- py_getitem result "session_id" ;;
  ret (client_sec, login_response, session_id').

(** [login_response + '==='] *)
Definition add_str (v : pyval) (s : string) : M St string :=
  match v with
  | PyStr x => ret (x +:+ s)
  | PyBytes _ => raise_lib TypeError "can't concat str to bytes"
  | PyList _ =>
      raise_lib TypeError
        ("can only concatenate list (not " +:+ String "034" ("str" +:+ String "034" ") to list"))
  | _ => raise_lib TypeError
           ("unsupported operand type(s) for +: '" +:+ type_name v +:+ "' and 'str'")
  end.

(** [pat_opaque_finish] *)
Definition pat_opaque_finish (client_sec : list byte) (login_response session_id : pyval)
    (lang : string) : M St bool :=
  lib <- lift_lib opaque_lib ;;
  padded <- add_str login_response "===" ;;
  login_response_bytes <- lift_lib (Base64.urlsafe_b64decode padded) ;;
  creds <- try_except
             (lift_lib (RecoverCredentials lib login_response_bytes client_sec
                          OPAQUE_CONTEXT))
             (fun e => raise e) ;;
  let '(_, auth_u, _) := creds in
  let finish_request := Base64.urlsafe_b64encode auth_u in
  let payload : gmap string pyval :=
    <["session_id" := session_id]>
    (<["finishLoginRequest" := PyBytes finish_request]> ∅) in
  response <- post (build_url true lang (Some "pat_opaque_auth_finish") ∅)
                (PyDict payload) ;;
  result <- lift_lib (json_method response) ;;
  data <- py_getitem result "data" ;;
  sid_data <- py_get data "session_id" PyNone ;;
  final_session_id <-
    (if truthy sid_data then ret sid_data
     else sid_result <- py_get result "session_id" PyNone ;;
          if truthy sid_result then ret sid_result else ret session_id) ;;
  (if truthy final_session_id
   then set_cookie_on_session "session_id" final_session_id else ret tt) ;;;
  pat_token <- py_get data "pat" PyNone ;;
  (if truthy pat_token then set_cookie_on_session "pat" pat_token else ret tt) ;;;
  ret true.

(** [api_login]; it returns the pair of a flag and the session object, or
    [(False, None)]. *)
Definition api_login (username password : string) : M St (bool * option Session) :=
  modify (fun s => {| session := Session_new; wire := wire s |}) ;;;
  fallback <-
    (if is_pat_token (PyStr password) then
       capability <- opaque_check username (DEFAULT_LANG TRASHMAIL_LANG) ;;
       use_opaque <-
         (match capability with
          | PyNone => ret true
          | _ => enabled <- py_get capability "opaque_enabled" (PyBool false) ;;
                 ret (truthy enabled)
          end) ;;
       if use_opaque : bool then
         try_except
           (started <- pat_opaque_start username password (DEFAULT_LANG TRASHMAIL_LANG) ;;
            let '(client_sec, login_response, session_id) := started in
            pat_opaque_finish client_sec login_response session_id
              (DEFAULT_LANG TRASHMAIL_LANG) ;;;
            s <- get_state ;;
            ret (Some (true, Some (session s))))
           (fun e =>
              is_http <- load_global "HTTPError" (ret (isinstance_HTTPError e)) ;;
              if is_http : bool then raise e
              else if isinstance e Exception then raise e
              else raise e)
       else ret None
     else ret None) ;;
  match fallback with
  | Some result => ret result
  | None =>
      ok <- load_global "legacy_login" (legacy_login username password) ;;
      s <- get_state ;;
      if truthy ok then ret (true, Some (session s)) else ret (false, None)
  end.

End Script.

End FailingOpaque.

(** * Relations between the state before and after a computation *)

(** [keeps R c]: whatever [c] does, returning or raising, the state it
    leaves is [R]-related to the state it started in. *)
Definition keeps {St A} (R : St -> St -> Prop) (c : M St A) : Prop :=
  forall s, R s (snd (c s)).

(** The client's two authentication attributes are as they were. *)
Definition same_auth (s s' : TrashmailApi.St) : Prop :=
  TrashmailApi._authenticated (TrashmailApi.self s')
  = TrashmailApi._authenticated (TrashmailApi.self s)
  /\ TrashmailApi._username (TrashmailApi.self s')
     = TrashmailApi._username (TrashmailApi.self s).

(** The attributes are as they were, or the client has become
    authenticated. *)
Definition may_authenticate (s s' : TrashmailApi.St) : Prop :=
  same_auth s s'
  \/ TrashmailApi._authenticated (TrashmailApi.self s') = PyBool true.

(** No call to [session.post] was made and [self] was not written. *)
Definition same_state (s s' : TrashmailApi.St) : Prop := s' = s.

(** No call to [session.post] was made. *)
Definition same_wire (s s' : TrashmailApi.St) : Prop :=
  TrashmailApi.wire s' = TrashmailApi.wire s.

(** The call a client method makes for command [cmd] with JSON body [body]:
    the URL parameters are the built-in ones. *)
Definition command_call (c : TrashmailApi.TrashMailClient) (cmd : string)
    (body : gmap string pyval) : PostCall :=
  {| post_url := TrashmailApi.base_url c +:+ "/";
     post_params :=
       <["cmd" := PyStr cmd]>
       (<["api" := PyInt 1]> {[ "lang" := PyStr (TrashmailApi.lang c) ]});
     post_json := PyDict body;
     post_cookies := cookies (TrashmailApi.session c) |}.

(** The state invariant of a client. *)
Definition auth_invariant (s : TrashmailApi.St) : Prop :=
  exists b : bool,
    TrashmailApi.is_authenticated (TrashmailApi.self s) = PyBool b
    /\ (b = false -> TrashmailApi.username (TrashmailApi.self s) = PyNone).

(** * Sample inputs *)

Definition decode_error : lib_exn :=
  LibExn RequestsJSONDecodeError "Expecting value: line 1 column 1 (char 0)".

Definition not_authenticated_error : exn :=
  TrashMailAPIError (PyStr "Not authenticated. Call login() first.") PyNone None.

(** A transport with no service behind it: every call times out. *)
Definition unreachable : Transport :=
  fun _ _ => inl (LibExn Timeout "HTTPSConnectionPool: Read timed out.").

(** The service's answer to a login that wants a second factor. *)
Definition requires_2fa_response : Response :=
  mkResponse
    (inr (PyDict (<["success" := PyBool true]>
                  (<["data" := PyDict {[ "requires_2fa" := PyBool true ]}]> ∅))))
    ∅.

(** A transport that gives the same answer to every call. *)
Definition always (r : Response) : Transport := fun _ _ => inr r.

(** An answer listing one address. *)
Definition dea_list_response : Response :=
  mkResponse
    (inr (PyDict (<["success" := PyBool true]>
                  (<["data" := PyList [PyDict {[ "dea" := PyStr "x1@trashmail.com" ]}]]>
                   ∅))))
    ∅.

(** A client after a successful login. *)
Definition logged_in : TrashmailApi.St :=
  {| TrashmailApi.self :=
       {| TrashmailApi.base_url := "https://trashmail.com";
          TrashmailApi.lang := "en";
          TrashmailApi.session := Session_new;
          TrashmailApi._authenticated := PyBool true;
          TrashmailApi._username := PyStr "user@example.com" |};
     TrashmailApi.wire := [] |}.

(** * Further vocabulary *)

(** The JSON body of a login. *)
Definition login_body (u p : string) : gmap string pyval :=
  <["fe-login-user" := PyStr u]> (<["fe-login-pass" := PyStr p]> ∅).

(** The state [login] leaves once it has posted. *)
Definition login_posted (net : Transport) (u p : string) (s : TrashmailApi.St)
  : TrashmailApi.St :=
  TrashmailApi.posted net
    (TrashmailApi._build_url (TrashmailApi.self s) "login" true ∅)
    (PyDict (login_body u p)) s.

(** The state [api_call] leaves once it has posted. *)
Definition command_posted (net : Transport) (cmd : string) (kw : gmap string pyval)
    (s : TrashmailApi.St) : TrashmailApi.St :=
  TrashmailApi.posted net
    (TrashmailApi._build_url (TrashmailApi.self s) cmd true ∅) (PyDict kw) s.

(** The client's session object is as it was. *)
Definition same_session (s s' : TrashmailApi.St) : Prop :=
  TrashmailApi.session (TrashmailApi.self s')
  = TrashmailApi.session (TrashmailApi.self s).

(** [AttributeError] for a call of [.get] on a value that is no dict. *)
Definition no_get_error (v : pyval) : lib_exn :=
  LibExn AttributeError ("'" +:+ type_name v +:+ "' object has no attribute 'get'").

Definition is_dict (v : pyval) : bool :=
  match v with
  | PyDict _ => true
  | _ => false
  end.

(** An answer that turns the request down. *)
Definition rejected_response : Response :=
  mkResponse
    (inr (PyDict (<["success" := PyBool false]>
                  (<["msg" := PyStr "Invalid credentials"]>
                   (<["error_code" := PyInt 2]> ∅)))))
    ∅.

(** An answer whose body is no JSON. *)
Definition undecodable_response : Response := mkResponse (inl decode_error) ∅.

(** An answer whose body is a JSON array. *)
Definition array_response : Response := mkResponse (inr (PyList [PyInt 1])) ∅.

(** The three capabilities [check_auth_methods] and [opaque_check] report. *)
Definition capability_keys : gset string :=
  {[ "opaque_enabled"; "srp_enabled"; "migration_available" ]}.

(** An answer that sets a session cookie. *)
Definition cookie_response : Response :=
  mkResponse (inr (PyDict {[ "success" := PyBool true ]}))
    {[ "session_id" := "abc123" ]}.

(** The dict of capabilities read off a JSON object, False where a key is
    missing. *)
Definition capabilities_of (d : gmap string pyval) : gmap string pyval :=
  <["opaque_enabled" := default (PyBool false) (d !! "opaque_enabled")]>
  (<["srp_enabled" := default (PyBool false) (d !! "srp_enabled")]>
   (<["migration_available" := default (PyBool false) (d !! "migration_available")]> ∅)).

(** The call a function of [failing_opaque_code.py] makes for command [cmd]
    with JSON body [body] on a session [sess]. *)
Definition script_call (TRASHMAIL_API_URL : option string) (lang cmd : string)
    (body : gmap string pyval) (sess : Session) : PostCall :=
  {| post_url := FailingOpaque.API_BASE_URL TRASHMAIL_API_URL +:+ "/";
     post_params :=
       <["cmd" := PyStr cmd]> (<["api" := PyInt 1]> {[ "lang" := PyStr lang ]});
     post_json := PyDict body;
     post_cookies := cookies sess |}.

(** What [opaque_check] returns for what the transport gives. *)
Definition probe_result (answer : lib_exn + Response) : pyval :=
  match answer with
  | inl _ => PyNone
  | inr r =>
      match json_method r with
      | inl je =>
          if issubclass (exc_cls je) RequestsJSONDecodeError
          then PyDict (capabilities_of ∅) else PyNone
      | inr (PyDict d) => PyDict (capabilities_of d)
      | inr v => if truthy v then PyNone else PyDict (capabilities_of ∅)
      end
  end.

(** The 256 bytes and the 64 sextets, for checks by enumeration. *)
Definition all_bytes : list byte := map (fun n => Base64.byte_of (N.of_nat n)) (seq 0 256).

Definition sextets : list N := map N.of_nat (seq 0 64).

(** The sextets a group of input bytes is cut into. *)
Definition sextet1 (x : byte) : N := N.shiftr (Byte.to_N x) 2.

Definition sextet2 (x y : byte) : N :=
  N.lor (N.shiftl (N.land (Byte.to_N x) 3) 4) (N.shiftr (Byte.to_N y) 4).

Definition sextet3 (y z : byte) : N :=
  N.lor (N.shiftl (N.land (Byte.to_N y) 15) 2) (N.shiftr (Byte.to_N z) 6).

Definition sextet4 (z : byte) : N := N.land (Byte.to_N z) 63.

(** The last sextet of a group cut short after one or two bytes. *)
Definition sextet2_last (x : byte) : N := N.shiftl (N.land (Byte.to_N x) 3) 4.

Definition sextet3_last (y : byte) : N := N.shiftl (N.land (Byte.to_N y) 15) 2.

(** A string padded the way [_b64decode] pads it. *)
Definition repad (l : list byte) : list byte :=
  l ++ repeat Base64.pad ((4 - length l mod 4) mod 4).

(** The characters of url-safe base64 text. *)
Definition urlsafe_alphabet : list byte :=
  map Base64._urlsafe_encode_translation Base64.alphabet.

(** The text [_b64decode] hands to the decoders: its argument padded with
    ["="] to a multiple of four characters. *)
Definition padded_text (data : string) : string :=
  data +:+ string_of_list_ascii
             (repeat "="%char ((4 - String.length data mod 4) mod 4)).

(** A character of encoded text: one of the alphabet, or the pad. *)
Definition encoded_char (c : byte) : Prop :=
  (exists n, (n < 64)%N /\ c = Base64.b2a n) \/ c = Base64.pad.

(** Neither ["-"] nor ["_"]. *)
Definition standard_char (c : byte) : bool :=
  negb (Byte.eqb c "-"%byte) && negb (Byte.eqb c "_"%byte).

(** The url-safe encoding with its padding stripped, as bytes. *)
Definition stripped (data : list byte) : list byte :=
  rstrip_list (Byte.eqb "="%byte) (Base64.urlsafe_b64encode data).

(** The JSON body [pat_opaque_start] posts. *)
Definition start_payload (username token : string) (start_pub : list byte)
  : gmap string pyval :=
  <["username" := PyStr username]>
  (<["token_prefix" :=
       PyStr (if (12 <? String.length token)%nat
              then str_prefix 12 token +:+ "..." else token)]>
   (<["startLoginRequest" := PyStr (string_of_list_byte (stripped start_pub))]> ∅)).

(** The JSON body [pat_opaque_finish] posts. *)
Definition finish_payload (session_id : pyval) (auth_u : list byte)
  : gmap string pyval :=
  <["session_id" := session_id]>
  (<["finishLoginRequest" := PyBytes (Base64.urlsafe_b64encode auth_u)]> ∅).

Definition HTTPError_unbound_error : exn :=
  PyExc (LibExn NameError "name 'HTTPError' is not defined").

(** An [opaque] package whose functions return fixed bytes. *)
Definition canned_opaque : FailingOpaque.OpaqueLib :=
  {| FailingOpaque.CreateCredentialRequest :=
       fun _ => inr ([x01; x02; x03], [x0a; x0b]);
     FailingOpaque.RecoverCredentials :=
       fun _ _ _ => inr (PyNone, [xff; xfe], PyNone) |}.

(** An answer that accepts the start of an OPAQUE login. *)
Definition start_accepted_response : Response :=
  mkResponse
    (inr (PyDict (<["success" := PyBool true]>
                  (<["session_id" := PyStr "sid-1"]>
                   (<["loginResponse" := PyStr "AQID"]> ∅)))))
    ∅.

(** The state [pat_opaque_start] leaves once it has posted. *)
Definition start_posted (TRASHMAIL_API_URL : option string) (net : Transport)
    (u token lang : string) (start_pub : list byte) (s : FailingOpaque.St)
  : FailingOpaque.St :=
  FailingOpaque.posted net
    (FailingOpaque.build_url TRASHMAIL_API_URL true lang (Some "pat_opaque_auth_init") ∅)
    (PyDict (start_payload u token start_pub)) s.

(** The state [pat_opaque_finish] leaves once it has posted. *)
Definition finish_posted (TRASHMAIL_API_URL : option string) (net : Transport)
    (lang : string) (session_id : pyval) (auth_u : list byte) (s : FailingOpaque.St)
  : FailingOpaque.St :=
  FailingOpaque.posted net
    (FailingOpaque.build_url TRASHMAIL_API_URL true lang (Some "pat_opaque_auth_finish") ∅)
    (PyDict (finish_payload session_id auth_u)) s.

(** A state of the script with one more cookie in the session. *)
Definition with_cookie (name : string) (value : pyval) (s : FailingOpaque.St)
  : FailingOpaque.St :=
  {| FailingOpaque.session := cookies_set name value (FailingOpaque.session s);
     FailingOpaque.wire := FailingOpaque.wire s |}.

(** No call to [session.post] was made by the script. *)
Definition script_same_wire (s s' : FailingOpaque.St) : Prop :=
  FailingOpaque.wire s' = FailingOpaque.wire s.

Definition key_error (k : string) : exn :=
  PyExc (LibExn KeyError ("'" +:+ k +:+ "'")).

(** [a or b or c] on Python values. *)
Definition first_truthy (a b c : pyval) : pyval :=
  if truthy a then a else if truthy b then b else c.

(** The cookies [pat_opaque_finish] sets from an answer whose ["data"] is
    [data]. *)
Definition finish_cookies (result data : gmap string pyval) (session_id : pyval)
    (s : FailingOpaque.St) : FailingOpaque.St :=
  let final_session_id :=
    first_truthy (default PyNone (data !! "session_id"))
      (default PyNone (result !! "session_id")) session_id in
  let s1 :=
    if truthy final_session_id then with_cookie "session_id" final_session_id s else s in
  let pat_token := default PyNone (data !! "pat") in
  if truthy pat_token then with_cookie "pat" pat_token s1 else s1.

Definition is_str (v : pyval) : bool :=
  match v with
  | PyStr _ => true
  | _ => false
  end.

(** An answer that completes an OPAQUE login. *)
Definition finish_accepted_response : Response :=
  mkResponse
    (inr (PyDict (<["session_id" := PyStr "sid-2"]>
                  (<["data" := PyDict {[ "pat" := PyStr "tmpat_fresh" ]}]> ∅))))
    ∅.



(** * Properties *)

(** ** Exceptions *)

Lemma issubclass_Exception (c : exc_class) : issubclass c Exception = true.
Proof. destruct c; vm_compute; reflexivity. Qed.

Lemma isinstance_Exception (e : exn) : isinstance e Exception = true.
Proof.
  destruct e as [m c r|le]; simpl.
  - reflexivity.
  - apply issubclass_Exception.
Qed.

Lemma api_error_not_lib (c : exc_class) m code r :
  c <> Exception -> isinstance (TrashMailAPIError m code r) c = false.
Proof. intros Hc. simpl. apply bool_decide_eq_false. exact Hc. Qed.

(** ** The JSON-safe parser *)

Section SafeJson.

Variable St : Type.
Variable safe_json : Response -> M St pyval.
Hypothesis safe_json_eq : forall response,
  safe_json response =
  try_except (lift_lib (json_method response))
    (fun e => if isinstance e RequestsJSONDecodeError then ret PyNone else raise e).

Lemma safe_json_cases (response : Response) (s : St) :
  match json_method response with
  | inr v => safe_json response s = (Return v, s)
  | inl e =>
      if issubclass (exc_cls e) RequestsJSONDecodeError
      then safe_json response s = (Return PyNone, s)
      else safe_json response s = (Raise (PyExc e), s)
  end.
Proof.
  rewrite safe_json_eq. unfold try_except, lift_lib.
  destruct (json_method response) as [e|v]; simpl; [|reflexivity].
  destruct (issubclass (exc_cls e) RequestsJSONDecodeError); reflexivity.
Qed.

Lemma safe_json_state (response : Response) (s : St) :
  snd (safe_json response s) = s.
Proof.
  pose proof (safe_json_cases response s) as H.
  destruct (json_method response) as [e|v].
  - destruct (issubclass (exc_cls e) RequestsJSONDecodeError); rewrite H; reflexivity.
  - rewrite H; reflexivity.
Qed.

Lemma safe_json_never_decode_error (response : Response) (s : St) (e : exn) :
  fst (safe_json response s) = Raise e -> isinstance e RequestsJSONDecodeError = false.
Proof.
  pose proof (safe_json_cases response s) as H.
  destruct (json_method response) as [le|v].
  - destruct (issubclass (exc_cls le) RequestsJSONDecodeError) eqn:Hc;
      rewrite H; simpl; intros [= <-]; simpl. exact Hc.
  - rewrite H; simpl; discriminate.
Qed.

End SafeJson.

(** C7. In both files [_safe_json] returns the parsed value when
    [response.json()] returns one, returns [None] when [response.json()]
    raises a [requests] [JSONDecodeError], and never lets an exception of
    that class out; the state is left as it was. *)
Theorem safe_json_never_propagates_decode_error (response : Response) :
  (forall s v, json_method response = inr v ->
     TrashmailApi._safe_json response s = (Return v, s))
  /\ (forall s e, json_method response = inl e ->
        issubclass (exc_cls e) RequestsJSONDecodeError = true ->
        TrashmailApi._safe_json response s = (Return PyNone, s))
  /\ (forall s e, fst (TrashmailApi._safe_json response s) = Raise e ->
        isinstance e RequestsJSONDecodeError = false)
  /\ (forall s v, json_method response = inr v ->
        FailingOpaque._safe_json response s = (Return v, s))
  /\ (forall s e, json_method response = inl e ->
        issubclass (exc_cls e) RequestsJSONDecodeError = true ->
        FailingOpaque._safe_json response s = (Return PyNone, s))
  /\ (forall s e, fst (FailingOpaque._safe_json response s) = Raise e ->
        isinstance e RequestsJSONDecodeError = false).
Proof.
  repeat split.
  - intros s v Hv.
    generalize (safe_json_cases _ TrashmailApi._safe_json (fun _ => eq_refl) response s).
    rewrite Hv. trivial.
  - intros s e He Hc.
    generalize (safe_json_cases _ TrashmailApi._safe_json (fun _ => eq_refl) response s).
    rewrite He, Hc. trivial.
  - intros s e. apply (safe_json_never_decode_error _ TrashmailApi._safe_json).
    reflexivity.
  - intros s v Hv.
    generalize (safe_json_cases _ FailingOpaque._safe_json (fun _ => eq_refl) response s).
    rewrite Hv. trivial.
  - intros s e He Hc.
    generalize (safe_json_cases _ FailingOpaque._safe_json (fun _ => eq_refl) response s).
    rewrite He, Hc. trivial.
  - intros s e. apply (safe_json_never_decode_error _ FailingOpaque._safe_json).
    reflexivity.
Qed.

Lemma safe_json_never_propagates_decode_error_witness :
  TrashmailApi._safe_json (mkResponse (inl decode_error) ∅)
    (TrashmailApi.fresh "https://trashmail.com" "en")
  = (Return PyNone, TrashmailApi.fresh "https://trashmail.com" "en")
  /\ FailingOpaque._safe_json (mkResponse (inr (PyInt 7)) ∅)
       (FailingOpaque.mkSt Session_new [])
     = (Return (PyInt 7), FailingOpaque.mkSt Session_new []).
Proof.
  split.
  - apply (safe_json_never_propagates_decode_error
             (mkResponse (inl decode_error) ∅)) with (e := decode_error);
      reflexivity.
  - apply (safe_json_never_propagates_decode_error
             (mkResponse (inr (PyInt 7)) ∅)); reflexivity.
Defined.

(** ** The URL and parameter builders *)

Lemma lookup_union_left_biased (extra builtin : gmap string pyval) (k : string) :
  (extra ∪ builtin) !! k =
  match extra !! k with
  | Some v => Some v
  | None => builtin !! k
  end.
Proof.
  destruct (extra !! k) as [v|] eqn:Hk.
  - apply lookup_union_Some_l. exact Hk.
  - rewrite lookup_union_r; [reflexivity | exact Hk].
Qed.

(** C6. Both builders return the base URL followed by a slash, and as
    parameters a dict made of the built-in keys overlaid with the extra
    parameters: the built-in keys are ["lang"] (the configured language),
    ["api"] (1, present exactly when [api] is true) and ["cmd"] (the command,
    present exactly when it is a non-empty string) and nothing else; every
    extra parameter is in the result and wins over a built-in key. *)
Theorem build_url_params :
  (forall (c : TrashmailApi.TrashMailClient) (cmd : string) (api : bool)
          (extra_params : gmap string pyval),
     let spec := TrashmailApi._build_url c cmd api extra_params in
     url spec = TrashmailApi.base_url c +:+ "/"
     /\ exists builtin : gmap string pyval,
          params spec = extra_params ∪ builtin
          /\ builtin !! "lang" = Some (PyStr (TrashmailApi.lang c))
          /\ builtin !! "api" = (if api then Some (PyInt 1) else None)
          /\ builtin !! "cmd" = (if String.eqb cmd "" then None else Some (PyStr cmd))
          /\ (forall k, k <> "lang" -> k <> "api" -> k <> "cmd" -> builtin !! k = None)
          /\ (forall k v, extra_params !! k = Some v -> params spec !! k = Some v)
          /\ (forall k, extra_params !! k = None -> params spec !! k = builtin !! k))
  /\ (forall (TRASHMAIL_API_URL : option string) (api : bool) (lang : string)
             (cmd : option string) (paramss : gmap string pyval),
        let spec := FailingOpaque.build_url TRASHMAIL_API_URL api lang cmd paramss in
        url spec = FailingOpaque.API_BASE_URL TRASHMAIL_API_URL +:+ "/"
        /\ exists builtin : gmap string pyval,
             params spec = paramss ∪ builtin
             /\ builtin !! "lang" = Some (PyStr lang)
             /\ builtin !! "api" = (if api then Some (PyInt 1) else None)
             /\ builtin !! "cmd" =
                match cmd with
                | Some c => if String.eqb c "" then None else Some (PyStr c)
                | None => None
                end
             /\ (forall k, k <> "lang" -> k <> "api" -> k <> "cmd" -> builtin !! k = None)
             /\ (forall k v, paramss !! k = Some v -> params spec !! k = Some v)
             /\ (forall k, paramss !! k = None -> params spec !! k = builtin !! k)).
Proof.
  split.
  - intros c cmd api extra spec. split; [reflexivity|].
    subst spec. unfold TrashmailApi._build_url. cbn [params truthy].
    eexists. split; [reflexivity|].
    repeat split.
    + destruct api, (String.eqb cmd ""); reflexivity.
    + destruct api, (String.eqb cmd ""); reflexivity.
    + destruct api, (String.eqb cmd ""); reflexivity.
    + intros k H1 H2 H3.
      destruct api, (String.eqb cmd ""); cbn [negb];
        repeat (rewrite lookup_insert_ne by congruence);
        apply lookup_singleton_ne; congruence.
    + intros k v Hk. rewrite lookup_union_left_biased, Hk. reflexivity.
    + intros k Hk. rewrite lookup_union_left_biased, Hk. reflexivity.
  - intros env api lang cmd extra spec. split; [reflexivity|].
    subst spec. unfold FailingOpaque.build_url. cbn [params truthy].
    eexists. split; [reflexivity|].
    repeat split.
    + destruct api, cmd as [c|]; try destruct (String.eqb c ""); reflexivity.
    + destruct api, cmd as [c|]; try destruct (String.eqb c ""); reflexivity.
    + destruct api, cmd as [c|]; try destruct (String.eqb c ""); reflexivity.
    + intros k H1 H2 H3.
      destruct api, cmd as [c|]; try destruct (String.eqb c ""); cbn [negb];
        repeat (rewrite lookup_insert_ne by congruence);
        apply lookup_singleton_ne; congruence.
    + intros k v Hk. rewrite lookup_union_left_biased, Hk. reflexivity.
    + intros k Hk. rewrite lookup_union_left_biased, Hk. reflexivity.
Qed.

Lemma build_url_params_witness :
  url (TrashmailApi._build_url (TrashmailApi.__init__ "https://trashmail.com" "en")
         "read_dea" true {[ "lang" := PyStr "de" ]})
  = "https://trashmail.com/"
  /\ params (TrashmailApi._build_url (TrashmailApi.__init__ "https://trashmail.com" "en")
               "read_dea" true {[ "lang" := PyStr "de" ]}) !! "lang"
     = Some (PyStr "de")
  /\ params (FailingOpaque.build_url None true "en" (Some "opaque_check") ∅) !! "cmd"
     = Some (PyStr "opaque_check").
Proof.
  destruct build_url_params as [Hclient Hscript].
  destruct (Hclient (TrashmailApi.__init__ "https://trashmail.com" "en")
              "read_dea" true {[ "lang" := PyStr "de" ]})
    as (Hurl & builtin & _ & _ & _ & _ & _ & Hextra & _).
  destruct (Hscript None true "en" (Some "opaque_check") ∅)
    as (_ & builtin' & _ & _ & _ & Hcmd & _ & _ & Hrest).
  split; [exact Hurl|]. split.
  - apply Hextra. reflexivity.
  - rewrite Hrest by reflexivity. exact Hcmd.
Defined.

(** ** Personal access tokens *)

Lemma login_raises_only_api_error (net : Transport) (u p : string)
    (s : TrashmailApi.St) (e : exn) :
  fst (TrashmailApi.login net u p s) = Raise e ->
  exists m code r, e = TrashMailAPIError m code r.
Proof.
  unfold TrashmailApi.login, try_except.
  match goal with |- context [match ?body s with _ => _ end] => destruct (body s) as [[b|e0] s0] end.
  - simpl. discriminate.
  - destruct e0 as [m code r|le].
    + simpl. intros [= <-]. eauto.
    + rewrite isinstance_Exception. simpl. intros [= <-]. eauto.
Qed.

Lemma is_pat_token_str (s : string) :
  TrashmailApi.is_pat_token (PyStr s) = true
  <-> startswith "tmpat_" s = true /\ 6 < String.length s.
Proof.
  unfold TrashmailApi.is_pat_token. cbn [truthy].
  rewrite !andb_true_iff, Nat.ltb_lt, negb_true_iff.
  split.
  - intros [_ H]. exact H.
  - intros [Hp Hl]. split; [|split; assumption].
    destruct s; [simpl in Hl; lia | reflexivity].
Qed.

(** C4, as the code has it. In both files [is_pat_token(s)] is True exactly
    when [s] starts with ["tmpat_"] and is longer than that prefix;
    [login_with_pat(username, token)] raises [ValueError] exactly when
    [token] does not start with ["tmpat_"]. *)
Theorem pat_token_format (s : string) :
  (TrashmailApi.is_pat_token (PyStr s) = true
   <-> startswith "tmpat_" s = true /\ 6 < String.length s)
  /\ (FailingOpaque.is_pat_token (PyStr s) = true
      <-> startswith "tmpat_" s = true /\ 6 < String.length s)
  /\ (forall (net : Transport) (username : string) (st : TrashmailApi.St),
        (exists e, fst (TrashmailApi.login_with_pat net username s st) = Raise e
                   /\ isinstance e ValueError = true)
        <-> startswith "tmpat_" s = false).
Proof.
  split; [apply is_pat_token_str|]. split; [apply is_pat_token_str|].
  intros net username st. unfold TrashmailApi.login_with_pat.
  destruct (startswith "tmpat_" s) eqn:Hp; cbn [negb]; split.
  - intros (e & He & Hv).
    destruct (login_raises_only_api_error _ _ _ _ _ He) as (m & code & r & ->).
    rewrite api_error_not_lib in Hv by discriminate. discriminate.
  - discriminate.
  - reflexivity.
  - intros _. eexists. split; reflexivity.
Qed.

Lemma pat_token_format_witness :
  TrashmailApi.is_pat_token (PyStr "tmpat_0123456789abcdef") = true
  /\ exists e,
       fst (TrashmailApi.login_with_pat (fun _ _ => inl decode_error) "user@example.com"
              "password" (TrashmailApi.fresh "https://trashmail.com" "en")) = Raise e
       /\ isinstance e ValueError = true.
Proof.
  split.
  - apply (pat_token_format "tmpat_0123456789abcdef"). split; [reflexivity|simpl; lia].
  - apply (pat_token_format "password"). reflexivity.
Defined.

(** C4 as stated fails: the bare prefix starts with ["tmpat_"], and
    [is_pat_token] is False on it. *)
Lemma is_pat_token_rejects_bare_prefix :
  ~ (forall s : string,
       TrashmailApi.is_pat_token (PyStr s) = true <-> startswith "tmpat_" s = true).
Proof.
  intros H. specialize (H "tmpat_"). destruct H as [_ H].
  specialize (H eq_refl). vm_compute in H. discriminate.
Qed.

(** ** Framing: what a computation leaves untouched *)

Section Keeps.

Context {St : Type} (R : St -> St -> Prop) `{!PreOrder R}.

Lemma keeps_ret {A} (a : A) : keeps R (ret a).
Proof. intros s. simpl. reflexivity. Qed.

Lemma keeps_raise {A} (e : exn) : keeps R (raise (A := A) e).
Proof. intros s. simpl. reflexivity. Qed.

Lemma keeps_raise_lib {A} c msg : keeps R (raise_lib (A := A) c msg).
Proof. apply keeps_raise. Qed.

Lemma keeps_get_state : keeps R get_state.
Proof. intros s. simpl. reflexivity. Qed.

Lemma keeps_lift_lib {A} (r : lib_exn + A) : keeps R (lift_lib r).
Proof. destruct r; [apply keeps_raise | apply keeps_ret]. Qed.

Lemma keeps_bind {A B} (c : M St A) (k : A -> M St B) :
  keeps R c -> (forall a, keeps R (k a)) -> keeps R (bind c k).
Proof.
  intros Hc Hk s. unfold bind.
  specialize (Hc s). destruct (c s) as [[a|e] s1]; simpl in *.
  - etransitivity; [exact Hc | apply Hk].
  - exact Hc.
Qed.

Lemma keeps_try_except {A} (body : M St A) (handler : exn -> M St A) :
  keeps R body -> (forall e, keeps R (handler e)) -> keeps R (try_except body handler).
Proof.
  intros Hc Hh s. unfold try_except.
  specialize (Hc s). destruct (body s) as [[a|e] s1]; simpl in *.
  - exact Hc.
  - etransitivity; [exact Hc | apply Hh].
Qed.

Lemma keeps_py_get v k dflt : keeps R (py_get v k dflt).
Proof. destruct v; first [apply keeps_ret | apply keeps_raise_lib]. Qed.

Lemma keeps_py_getitem v k : keeps R (py_getitem v k).
Proof.
  destruct v; simpl; try apply keeps_raise_lib.
  destruct (d !! k); [apply keeps_ret | apply keeps_raise_lib].
Qed.

Lemma keeps_bind_kwargs fname bound kw : keeps R (bind_kwargs fname bound kw).
Proof.
  unfold bind_kwargs.
  destruct (List.find _ bound); [apply keeps_raise_lib | apply keeps_ret].
Qed.

Lemma keeps_modify (f : St -> St) : (forall s, R s (f s)) -> keeps R (modify f).
Proof. intros Hf s. simpl. apply Hf. Qed.

Lemma keeps_after {A B} (c : M St A) (k : A -> M St B) (s : St) :
  (forall a, keeps R (k a)) -> R (snd (c s)) (snd (bind c k s)).
Proof.
  intros Hk. unfold bind. destruct (c s) as [[a|e] s1]; simpl.
  - apply Hk.
  - reflexivity.
Qed.

Lemma keeps_after_try {A} (body : M St A) (handler : exn -> M St A) (s : St) :
  (forall e, keeps R (handler e)) -> R (snd (body s)) (snd (try_except body handler s)).
Proof.
  intros Hh. unfold try_except. destruct (body s) as [[a|e] s1]; simpl.
  - reflexivity.
  - apply Hh.
Qed.

End Keeps.

Lemma keeps_weaken {St A} (R R' : St -> St -> Prop) (c : M St A) :
  (forall s s', R s s' -> R' s s') -> keeps R c -> keeps R' c.
Proof. intros HR Hc s. apply HR, Hc. Qed.

(** One step of a framing proof: take the computation apart along its
    binds, handlers and tests. *)
Ltac keeps_step :=
  match goal with
  | |- PreOrder _ => typeclasses eauto
  | |- forall _, keeps _ _ => intros ?
  | |- keeps _ (bind _ _) => apply keeps_bind
  | |- keeps _ (try_except _ _) => apply keeps_try_except
  | |- keeps _ (ret _) => apply keeps_ret
  | |- keeps _ (raise _) => apply keeps_raise
  | |- keeps _ (raise_lib _ _) => apply keeps_raise_lib
  | |- keeps _ get_state => apply keeps_get_state
  | |- keeps _ (lift_lib _) => apply keeps_lift_lib
  | |- keeps _ (py_get _ _ _) => apply keeps_py_get
  | |- keeps _ (py_getitem _ _) => apply keeps_py_getitem
  | |- keeps _ (bind_kwargs _ _ _) => apply keeps_bind_kwargs
  | |- keeps _ (if ?b then _ else _) => destruct b
  | |- keeps _ (match ?x with _ => _ end) => destruct x
  end.

Ltac keeps_auto := repeat keeps_step.

#[local] Instance same_auth_preorder : PreOrder same_auth.
Proof.
  split.
  - intros s. split; reflexivity.
  - intros s1 s2 s3 [H1 H2] [H3 H4]. split; congruence.
Qed.

#[local] Instance may_authenticate_preorder : PreOrder may_authenticate.
Proof.
  split.
  - intros s. left. reflexivity.
  - intros s1 s2 s3 [H12|H2] [H23|H3].
    + left. etransitivity; eassumption.
    + right. exact H3.
    + right. destruct H23 as [H _]. congruence.
    + right. exact H3.
Qed.

#[local] Instance same_wire_preorder : PreOrder same_wire.
Proof.
  split.
  - intros s. reflexivity.
  - intros s1 s2 s3 H1 H2. unfold same_wire in *. congruence.
Qed.

#[local] Instance same_state_preorder : PreOrder same_state.
Proof.
  split.
  - intros s. reflexivity.
  - intros s1 s2 s3 H1 H2. unfold same_state in *. congruence.
Qed.

(** ** The client's calls to the service *)

Section Client.

Import TrashmailApi.

Variable net : Transport.

Lemma keeps_safe_json (R : St -> St -> Prop) `{!PreOrder R} (r : Response) :
  keeps R (_safe_json r).
Proof. unfold _safe_json. keeps_auto. Qed.

Lemma wire_posted (spec : UrlSpec) (body : pyval) (s : St) :
  wire (posted net spec body s)
  = wire s ++ [the_call spec body (session (self s))].
Proof. unfold posted. destruct (net (wire s) _); reflexivity. Qed.

Lemma keeps_post_same_auth spec body : keeps same_auth (post net spec body).
Proof.
  intros s. unfold post, posted. simpl.
  destruct (net (wire s) _); split; reflexivity.
Qed.

Lemma keeps_api_call_same_auth cmd kw : keeps same_auth (api_call net cmd kw).
Proof.
  unfold api_call. keeps_auto;
    first [apply keeps_post_same_auth | apply keeps_safe_json; typeclasses eauto].
Qed.

Lemma api_call_not_authenticated cmd kw (s : St) :
  truthy (_authenticated (self s)) = false ->
  api_call net cmd kw s = (Raise not_authenticated_error, s).
Proof.
  intros H. unfold api_call, bind, get_state. rewrite H. reflexivity.
Qed.

(** Once authenticated, [api_call] makes exactly one call to
    [session.post] and the rest of it leaves the state alone. *)
Lemma api_call_state cmd kw (s : St) :
  truthy (_authenticated (self s)) = true ->
  snd (api_call net cmd kw s)
  = posted net (_build_url (self s) cmd true ∅) (PyDict kw) s.
Proof.
  intros H. unfold api_call at 1. unfold bind at 1. unfold get_state at 1.
  rewrite H. cbn [negb].
  unfold bind at 1. unfold post at 1.
  destruct (net (wire s) _) as [e|r] eqn:Hnet; [reflexivity|].
  match goal with |- snd (?c ?s1) = _ => change (same_state s1 (snd (c s1))) end.
  match goal with |- same_state ?s1 (snd (?c ?s1)) =>
    generalize s1; change (keeps same_state c) end.
  keeps_auto; apply keeps_safe_json; typeclasses eauto.
Qed.

End Client.

(** ** Calls on a client that is not authenticated *)

Lemma bind_kwargs_fresh {St} fname (kw : gmap string pyval) (s : St) :
  kw !! "self" = None -> kw !! "cmd" = None ->
  bind_kwargs fname ["self"; "cmd"] kw s = (Return tt, s).
Proof.
  intros H1 H2. unfold bind_kwargs. simpl. rewrite H1, H2. reflexivity.
Qed.

Lemma create_dea_kwargs (real_email : string) (options : gmap string pyval) (k : string) :
  k <> "realemail" -> options !! k = None ->
  (options ∪ {[ "realemail" := PyStr real_email ]}) !! k = None.
Proof.
  intros Hk Ho. rewrite lookup_union_left_biased, Ho.
  apply lookup_singleton_ne. congruence.
Qed.

Lemma logout_handler_catches (net : Transport) (s : TrashmailApi.St) :
  fst (try_except (TrashmailApi.api_call net "logout" ∅ ;;; ret tt)
         (fun e => if isinstance e Exception then ret tt else raise e) s)
  = Return tt.
Proof.
  unfold try_except.
  destruct ((TrashmailApi.api_call net "logout" ∅ ;;; ret tt) s) as [[[]|e] s1].
  - reflexivity.
  - rewrite isinstance_Exception. reflexivity.
Qed.

Lemma logout_returns (net : Transport) (s : TrashmailApi.St) :
  TrashmailApi.logout net s =
  (Return true,
   TrashmailApi.set_session Session_new
     (TrashmailApi.set_username PyNone
        (TrashmailApi.set_authenticated (PyBool false)
           (snd (TrashmailApi.api_call net "logout" ∅ s))))).
Proof.
  unfold TrashmailApi.logout, try_except, bind.
  destruct (TrashmailApi.api_call net "logout" ∅ s) as [[v|e] s1]; simpl.
  - reflexivity.
  - rewrite isinstance_Exception. reflexivity.
Qed.

Lemma api_call_keeps_configuration (net : Transport) cmd kw (s : TrashmailApi.St) :
  TrashmailApi.base_url (TrashmailApi.self (snd (TrashmailApi.api_call net cmd kw s)))
  = TrashmailApi.base_url (TrashmailApi.self s)
  /\ TrashmailApi.lang (TrashmailApi.self (snd (TrashmailApi.api_call net cmd kw s)))
     = TrashmailApi.lang (TrashmailApi.self s).
Proof.
  destruct (truthy (TrashmailApi._authenticated (TrashmailApi.self s))) eqn:Ha.
  - rewrite api_call_state by exact Ha. unfold TrashmailApi.posted.
    destruct (net _ _); split; reflexivity.
  - rewrite api_call_not_authenticated by exact Ha. split; reflexivity.
Qed.

(** C2, as the code has it. On a client that is not authenticated,
    [get_deas] and [create_dea] (its options naming neither [cmd] nor
    [self]) raise the [TrashMailAPIError] of [api_call] and call
    [session.post] not at all.  The [api_call] inside [logout] raises the same
    error, and [logout] swallows it and returns True. *)
Theorem not_authenticated_calls (net : Transport) (s : TrashmailApi.St) :
  truthy (TrashmailApi._authenticated (TrashmailApi.self s)) = false ->
  TrashmailApi.get_deas net s = (Raise not_authenticated_error, s)
  /\ (forall real_email options,
        options !! "cmd" = None -> options !! "self" = None ->
        TrashmailApi.create_dea net real_email options s
        = (Raise not_authenticated_error, s))
  /\ TrashmailApi.api_call net "logout" ∅ s = (Raise not_authenticated_error, s)
  /\ fst (TrashmailApi.logout net s) = Return true.
Proof.
  intros H. repeat split.
  - unfold TrashmailApi.get_deas, bind.
    rewrite api_call_not_authenticated by exact H. reflexivity.
  - intros real_email options Hcmd Hself.
    unfold TrashmailApi.create_dea, TrashmailApi.call_api_call.
    unfold bind at 1. unfold bind at 1.
    rewrite bind_kwargs_fresh by (apply create_dea_kwargs; [discriminate | assumption]).
    rewrite api_call_not_authenticated by exact H. reflexivity.
  - apply api_call_not_authenticated. exact H.
  - rewrite logout_returns. reflexivity.
Qed.

Lemma not_authenticated_calls_witness :
  TrashmailApi.get_deas unreachable (TrashmailApi.fresh "https://trashmail.com" "en")
  = (Raise not_authenticated_error, TrashmailApi.fresh "https://trashmail.com" "en")
  /\ TrashmailApi.create_dea unreachable "me@example.com" {[ "expire" := PyInt 7 ]}
       (TrashmailApi.fresh "https://trashmail.com" "en")
     = (Raise not_authenticated_error, TrashmailApi.fresh "https://trashmail.com" "en").
Proof.
  destruct (not_authenticated_calls unreachable
              (TrashmailApi.fresh "https://trashmail.com" "en") eq_refl)
    as (Hget & Hcreate & _ & _).
  split; [exact Hget|].
  apply Hcreate; reflexivity.
Defined.

(** C2 as stated fails for [logout]: on a client that was never logged in it
    returns True where the claim has it raise. *)
Lemma logout_does_not_raise_when_not_authenticated :
  ~ (forall (net : Transport) (s : TrashmailApi.St),
       truthy (TrashmailApi._authenticated (TrashmailApi.self s)) = false ->
       exists m code r,
         fst (TrashmailApi.logout net s) = Raise (TrashMailAPIError m code r)).
Proof.
  intros H.
  destruct (H unreachable (TrashmailApi.fresh "https://trashmail.com" "en") eq_refl)
    as (m & code & r & Hraise).
  vm_compute in Hraise. discriminate.
Qed.

(** ** Logout *)

(** C10. [logout] returns True from every state and over every transport,
    also one that raises: afterwards the client is not authenticated, has no
    username and holds a new session; its URL and language are as before. *)
Theorem logout_always_resets (net : Transport) (s : TrashmailApi.St) :
  exists s',
    TrashmailApi.logout net s = (Return true, s')
    /\ TrashmailApi.is_authenticated (TrashmailApi.self s') = PyBool false
    /\ TrashmailApi.username (TrashmailApi.self s') = PyNone
    /\ TrashmailApi.session (TrashmailApi.self s') = Session_new
    /\ TrashmailApi.base_url (TrashmailApi.self s')
       = TrashmailApi.base_url (TrashmailApi.self s)
    /\ TrashmailApi.lang (TrashmailApi.self s') = TrashmailApi.lang (TrashmailApi.self s).
Proof.
  rewrite logout_returns. eexists. split; [reflexivity|].
  destruct (api_call_keeps_configuration net "logout" ∅ s) as [Hb Hl].
  simpl. auto.
Qed.

(** ** The commands behind the methods *)

Section Commands.

Import TrashmailApi.

Variable net : Transport.

Lemma build_url_command (c : TrashMailClient) (cmd : string) (body : gmap string pyval) :
  cmd <> "" ->
  the_call (_build_url c cmd true ∅) (PyDict body) (session c) = command_call c cmd body.
Proof.
  intros Hcmd. unfold the_call, command_call, _build_url. cbn [url params truthy].
  destruct (String.eqb_spec cmd ""); [contradiction|]. cbn [negb].
  rewrite (left_id_L ∅ (∪)). reflexivity.
Qed.

Lemma dict_truthy (d : gmap string pyval) (k : string) (v : pyval) :
  d !! k = Some v -> truthy (PyDict d) = true.
Proof.
  intros Hk. simpl. destruct (map_to_list d) eqn:Hl; [|reflexivity].
  apply map_to_list_empty_iff in Hl. subst d. rewrite lookup_empty in Hk. discriminate.
Qed.

Lemma safe_json_value (r : Response) (v : pyval) (s : St) :
  json_method r = inr v -> _safe_json r s = (Return v, s).
Proof. intros H. unfold _safe_json, try_except. rewrite H. reflexivity. Qed.


Lemma login_wire (u p : string) (s : St) :
  wire (snd (login net u p s))
  = wire (posted net (_build_url (self s) "login" true ∅)
            (PyDict (<["fe-login-user" := PyStr u]> (<["fe-login-pass" := PyStr p]> ∅))) s).
Proof.
  unfold login.
  match goal with |- wire (snd (try_except ?body ?h s)) = _ =>
    transitivity (wire (snd (body s)))
  end.
  - apply (keeps_after_try same_wire). intros e.
    destruct e as [m code r|le]; [apply keeps_raise; typeclasses eauto|].
    destruct (isinstance _ _); apply keeps_raise; typeclasses eauto.
  - unfold bind at 1. unfold get_state at 1.
    match goal with |- wire (snd (bind ?c ?k s)) = _ =>
      apply (keeps_after same_wire c k s)
    end.
    intros r. keeps_auto;
      first [ apply keeps_safe_json; typeclasses eauto
            | apply keeps_modify; intros s0; reflexivity ].
Qed.

End Commands.

Lemma get_deas_state (net : Transport) (s : TrashmailApi.St) :
  TrashmailApi.wire (snd (TrashmailApi.get_deas net s))
  = TrashmailApi.wire (snd (TrashmailApi.api_call net "read_dea" ∅ s)).
Proof.
  unfold TrashmailApi.get_deas.
  apply (keeps_after same_wire). intros a. apply keeps_py_get. typeclasses eauto.
Qed.


Lemma command_wire (net : Transport) (cmd : string) (body : gmap string pyval)
    (s : TrashmailApi.St) :
  cmd <> "" ->
  TrashmailApi.wire
    (TrashmailApi.posted net (TrashmailApi._build_url (TrashmailApi.self s) cmd true ∅)
       (PyDict body) s)
  = TrashmailApi.wire s ++ [command_call (TrashmailApi.self s) cmd body].
Proof.
  intros Hcmd. rewrite wire_posted, build_url_command by exact Hcmd. reflexivity.
Qed.




(** ** Login and the second factor *)

Lemma login_second_factor (net : Transport) (u p : string) (s : TrashmailApi.St)
    (r : Response) (d data : gmap string pyval) (v w : pyval) :
  net (TrashmailApi.wire s)
    (command_call (TrashmailApi.self s) "login"
       (<["fe-login-user" := PyStr u]> (<["fe-login-pass" := PyStr p]> ∅))) = inr r ->
  json_method r = inr (PyDict d) ->
  d !! "success" = Some v -> truthy v = true ->
  d !! "data" = Some (PyDict data) ->
  data !! "requires_2fa" = Some w -> truthy w = true ->
  TrashmailApi.login net u p s
  = (Return false,
     TrashmailApi.set_username (PyStr u)
       (TrashmailApi.set_authenticated (PyBool true)
          (TrashmailApi.posted net
             (TrashmailApi._build_url (TrashmailApi.self s) "login" true ∅)
             (PyDict (<["fe-login-user" := PyStr u]> (<["fe-login-pass" := PyStr p]> ∅)))
             s))).
Proof.
  intros Hnet Hjson Hsucc Hv Hdata Hw Hwt.
  rewrite <- build_url_command in Hnet by discriminate.
  unfold TrashmailApi.login, try_except.
  unfold bind at 1. unfold get_state at 1.
  unfold bind at 1. unfold TrashmailApi.post at 1. rewrite Hnet.
  unfold bind at 1. rewrite (safe_json_value _ _ _ Hjson).
  rewrite (dict_truthy _ _ _ Hsucc). cbn [negb].
  unfold bind at 1. cbn [py_get ret]. rewrite Hsucc.
  unfold default at 1. cbn [from_option id]. rewrite Hv.
  unfold bind, modify. cbn [py_get ret]. rewrite Hdata.
  unfold default at 1. cbn [from_option id py_get ret]. rewrite Hw.
  unfold default at 1. cbn [from_option id]. rewrite Hwt. reflexivity.
Qed.

(** C8. There is a server response, with ["success"] true and
    [data.requires_2fa] true, on which [login] returns False and leaves the
    client authenticated, its username the one that was tried. *)
Theorem login_false_yet_authenticated :
  exists (response : Response) (d data : gmap string pyval),
    json_method response = inr (PyDict d)
    /\ d !! "success" = Some (PyBool true)
    /\ d !! "data" = Some (PyDict data)
    /\ data !! "requires_2fa" = Some (PyBool true)
    /\ forall (s : TrashmailApi.St) (username password : string),
         let after := TrashmailApi.login (always response) username password s in
         fst after = Return false
         /\ TrashmailApi.is_authenticated (TrashmailApi.self (snd after)) = PyBool true
         /\ TrashmailApi.username (TrashmailApi.self (snd after)) = PyStr username.
Proof.
  exists requires_2fa_response. do 2 eexists.
  split; [reflexivity|]. split; [reflexivity|]. split; [reflexivity|].
  split; [reflexivity|].
  intros s u p after. subst after.
  erewrite login_second_factor; try reflexivity.
  repeat split.
Qed.

(** ** The two states of a client *)

Section StateMachine.

Import TrashmailApi.

Variable net : Transport.

Lemma keeps_check_auth_methods u : keeps same_auth (check_auth_methods net u).
Proof.
  unfold check_auth_methods. keeps_auto;
    first [apply keeps_post_same_auth | apply keeps_safe_json; typeclasses eauto].
Qed.

Lemma keeps_call_api_call cmd kw : keeps same_auth (call_api_call net cmd kw).
Proof. unfold call_api_call. keeps_auto. apply keeps_api_call_same_auth. Qed.

Lemma keeps_get_deas : keeps same_auth (get_deas net).
Proof. unfold get_deas. keeps_auto. apply keeps_api_call_same_auth. Qed.

Lemma keeps_create_dea r o : keeps same_auth (create_dea net r o).
Proof. unfold create_dea. keeps_auto. apply keeps_call_api_call. Qed.

(** The two assignments of a successful login, and what follows them. *)
Lemma keeps_login_success {A} (u : string) (rest : M St A) :
  keeps same_auth rest ->
  keeps may_authenticate
    (modify (set_authenticated (PyBool true)) ;;; modify (set_username (PyStr u)) ;;; rest).
Proof.
  intros Hrest s. right. unfold bind, modify. cbn [fst snd].
  destruct (Hrest (set_username (PyStr u) (set_authenticated (PyBool true) s))) as [Ha _].
  destruct (rest _) as [[a|e] s1]; cbn [snd] in *; rewrite Ha; reflexivity.
Qed.

Lemma same_auth_may_authenticate {A} (c : M St A) :
  keeps same_auth c -> keeps may_authenticate c.
Proof. apply keeps_weaken. intros s s' H. left. exact H. Qed.

Lemma keeps_login u p : keeps may_authenticate (login net u p).
Proof.
  unfold login.
  apply keeps_try_except; [typeclasses eauto | |].
  - apply keeps_bind; [typeclasses eauto | apply keeps_get_state; typeclasses eauto |].
    intros c.
    apply keeps_bind; [typeclasses eauto | |].
    { apply same_auth_may_authenticate, keeps_post_same_auth. }
    intros response.
    apply keeps_bind; [typeclasses eauto | apply keeps_safe_json; typeclasses eauto |].
    intros result. destruct (negb (truthy result)); [keeps_auto|].
    apply keeps_bind; [typeclasses eauto | keeps_auto |].
    intros success. destruct (truthy success); [|keeps_auto].
    apply keeps_login_success. keeps_auto.
  - intros e. keeps_auto.
Qed.

Lemma keeps_login_with_pat u t : keeps may_authenticate (login_with_pat net u t).
Proof. unfold login_with_pat. keeps_auto. apply keeps_login. Qed.

Lemma logout_state (s : St) :
  _authenticated (self (snd (logout net s))) = PyBool false
  /\ _username (self (snd (logout net s))) = PyNone.
Proof. rewrite logout_returns. split; reflexivity. Qed.

(** What one call does to the authentication attributes, by method. *)
Lemma step_auth (m : method_call) (s : St) :
  match m with
  | Call_login _ _ | Call_login_with_pat _ _ => may_authenticate s (step net m s)
  | Call_logout =>
      _authenticated (self (step net m s)) = PyBool false
      /\ _username (self (step net m s)) = PyNone
  | _ => same_auth s (step net m s)
  end.
Proof.
  destruct m; cbn [step]; unfold discard;
    try (split; reflexivity).
  - apply keeps_safe_json. typeclasses eauto.
  - apply keeps_check_auth_methods.
  - apply keeps_login.
  - apply keeps_login_with_pat.
  - apply keeps_call_api_call.
  - apply keeps_get_deas.
  - apply keeps_create_dea.
  - apply logout_state.
Qed.

Lemma step_invariant (m : method_call) (s : St) :
  auth_invariant s -> auth_invariant (step net m s).
Proof.
  intros (b & Hb & Hu). unfold auth_invariant, is_authenticated, username in *.
  pose proof (step_auth m s) as H.
  destruct m;
    try (destruct H as [Ha Hn]; exists b; rewrite Ha, Hn; split; assumption);
    try (destruct H as [[Ha Hn]|Ht];
         [ exists b; rewrite Ha, Hn; split; assumption
         | exists true; split; [exact Ht | discriminate] ]).
  destruct H as [Ha Hn]. exists false. split; [exact Ha | intros _; exact Hn].
Qed.

Lemma run_invariant (ms : list method_call) (s : St) :
  auth_invariant s -> auth_invariant (run net ms s).
Proof.
  revert s. induction ms as [|m ms IH]; intros s Hs; [exact Hs|].
  cbn [run fold_left]. apply IH, step_invariant, Hs.
Qed.

(** A login that the service accepts leaves the client authenticated under
    the username tried, whatever the call then returns or raises. *)
Lemma login_success_state (u p : string) (s : St) (r : Response)
    (d : gmap string pyval) (v : pyval) :
  net (wire s) (command_call (self s) "login" (login_body u p)) = inr r ->
  json_method r = inr (PyDict d) ->
  d !! "success" = Some v -> truthy v = true ->
  snd (login net u p s)
  = set_username (PyStr u) (set_authenticated (PyBool true) (login_posted net u p s)).
Proof.
  intros Hnet Hjson Hsucc Hv.
  rewrite <- build_url_command in Hnet by discriminate.
  unfold login, try_except, login_body, login_posted in *.
  unfold bind at 1. unfold get_state at 1.
  unfold bind at 1. unfold post at 1. rewrite Hnet.
  unfold bind at 1. rewrite (safe_json_value _ _ _ Hjson).
  rewrite (dict_truthy _ _ _ Hsucc). cbn [negb].
  unfold bind at 1. cbn [py_get ret]. rewrite Hsucc.
  unfold default at 1. cbn [from_option id]. rewrite Hv.
  unfold bind at 1. unfold modify at 1.
  unfold bind at 1. unfold modify at 1.
  unfold bind at 1. cbn [py_get ret].
  destruct (default (PyDict ∅) (d !! "data")) as [| | | | | | |data] eqn:Hd;
    try (unfold bind; cbn [py_get raise_lib raise]; reflexivity).
  unfold bind. cbn [py_get ret].
  destruct (truthy (default PyNone (data !! "requires_2fa"))); reflexivity.
Qed.

End StateMachine.

(** C5. After any sequence of method calls on a newly constructed client,
    [_authenticated] holds a bool, and the username is None whenever that
    bool is False.  From there, [logout] always sets [_authenticated] back to
    False and the username to None; [login] sets [_authenticated] to True,
    and the username to the one tried, when the service answers with a JSON
    object whose ["success"] is true.  No other call moves the flag: one more
    call takes the client from not authenticated to authenticated only if it
    is [login] (or [login_with_pat], which ends in a call to [login]), and
    from authenticated to not authenticated only if it is [logout]. *)
Theorem authenticated_state_machine (net : Transport) (base_url lang : string)
    (ms : list TrashmailApi.method_call) :
  let s := TrashmailApi.run net ms (TrashmailApi.fresh base_url lang) in
  (exists b : bool,
     TrashmailApi.is_authenticated (TrashmailApi.self s) = PyBool b
     /\ (b = false -> TrashmailApi.username (TrashmailApi.self s) = PyNone))
  /\ (let s' := TrashmailApi.step net TrashmailApi.Call_logout s in
      TrashmailApi.is_authenticated (TrashmailApi.self s') = PyBool false
      /\ TrashmailApi.username (TrashmailApi.self s') = PyNone)
  /\ (forall (u p : string) (r : Response) (d : gmap string pyval) (v : pyval),
        net (TrashmailApi.wire s)
          (command_call (TrashmailApi.self s) "login" (login_body u p)) = inr r ->
        json_method r = inr (PyDict d) ->
        d !! "success" = Some v -> truthy v = true ->
        let s' := TrashmailApi.step net (TrashmailApi.Call_login u p) s in
        TrashmailApi.is_authenticated (TrashmailApi.self s') = PyBool true
        /\ TrashmailApi.username (TrashmailApi.self s') = PyStr u)
  /\ forall m : TrashmailApi.method_call,
       let s' := TrashmailApi.step net m s in
       (TrashmailApi.is_authenticated (TrashmailApi.self s) = PyBool false ->
        TrashmailApi.is_authenticated (TrashmailApi.self s') = PyBool true ->
        exists u p, m = TrashmailApi.Call_login u p
                    \/ m = TrashmailApi.Call_login_with_pat u p)
       /\ (TrashmailApi.is_authenticated (TrashmailApi.self s) = PyBool true ->
           TrashmailApi.is_authenticated (TrashmailApi.self s') = PyBool false ->
           m = TrashmailApi.Call_logout).
Proof.
  intros s. split; [|split; [|split]].
  - apply run_invariant. exists false. split; reflexivity.
  - intros s'. subst s'. apply (step_auth net TrashmailApi.Call_logout s).
  - intros u p r d v Hnet Hjson Hsucc Hv s'. subst s'.
    cbn [TrashmailApi.step]. unfold TrashmailApi.discard.
    rewrite (login_success_state net u p s r d v Hnet Hjson Hsucc Hv).
    split; reflexivity.
  - intros m s'. subst s'. unfold TrashmailApi.is_authenticated.
    pose proof (step_auth net m s) as H.
    split; intros H0 H1.
    + destruct m; try (destruct H as [Ha _]; congruence); eauto.
    + destruct m; try (destruct H as [Ha _]; congruence); try reflexivity.
      * destruct H as [[Ha _]|Ht]; congruence.
      * destruct H as [[Ha _]|Ht]; congruence.
Qed.

Lemma authenticated_state_machine_witness :
  let start := TrashmailApi.fresh "https://trashmail.com" "en" in
  let login := TrashmailApi.Call_login "user@example.com" "secret" in
  let s := TrashmailApi.run (always cookie_response) [login] start in
  let s' := TrashmailApi.step (always cookie_response) TrashmailApi.Call_logout s in
  (TrashmailApi.is_authenticated (TrashmailApi.self start) = PyBool false
   /\ TrashmailApi.username (TrashmailApi.self start) = PyNone)
  /\ (TrashmailApi.is_authenticated (TrashmailApi.self s) = PyBool true
      /\ TrashmailApi.username (TrashmailApi.self s) = PyStr "user@example.com")
  /\ (TrashmailApi.is_authenticated (TrashmailApi.self s') = PyBool false
      /\ TrashmailApi.username (TrashmailApi.self s') = PyNone)
  /\ (exists u p, login = TrashmailApi.Call_login u p
                  \/ login = TrashmailApi.Call_login_with_pat u p)
  /\ TrashmailApi.Call_logout = TrashmailApi.Call_logout.
Proof.
  intros start login s s'.
  destruct (authenticated_state_machine (always cookie_response)
              "https://trashmail.com" "en" []) as (_ & _ & Hlogin & Hstep0).
  destruct (authenticated_state_machine (always cookie_response)
              "https://trashmail.com" "en" [login]) as (_ & Hlogout & _ & Hstep1).
  destruct (Hstep0 login) as [Hup _].
  destruct (Hstep1 TrashmailApi.Call_logout) as [_ Hdown].
  split; [split; reflexivity|].
  split.
  { apply (Hlogin "user@example.com" "secret" cookie_response
             {[ "success" := PyBool true ]} (PyBool true));
      reflexivity. }
  split; [exact Hlogout|].
  split.
  - apply Hup; vm_compute; reflexivity.
  - apply Hdown; vm_compute; reflexivity.
Defined.

(** ** The login of [failing_opaque_code.py] *)

Lemma legacy_login_unbound : FailingOpaque.name_is_bound "legacy_login" = false.
Proof. vm_compute. reflexivity. Qed.

Lemma HTTPError_unbound : FailingOpaque.name_is_bound "HTTPError" = false.
Proof. vm_compute. reflexivity. Qed.

(** C1 fails on the code. With a password that is not a PAT token,
    [api_login] skips the OPAQUE path and then evaluates the name
    [legacy_login], which the module binds nowhere: it raises [NameError]
    with no call to [session.post] made, whatever the transport, the
    [opaque] package and the meaning the two missing names might have. *)
Theorem api_login_fallback_is_unbound
    (TRASHMAIL_API_URL TRASHMAIL_LANG : option string) (net : Transport)
    (opaque_lib : lib_exn + FailingOpaque.OpaqueLib)
    (legacy_login : string -> string -> M FailingOpaque.St pyval)
    (HTTPError : pyval -> Response -> exn) (isinstance_HTTPError : exn -> bool)
    (username password : string) (s : FailingOpaque.St) :
  FailingOpaque.is_pat_token (PyStr password) = false ->
  FailingOpaque.api_login TRASHMAIL_API_URL TRASHMAIL_LANG net opaque_lib
    legacy_login HTTPError isinstance_HTTPError username password s
  = (Raise (PyExc (LibExn NameError "name 'legacy_login' is not defined")),
     {| FailingOpaque.session := Session_new;
        FailingOpaque.wire := FailingOpaque.wire s |}).
Proof.
  intros Hpat. unfold FailingOpaque.api_login.
  unfold bind at 1. unfold modify at 1.
  rewrite Hpat. unfold bind at 1. cbn [ret].
  unfold bind at 1. unfold FailingOpaque.load_global.
  rewrite legacy_login_unbound. reflexivity.
Qed.

Lemma api_login_fallback_is_unbound_witness :
  FailingOpaque.api_login None None unreachable
    (inl (LibExn ModuleNotFoundError "No module named 'opaque'"))
    (fun _ _ => ret (PyBool true))
    (fun _ _ => PyExc (LibExn RequestException "400 Client Error"))
    (fun _ => false)
    "user@example.com" "secret" (FailingOpaque.mkSt Session_new [])
  = (Raise (PyExc (LibExn NameError "name 'legacy_login' is not defined")),
     FailingOpaque.mkSt Session_new []).
Proof.
  apply (api_login_fallback_is_unbound None None unreachable
           (inl (LibExn ModuleNotFoundError "No module named 'opaque'"))
           (fun _ _ => ret (PyBool true))
           (fun _ _ => PyExc (LibExn RequestException "400 Client Error"))
           (fun _ => false)
           "user@example.com" "secret" (FailingOpaque.mkSt Session_new [])).
  reflexivity.
Defined.

(** ** The base64 helpers *)

Example b64encode_hello :
  FailingOpaque._b64encode (list_byte_of_string "hello") = inr "aGVsbG8".
Proof. vm_compute. reflexivity. Qed.

Example b64decode_hello :
  FailingOpaque._b64decode "aGVsbG8" = inr (list_byte_of_string "hello").
Proof. vm_compute. reflexivity. Qed.

Example b64_roundtrip_url_safe_character :
  FailingOpaque._b64encode [xfb] = inr "-w"
  /\ FailingOpaque._b64decode "-w" = inr [xfb].
Proof. split; vm_compute; reflexivity. Qed.

(** C9 fails on the code. The three bytes [ff ff ff] encode to ["____"];
    the standard decoder, tried first, drops the four characters as foreign
    to its alphabet and returns the empty byte string without an error, so
    the url-safe decoder is never tried. *)
Theorem b64_roundtrip_loses_bytes :
  FailingOpaque._b64encode [xff; xff; xff] = inr "____"
  /\ FailingOpaque._b64decode "____" = inr []
  /\ Base64.urlsafe_b64decode "____" = inr [xff; xff; xff].
Proof. repeat split; vm_compute; reflexivity. Qed.

(** * Further properties of [trashmail_api.py] *)

(** ** The outcomes of [login] *)

Section LoginOutcomes.

Import TrashmailApi.

Variable net : Transport.

Lemma login_call_eq (u p : string) (s : St) :
  the_call (_build_url (self s) "login" true ∅) (PyDict (login_body u p))
    (session (self s))
  = command_call (self s) "login" (login_body u p).
Proof. apply build_url_command. discriminate. Qed.

Lemma py_get_not_dict {S} (v : pyval) (k : string) (dflt : pyval) (s : S) :
  is_dict v = false ->
  py_get v k dflt s = (Raise (PyExc (no_get_error v)), s).
Proof. destruct v; try discriminate; reflexivity. Qed.

(** The body of [login] from the point where the response is parsed. *)
Lemma login_on_response (u p : string) (s : St) (r : Response) :
  net (wire s) (command_call (self s) "login" (login_body u p)) = inr r ->
  login net u p s =
  try_except
    (result <- _safe_json r ;;
     if negb (truthy result) then
       raise (TrashMailAPIError (PyStr "Invalid response from server") PyNone None)
     else
       success <- py_get result "success" PyNone ;;
       if truthy success then
         modify (set_authenticated (PyBool true)) ;;;
         modify (set_username (PyStr u)) ;;;
         data <- py_get result "data" (PyDict ∅) ;;
         requires_2fa <- py_get data "requires_2fa" PyNone ;;
         if truthy requires_2fa then ret false else ret true
       else
         error_msg <- py_get result "msg" (PyStr "Login failed") ;;
         error_code <- py_get result "error_code" PyNone ;;
         raise (TrashMailAPIError error_msg error_code (Some r)))
    (fun e =>
       match e with
       | TrashMailAPIError _ _ _ => raise e
       | PyExc le =>
           if isinstance e Exception then
             raise (TrashMailAPIError (PyStr ("Login error: " +:+ exc_str le)) PyNone None)
           else raise e
       end)
    (login_posted net u p s).
Proof.
  intros Hnet. rewrite <- login_call_eq in Hnet.
  unfold login, try_except, login_body, login_posted in *.
  unfold bind at 1. unfold get_state at 1.
  unfold bind at 1. unfold post at 1. rewrite Hnet. reflexivity.
Qed.

End LoginOutcomes.

(** X1. When the answer to [login] is a JSON object whose ["success"] is
    true, the client ends up authenticated under the username tried, whatever
    the call then gives back: True, or False when [data.requires_2fa] is
    true, or a [TrashMailAPIError] when ["data"] is not an object. *)
Theorem login_on_success_answer (net : Transport) (u p : string)
    (s : TrashmailApi.St) (r : Response) (d : gmap string pyval) (v : pyval) :
  net (TrashmailApi.wire s)
    (command_call (TrashmailApi.self s) "login" (login_body u p)) = inr r ->
  json_method r = inr (PyDict d) ->
  d !! "success" = Some v -> truthy v = true ->
  TrashmailApi.login net u p s
  = (match default (PyDict ∅) (d !! "data") with
     | PyDict data =>
         Return (negb (truthy (default PyNone (data !! "requires_2fa"))))
     | other =>
         Raise (TrashMailAPIError
                  (PyStr ("Login error: " +:+ exc_str (no_get_error other)))
                  PyNone None)
     end,
     TrashmailApi.set_username (PyStr u)
       (TrashmailApi.set_authenticated (PyBool true) (login_posted net u p s))).
Proof.
  intros Hnet Hjson Hsucc Hv.
  rewrite (login_on_response net u p s r Hnet). unfold try_except.
  unfold bind at 1. rewrite (safe_json_value _ _ _ Hjson).
  rewrite (dict_truthy _ _ _ Hsucc). cbn [negb].
  unfold bind at 1. cbn [py_get ret]. rewrite Hsucc.
  unfold default at 1. cbn [from_option id]. rewrite Hv.
  unfold bind at 1. unfold modify at 1.
  unfold bind at 1. unfold modify at 1.
  unfold bind at 1. cbn [py_get ret].
  destruct (default (PyDict ∅) (d !! "data")) as [| | | | | | |data] eqn:Hd;
    try (unfold bind; cbn [py_get raise_lib raise]; reflexivity).
  unfold bind. cbn [py_get ret].
  destruct (truthy (default PyNone (data !! "requires_2fa"))); reflexivity.
Qed.

Lemma login_on_success_answer_witness :
  TrashmailApi.login (always dea_list_response) "user@example.com" "secret"
    (TrashmailApi.fresh "https://trashmail.com" "en")
  = (Raise (TrashMailAPIError
              (PyStr "Login error: 'list' object has no attribute 'get'") PyNone None),
     TrashmailApi.set_username (PyStr "user@example.com")
       (TrashmailApi.set_authenticated (PyBool true)
          (login_posted (always dea_list_response) "user@example.com" "secret"
             (TrashmailApi.fresh "https://trashmail.com" "en")))).
Proof.
  rewrite (login_on_success_answer (always dea_list_response) "user@example.com"
             "secret" (TrashmailApi.fresh "https://trashmail.com" "en")
             dea_list_response
             (<["success" := PyBool true]>
              (<["data" := PyList [PyDict {[ "dea" := PyStr "x1@trashmail.com" ]}]]> ∅))
             (PyBool true)) by reflexivity.
  reflexivity.
Defined.

(** X2. When the answer to [login] is a non-empty JSON object whose
    ["success"] is missing or false, [login] raises [TrashMailAPIError] with
    the answer's ["msg"] (or "Login failed"), its ["error_code"] (or None)
    and the response, and the authentication attributes stay as they
    were. *)
Theorem login_rejected (net : Transport) (u p : string)
    (s : TrashmailApi.St) (r : Response) (d : gmap string pyval) :
  net (TrashmailApi.wire s)
    (command_call (TrashmailApi.self s) "login" (login_body u p)) = inr r ->
  json_method r = inr (PyDict d) ->
  truthy (PyDict d) = true ->
  truthy (default PyNone (d !! "success")) = false ->
  TrashmailApi.login net u p s
  = (Raise (TrashMailAPIError (default (PyStr "Login failed") (d !! "msg"))
              (default PyNone (d !! "error_code")) (Some r)),
     login_posted net u p s)
  /\ same_auth s (login_posted net u p s).
Proof.
  intros Hnet Hjson Hd Hs. split.
  - rewrite (login_on_response net u p s r Hnet). unfold try_except.
    unfold bind at 1. rewrite (safe_json_value _ _ _ Hjson).
    rewrite Hd. cbn [negb].
    unfold bind at 1. cbn [py_get ret]. rewrite Hs. reflexivity.
  - apply (keeps_post_same_auth net).
Qed.

Lemma login_rejected_witness :
  fst (TrashmailApi.login (always rejected_response) "user@example.com" "wrong"
         (TrashmailApi.fresh "https://trashmail.com" "en"))
  = Raise (TrashMailAPIError (PyStr "Invalid credentials") (PyInt 2)
             (Some rejected_response)).
Proof.
  destruct (login_rejected (always rejected_response) "user@example.com" "wrong"
              (TrashmailApi.fresh "https://trashmail.com" "en") rejected_response
              (<["success" := PyBool false]>
               (<["msg" := PyStr "Invalid credentials"]>
                (<["error_code" := PyInt 2]> ∅)))
              eq_refl eq_refl eq_refl eq_refl) as [H _].
  rewrite H. reflexivity.
Defined.

(** X3. What [login] does when the service gives no JSON object: an
    exception of the transport or of [response.json()] comes out as
    [TrashMailAPIError("Login error: ...")], a body that is no JSON or a false
    JSON value as [TrashMailAPIError("Invalid response from server")], and a
    true JSON value that is no object as a "Login error" about the missing
    [get].  In each case the call was posted and nothing else changed. *)
Theorem login_without_json_object (net : Transport) (u p : string)
    (s : TrashmailApi.St) :
  let login_error (msg : string) :=
    (Raise (A := bool) (TrashMailAPIError (PyStr msg) PyNone None),
     login_posted net u p s) in
  match net (TrashmailApi.wire s)
          (command_call (TrashmailApi.self s) "login" (login_body u p)) with
  | inl e =>
      TrashmailApi.login net u p s = login_error ("Login error: " +:+ exc_str e)
  | inr r =>
      match json_method r with
      | inl je =>
          TrashmailApi.login net u p s
          = login_error (if issubclass (exc_cls je) RequestsJSONDecodeError
                         then "Invalid response from server"
                         else "Login error: " +:+ exc_str je)
      | inr v =>
          is_dict v && truthy v = false ->
          TrashmailApi.login net u p s
          = login_error (if truthy v
                         then "Login error: " +:+ exc_str (no_get_error v)
                         else "Invalid response from server")
      end
  end.
Proof.
  intros login_error. subst login_error.
  destruct (net _ _) as [e|r] eqn:Hnet.
  - rewrite <- login_call_eq in Hnet.
    unfold TrashmailApi.login, try_except, login_posted, login_body in *.
    unfold bind at 1. unfold get_state at 1.
    unfold bind at 1. unfold TrashmailApi.post at 1. rewrite Hnet.
    rewrite isinstance_Exception. reflexivity.
  - rewrite (login_on_response net u p s r Hnet). unfold try_except.
    unfold bind at 1. unfold TrashmailApi._safe_json, try_except, lift_lib.
    destruct (json_method r) as [je|v].
    + cbn [raise isinstance].
      destruct (issubclass (exc_cls je) RequestsJSONDecodeError) eqn:Hje.
      * reflexivity.
      * unfold raise. cbv beta iota. cbn [isinstance].
        rewrite issubclass_Exception. reflexivity.
    + intros Hv. unfold ret at 1. unfold bind at 1. cbv beta iota.
      destruct (truthy v) eqn:Ht; cbn [negb].
      * rewrite andb_true_r in Hv.
        unfold bind at 1. rewrite (py_get_not_dict v _ _ _ Hv).
        unfold raise. cbv beta iota. cbn [isinstance].
        rewrite issubclass_Exception. reflexivity.
      * reflexivity.
Qed.

Lemma login_without_json_object_witness :
  fst (TrashmailApi.login (always array_response) "user@example.com" "secret"
         (TrashmailApi.fresh "https://trashmail.com" "en"))
  = Raise (TrashMailAPIError
             (PyStr "Login error: 'list' object has no attribute 'get'") PyNone None).
Proof.
  pose proof (login_without_json_object (always array_response) "user@example.com"
                "secret" (TrashmailApi.fresh "https://trashmail.com" "en")) as H.
  cbv zeta in H. cbn [always array_response json_method] in H.
  rewrite H by reflexivity. reflexivity.
Defined.

(** X4. [login] lets no exception out but [TrashMailAPIError], and it never
    takes authentication away: a client that was authenticated before the
    call is authenticated after it, also when the call raised. *)
Theorem login_raises_api_errors_and_keeps_authentication (net : Transport)
    (u p : string) (s : TrashmailApi.St) :
  (forall e, fst (TrashmailApi.login net u p s) = Raise e ->
             exists m code r, e = TrashMailAPIError m code r)
  /\ (truthy (TrashmailApi._authenticated (TrashmailApi.self s)) = true ->
      truthy (TrashmailApi._authenticated
                (TrashmailApi.self (snd (TrashmailApi.login net u p s)))) = true).
Proof.
  split.
  - intros e. apply login_raises_only_api_error.
  - intros Ha. destruct (keeps_login net u p s) as [[Hsame _]|Htrue].
    + rewrite Hsame. exact Ha.
    + rewrite Htrue. reflexivity.
Qed.

Lemma login_raises_api_errors_and_keeps_authentication_witness :
  truthy (TrashmailApi._authenticated
            (TrashmailApi.self
               (snd (TrashmailApi.login (always rejected_response) "other@example.com"
                       "wrong" logged_in)))) = true.
Proof.
  apply (login_raises_api_errors_and_keeps_authentication (always rejected_response)
           "other@example.com" "wrong" logged_in).
  reflexivity.
Defined.

(** ** The outcomes of [api_call] *)

Lemma api_call_on_response (net : Transport) (cmd : string) (kw : gmap string pyval)
    (s : TrashmailApi.St) (r : Response) :
  truthy (TrashmailApi._authenticated (TrashmailApi.self s)) = true ->
  net (TrashmailApi.wire s)
    (the_call (TrashmailApi._build_url (TrashmailApi.self s) cmd true ∅) (PyDict kw)
       (TrashmailApi.session (TrashmailApi.self s))) = inr r ->
  TrashmailApi.api_call net cmd kw s =
  (result <- TrashmailApi._safe_json r ;;
   if negb (truthy result) then
     raise (TrashMailAPIError (PyStr "Invalid response from server") PyNone None)
   else
     success <- py_get result "success" (PyBool true) ;;
     if negb (truthy success) then
       error_msg <- py_get result "msg" (PyStr "API call failed") ;;
       error_code <- py_get result "error_code" PyNone ;;
       raise (TrashMailAPIError error_msg error_code (Some r))
     else
       ret result)
    (command_posted net cmd kw s).
Proof.
  intros Ha Hnet. unfold TrashmailApi.api_call, command_posted.
  unfold bind at 1. unfold get_state at 1. rewrite Ha. cbn [negb].
  unfold bind at 1. unfold TrashmailApi.post at 1. rewrite Hnet. reflexivity.
Qed.

Lemma api_call_transport_error (net : Transport) (cmd : string)
    (kw : gmap string pyval) (s : TrashmailApi.St) (e : lib_exn) :
  truthy (TrashmailApi._authenticated (TrashmailApi.self s)) = true ->
  net (TrashmailApi.wire s)
    (the_call (TrashmailApi._build_url (TrashmailApi.self s) cmd true ∅) (PyDict kw)
       (TrashmailApi.session (TrashmailApi.self s))) = inl e ->
  TrashmailApi.api_call net cmd kw s = (Raise (PyExc e), command_posted net cmd kw s).
Proof.
  intros Ha Hnet. unfold TrashmailApi.api_call, command_posted.
  unfold bind at 1. unfold get_state at 1. rewrite Ha. cbn [negb].
  unfold bind at 1. unfold TrashmailApi.post at 1. rewrite Hnet. reflexivity.
Qed.

(** X5. On an authenticated client, an answer that is a non-empty JSON
    object with a false ["success"] makes [api_call] raise
    [TrashMailAPIError] carrying the answer's ["msg"] (or "API call failed"),
    its ["error_code"] (or None) and the response; [get_deas] raises that
    same error. *)
Theorem api_call_reports_failure (net : Transport) (cmd : string)
    (kw : gmap string pyval) (s : TrashmailApi.St) (r : Response)
    (d : gmap string pyval) (v : pyval) :
  cmd <> "" ->
  truthy (TrashmailApi._authenticated (TrashmailApi.self s)) = true ->
  net (TrashmailApi.wire s) (command_call (TrashmailApi.self s) cmd kw) = inr r ->
  json_method r = inr (PyDict d) ->
  d !! "success" = Some v -> truthy v = false ->
  let failure :=
    TrashMailAPIError (default (PyStr "API call failed") (d !! "msg"))
      (default PyNone (d !! "error_code")) (Some r) in
  TrashmailApi.api_call net cmd kw s = (Raise failure, command_posted net cmd kw s)
  /\ (cmd = "read_dea" -> kw = ∅ ->
      TrashmailApi.get_deas net s = (Raise failure, command_posted net cmd kw s)).
Proof.
  intros Hcmd Ha Hnet Hjson Hsucc Hv failure. subst failure.
  rewrite <- build_url_command in Hnet by exact Hcmd.
  assert (Hcall : TrashmailApi.api_call net cmd kw s
                  = (Raise (TrashMailAPIError
                              (default (PyStr "API call failed") (d !! "msg"))
                              (default PyNone (d !! "error_code")) (Some r)),
                     command_posted net cmd kw s)).
  { rewrite (api_call_on_response net cmd kw s r Ha Hnet).
    unfold bind at 1. rewrite (safe_json_value _ _ _ Hjson).
    rewrite (dict_truthy _ _ _ Hsucc). cbn [negb].
    unfold bind at 1. cbn [py_get ret]. rewrite Hsucc.
    unfold default at 1. cbn [from_option id]. rewrite Hv. reflexivity. }
  split; [exact Hcall|].
  intros -> ->. unfold TrashmailApi.get_deas. unfold bind at 1.
  rewrite Hcall. reflexivity.
Qed.

Lemma api_call_reports_failure_witness :
  TrashmailApi.get_deas (always rejected_response) logged_in
  = (Raise (TrashMailAPIError (PyStr "Invalid credentials") (PyInt 2)
              (Some rejected_response)),
     command_posted (always rejected_response) "read_dea" ∅ logged_in).
Proof.
  destruct (api_call_reports_failure (always rejected_response) "read_dea" ∅
              logged_in rejected_response
              (<["success" := PyBool false]>
               (<["msg" := PyStr "Invalid credentials"]>
                (<["error_code" := PyInt 2]> ∅)))
              (PyBool false) ltac:(discriminate) eq_refl eq_refl eq_refl eq_refl eq_refl)
    as [_ H].
  rewrite H by reflexivity. reflexivity.
Defined.

(** X6. [api_call] wraps no exception: on an authenticated client an
    exception of the transport or of [response.json()] comes out as it is, a
    true JSON value that is no object comes out as [AttributeError], and only
    a body that is no JSON or a false JSON value gives
    [TrashMailAPIError("Invalid response from server")]. *)
Theorem api_call_without_json_object (net : Transport) (cmd : string)
    (kw : gmap string pyval) (s : TrashmailApi.St) :
  truthy (TrashmailApi._authenticated (TrashmailApi.self s)) = true ->
  let raises (e : exn) := (Raise (A := pyval) e, command_posted net cmd kw s) in
  let invalid :=
    TrashMailAPIError (PyStr "Invalid response from server") PyNone None in
  match net (TrashmailApi.wire s)
          (the_call (TrashmailApi._build_url (TrashmailApi.self s) cmd true ∅)
             (PyDict kw) (TrashmailApi.session (TrashmailApi.self s))) with
  | inl e => TrashmailApi.api_call net cmd kw s = raises (PyExc e)
  | inr r =>
      match json_method r with
      | inl je =>
          TrashmailApi.api_call net cmd kw s
          = raises (if issubclass (exc_cls je) RequestsJSONDecodeError
                    then invalid else PyExc je)
      | inr v =>
          is_dict v && truthy v = false ->
          TrashmailApi.api_call net cmd kw s
          = raises (if truthy v then PyExc (no_get_error v) else invalid)
      end
  end.
Proof.
  intros Ha raises invalid. subst raises invalid.
  destruct (net _ _) as [e|r] eqn:Hnet.
  - apply api_call_transport_error; assumption.
  - rewrite (api_call_on_response net cmd kw s r Ha Hnet).
    unfold bind at 1. unfold TrashmailApi._safe_json, try_except, lift_lib.
    destruct (json_method r) as [je|v].
    + cbn [raise isinstance].
      destruct (issubclass (exc_cls je) RequestsJSONDecodeError); reflexivity.
    + intros Hv. unfold ret at 1. unfold bind at 1. cbv beta iota.
      destruct (truthy v) eqn:Ht; cbn [negb].
      * rewrite andb_true_r in Hv.
        unfold bind at 1. rewrite (py_get_not_dict v _ _ _ Hv). reflexivity.
      * reflexivity.
Qed.

Lemma api_call_without_json_object_witness :
  fst (TrashmailApi.api_call (always array_response) "read_dea" ∅ logged_in)
  = Raise (PyExc (LibExn AttributeError "'list' object has no attribute 'get'")).
Proof.
  pose proof (api_call_without_json_object (always array_response) "read_dea" ∅
                logged_in eq_refl) as H.
  cbv zeta in H. cbn [always array_response json_method] in H.
  rewrite H by reflexivity. reflexivity.
Defined.

(** ** How many calls a method makes *)

Lemma bind_kwargs_state {S} fname bound (kw : gmap string pyval) (s : S) :
  snd (bind_kwargs fname bound kw s) = s.
Proof. unfold bind_kwargs. destruct (List.find _ bound); reflexivity. Qed.

Lemma api_call_wire (net : Transport) (cmd : string) (kw : gmap string pyval)
    (s : TrashmailApi.St) :
  TrashmailApi.wire (snd (TrashmailApi.api_call net cmd kw s))
  = TrashmailApi.wire s
    ++ (if truthy (TrashmailApi._authenticated (TrashmailApi.self s))
        then [the_call (TrashmailApi._build_url (TrashmailApi.self s) cmd true ∅)
                (PyDict kw) (TrashmailApi.session (TrashmailApi.self s))]
        else []).
Proof.
  destruct (truthy _) eqn:Ha.
  - rewrite api_call_state by exact Ha. apply wire_posted.
  - rewrite api_call_not_authenticated by exact Ha. cbn [snd].
    rewrite app_nil_r. reflexivity.
Qed.

Lemma call_api_call_wire (net : Transport) (cmd : string) (kw : gmap string pyval)
    (s : TrashmailApi.St) :
  TrashmailApi.wire (snd (TrashmailApi.call_api_call net cmd kw s)) = TrashmailApi.wire s
  \/ TrashmailApi.wire (snd (TrashmailApi.call_api_call net cmd kw s))
     = TrashmailApi.wire (snd (TrashmailApi.api_call net cmd kw s)).
Proof.
  unfold TrashmailApi.call_api_call. unfold bind.
  pose proof (bind_kwargs_state "TrashMailClient.api_call" ["self"; "cmd"] kw s) as Hs.
  destruct (bind_kwargs _ _ kw s) as [[[]|e] s1]; cbn [snd] in *; subst s1.
  - right. reflexivity.
  - left. reflexivity.
Qed.

Lemma check_auth_methods_wire (net : Transport) (u : string) (s : TrashmailApi.St) :
  TrashmailApi.wire (snd (TrashmailApi.check_auth_methods net u s))
  = TrashmailApi.wire s
    ++ [command_call (TrashmailApi.self s) "opaque_check" {[ "username" := PyStr u ]}].
Proof.
  unfold TrashmailApi.check_auth_methods.
  match goal with |- TrashmailApi.wire (snd (try_except ?body ?h s)) = _ =>
    transitivity (TrashmailApi.wire (snd (body s)))
  end.
  - apply (keeps_after_try same_wire). intros e.
    destruct (isinstance _ _); [apply keeps_ret | apply keeps_raise]; typeclasses eauto.
  - unfold bind at 1. unfold get_state at 1.
    match goal with |- TrashmailApi.wire (snd (bind ?c ?k s)) = _ =>
      transitivity (TrashmailApi.wire (snd (c s)))
    end.
    + apply (keeps_after same_wire). intros r.
      keeps_auto; apply keeps_safe_json; typeclasses eauto.
    + cbn [snd TrashmailApi.post]. apply command_wire. discriminate.
Qed.

Lemma one_call_or_none {A} (l : list A) (c : A) (b : bool) :
  exists calls, l ++ (if b then [c] else []) = l ++ calls /\ length calls <= 1.
Proof. destruct b; eexists; (split; [reflexivity | simpl; lia]). Qed.

(** X7. No method makes more than one call to [session.post]: the wire
    after a method call is the wire before it with at most one call added,
    whether the method returned or raised. *)
Theorem at_most_one_post_per_method (net : Transport)
    (m : TrashmailApi.method_call) (s : TrashmailApi.St) :
  exists calls,
    TrashmailApi.wire (TrashmailApi.step net m s) = TrashmailApi.wire s ++ calls
    /\ length calls <= 1.
Proof.
  assert (Hnone : forall w : list PostCall, exists calls, w = w ++ calls /\ length calls <= 1).
  { intros w. exists []. rewrite app_nil_r. split; [reflexivity | simpl; lia]. }
  assert (Hone : forall (w : list PostCall) c,
             exists calls, w ++ [c] = w ++ calls /\ length calls <= 1).
  { intros w c. exists [c]. split; [reflexivity | simpl; lia]. }
  destruct m as [cmd api extra | r | u | u p | u t | cmd kw | | real_email options | | | ];
    cbn [TrashmailApi.step]; unfold TrashmailApi.discard.
  - apply Hnone.
  - rewrite (safe_json_state _ TrashmailApi._safe_json (fun _ => eq_refl)). apply Hnone.
  - rewrite check_auth_methods_wire. apply Hone.
  - rewrite login_wire, wire_posted. apply Hone.
  - unfold TrashmailApi.login_with_pat.
    destruct (negb _); [apply Hnone|]. rewrite login_wire, wire_posted. apply Hone.
  - destruct (call_api_call_wire net cmd kw s) as [-> | ->]; [apply Hnone|].
    rewrite api_call_wire. apply one_call_or_none.
  - rewrite get_deas_state, api_call_wire. apply one_call_or_none.
  - unfold TrashmailApi.create_dea.
    match goal with |- context [snd (bind ?c ?k s)] =>
      assert (Hk : TrashmailApi.wire (snd (bind c k s)) = TrashmailApi.wire (snd (c s)))
    end.
    { apply (keeps_after same_wire). intros a. apply keeps_py_get. typeclasses eauto. }
    rewrite Hk.
    destruct (call_api_call_wire net "save_dea"
                (options ∪ {[ "realemail" := PyStr real_email ]}) s) as [-> | ->];
      [apply Hnone|].
    rewrite api_call_wire. apply one_call_or_none.
  - rewrite logout_returns.
    cbn [snd TrashmailApi.set_session TrashmailApi.set_username
         TrashmailApi.set_authenticated TrashmailApi.wire].
    rewrite api_call_wire. apply one_call_or_none.
  - apply Hnone.
  - apply Hnone.
Qed.

(** ** Keyword options of [create_dea] *)

(** X8. An option named [cmd] never reaches the service: [create_dea]
    raises [TypeError] when it hands its options on to [api_call], before any
    check of authentication and with no call to [session.post]. *)
Theorem create_dea_rejects_cmd_option (net : Transport) (real_email : string)
    (options : gmap string pyval) (s : TrashmailApi.St) :
  is_Some (options !! "cmd") -> options !! "self" = None ->
  TrashmailApi.create_dea net real_email options s
  = (Raise (PyExc (LibExn TypeError
                     "TrashMailClient.api_call() got multiple values for argument 'cmd'")),
     s).
Proof.
  intros [v Hcmd] Hself.
  unfold TrashmailApi.create_dea, TrashmailApi.call_api_call.
  unfold bind at 1. unfold bind at 1. unfold bind_kwargs. cbn [List.find].
  rewrite (create_dea_kwargs real_email options "self") by (discriminate || assumption).
  rewrite lookup_union_left_biased, Hcmd.
  reflexivity.
Qed.

Lemma create_dea_rejects_cmd_option_witness :
  TrashmailApi.create_dea unreachable "me@example.com" {[ "cmd" := PyStr "logout" ]}
    logged_in
  = (Raise (PyExc (LibExn TypeError
                     "TrashMailClient.api_call() got multiple values for argument 'cmd'")),
     logged_in).
Proof.
  apply create_dea_rejects_cmd_option.
  - exists (PyStr "logout"). reflexivity.
  - reflexivity.
Defined.

(** ** The capability probe *)

Lemma dom_capabilities_of (d : gmap string pyval) :
  dom (capabilities_of d) = capability_keys.
Proof.
  unfold capabilities_of, capability_keys.
  rewrite !dom_insert_L, dom_empty_L. set_solver.
Qed.

Lemma check_auth_methods_value (net : Transport) (u : string) (s : TrashmailApi.St) :
  fst (TrashmailApi.check_auth_methods net u s)
  = Return
      (PyDict
         match net (TrashmailApi.wire s)
                 (command_call (TrashmailApi.self s) "opaque_check"
                    {[ "username" := PyStr u ]}) with
         | inl _ => capabilities_of ∅
         | inr r =>
             match json_method r with
             | inr (PyDict d) => capabilities_of d
             | _ => capabilities_of ∅
             end
         end).
Proof.
  rewrite <- build_url_command by discriminate.
  unfold TrashmailApi.check_auth_methods, try_except.
  unfold bind at 1. unfold get_state at 1.
  unfold bind at 1. unfold TrashmailApi.post at 1.
  destruct (net _ _) as [e|r].
  - rewrite isinstance_Exception. reflexivity.
  - unfold bind at 1. unfold TrashmailApi._safe_json, try_except, lift_lib.
    destruct (json_method r) as [je|v].
    + cbn [raise isinstance].
      destruct (issubclass (exc_cls je) RequestsJSONDecodeError).
      * reflexivity.
      * unfold raise. cbv beta iota. cbn [isinstance].
        rewrite issubclass_Exception. reflexivity.
    + unfold ret at 1. cbv beta iota zeta.
      destruct v as [| | | | | | |d];
        try (destruct (truthy _); [|reflexivity];
             unfold bind at 1; cbn [py_get raise_lib raise];
             rewrite isinstance_Exception; reflexivity).
      destruct (truthy (PyDict d)) eqn:Ht; [reflexivity|].
      cbn [truthy] in Ht. destruct (map_to_list d) eqn:Hl; [|discriminate].
      apply map_to_list_empty_iff in Hl. subst d. reflexivity.
Qed.

(** X9. [check_auth_methods] never raises.  It posts ["opaque_check"] with
    the username once, leaves the authentication attributes alone and
    returns a dict with exactly the keys [opaque_enabled], [srp_enabled] and
    [migration_available]: the values of a JSON object answer (False for a
    missing key), and False three times over for any other answer or a
    transport that raises. *)
Theorem check_auth_methods_always_answers (net : Transport) (u : string)
    (s : TrashmailApi.St) :
  let call :=
    command_call (TrashmailApi.self s) "opaque_check" {[ "username" := PyStr u ]} in
  exists d : gmap string pyval,
    fst (TrashmailApi.check_auth_methods net u s) = Return (PyDict d)
    /\ dom d = capability_keys
    /\ TrashmailApi.wire (snd (TrashmailApi.check_auth_methods net u s))
       = TrashmailApi.wire s ++ [call]
    /\ same_auth s (snd (TrashmailApi.check_auth_methods net u s))
    /\ (forall r d0,
          net (TrashmailApi.wire s) call = inr r ->
          json_method r = inr (PyDict d0) ->
          d = capabilities_of d0)
    /\ (forall e, net (TrashmailApi.wire s) call = inl e ->
                  PyDict d = TrashmailApi.no_auth_methods).
Proof.
  intros call. subst call. eexists. split; [apply check_auth_methods_value|].
  split; [|split; [apply check_auth_methods_wire|split; [apply keeps_check_auth_methods|]]].
  - destruct (net _ _) as [e|r]; [apply dom_capabilities_of|].
    destruct (json_method r) as [je|[| | | | | | |d]]; apply dom_capabilities_of.
  - split.
    + intros r d0 -> ->. reflexivity.
    + intros e ->. reflexivity.
Qed.

Lemma check_auth_methods_always_answers_witness :
  fst (TrashmailApi.check_auth_methods unreachable "user@example.com"
         (TrashmailApi.fresh "https://trashmail.com" "en"))
  = Return TrashmailApi.no_auth_methods.
Proof.
  destruct (check_auth_methods_always_answers unreachable "user@example.com"
              (TrashmailApi.fresh "https://trashmail.com" "en"))
    as (d & Hret & _ & _ & _ & _ & Hdown).
  rewrite Hret. f_equal. apply (Hdown (LibExn Timeout "HTTPSConnectionPool: Read timed out.")).
  reflexivity.
Defined.

(** ** After [logout] *)


(** ** Cookies *)

#[local] Instance same_session_preorder : PreOrder same_session.
Proof.
  split.
  - intros s. reflexivity.
  - intros s1 s2 s3 H1 H2. unfold same_session in *. congruence.
Qed.

Lemma login_session (net : Transport) (u p : string) (s : TrashmailApi.St) :
  TrashmailApi.session (TrashmailApi.self (snd (TrashmailApi.login net u p s)))
  = TrashmailApi.session (TrashmailApi.self (login_posted net u p s)).
Proof.
  unfold TrashmailApi.login, login_posted, login_body.
  match goal with |- TrashmailApi.session (TrashmailApi.self (snd (try_except ?body ?h s))) = _ =>
    transitivity (TrashmailApi.session (TrashmailApi.self (snd (body s))))
  end.
  - apply (keeps_after_try same_session). intros e.
    destruct e as [m code r|le]; [apply keeps_raise; typeclasses eauto|].
    destruct (isinstance _ _); apply keeps_raise; typeclasses eauto.
  - unfold bind at 1. unfold get_state at 1.
    match goal with |- TrashmailApi.session (TrashmailApi.self (snd (bind ?c ?k s))) = _ =>
      apply (keeps_after same_session c k s)
    end.
    intros r. keeps_auto;
      first [ apply keeps_safe_json; typeclasses eauto
            | apply keeps_modify; intros s0; reflexivity ].
Qed.

(** X11. Cookies live in the client's session.  The cookies an answer to
    [login] sets are stored in it and go out with the next command; [logout]
    throws them away with the session, so that the login after a logout goes
    out with an empty jar. *)
Theorem cookies_follow_the_session (net : Transport) (u p : string)
    (s : TrashmailApi.St) :
  (forall r,
     net (TrashmailApi.wire s)
       (command_call (TrashmailApi.self s) "login" (login_body u p)) = inr r ->
     let s1 := snd (TrashmailApi.login net u p s) in
     TrashmailApi.session (TrashmailApi.self s1)
     = store_cookies r (TrashmailApi.session (TrashmailApi.self s))
     /\ forall cmd kw,
          cmd <> "" ->
          truthy (TrashmailApi._authenticated (TrashmailApi.self s1)) = true ->
          exists c,
            TrashmailApi.wire (snd (TrashmailApi.api_call net cmd kw s1))
            = TrashmailApi.wire s1 ++ [c]
            /\ post_cookies c
               = (PyStr <$> set_cookie r)
                 ∪ cookies (TrashmailApi.session (TrashmailApi.self s)))
  /\ (let s2 := snd (TrashmailApi.logout net s) in
      exists c,
        TrashmailApi.wire (snd (TrashmailApi.login net u p s2))
        = TrashmailApi.wire s2 ++ [c]
        /\ post_cookies c = ∅).
Proof.
  split.
  - intros r Hnet s1.
    assert (Hsess : TrashmailApi.session (TrashmailApi.self s1)
                    = store_cookies r (TrashmailApi.session (TrashmailApi.self s))).
    { subst s1. rewrite login_session. unfold login_posted, TrashmailApi.posted.
      rewrite login_call_eq, Hnet. reflexivity. }
    split; [exact Hsess|].
    intros cmd kw Hcmd Ha. eexists. split.
    + rewrite api_call_state by exact Ha. apply command_wire. exact Hcmd.
    + cbn [command_call post_cookies]. rewrite Hsess. reflexivity.
  - intros s2. eexists. split.
    + rewrite login_wire. apply command_wire. discriminate.
    + cbn [command_call post_cookies]. subst s2. rewrite logout_returns. reflexivity.
Qed.

Lemma cookies_follow_the_session_witness :
  TrashmailApi.session
    (TrashmailApi.self
       (snd (TrashmailApi.login (always cookie_response) "user@example.com" "secret"
               (TrashmailApi.fresh "https://trashmail.com" "en"))))
  = {| cookies := {[ "session_id" := PyStr "abc123" ]} |}.
Proof.
  destruct (cookies_follow_the_session (always cookie_response) "user@example.com"
              "secret" (TrashmailApi.fresh "https://trashmail.com" "en")) as [H _].
  destruct (H cookie_response eq_refl) as [Hsess _].
  rewrite Hsess. vm_compute. reflexivity.
Defined.

(** * Configuration from the environment *)

Lemma rstrip_list_split {A} (is_c : A -> bool) (l : list A) :
  exists t, l = rstrip_list is_c l ++ t /\ forallb is_c t = true.
Proof.
  induction l as [|x rest (t & Hrest & Ht)]; [exists []; split; reflexivity|].
  cbn [rstrip_list]. destruct (rstrip_list is_c rest) as [|y r] eqn:Hr.
  - cbn [app] in Hrest. subst rest. destruct (is_c x) eqn:Hx.
    + exists (x :: t). split; [reflexivity|]. cbn. rewrite Hx. exact Ht.
    + exists t. split; [reflexivity | exact Ht].
  - exists t. split; [rewrite Hrest at 1; reflexivity | exact Ht].
Qed.

Lemma rstrip_list_last {A} (is_c : A -> bool) (l l' : list A) (x : A) :
  rstrip_list is_c l = l' ++ [x] -> is_c x = false.
Proof.
  revert l'. induction l as [|a rest IH]; intros l' H; cbn [rstrip_list] in H.
  - destruct l'; discriminate.
  - destruct (rstrip_list is_c rest) as [|y r].
    + destruct (is_c a) eqn:Ha; [destruct l'; discriminate|].
      destruct l' as [|b l'']; [injection H as ->; exact Ha|].
      injection H as _ H. destruct l''; discriminate.
    + destruct l' as [|b l'']; [discriminate|].
      injection H as _ H. apply (IH l''). exact H.
Qed.

Lemma list_ascii_of_string_app (s1 s2 : string) :
  list_ascii_of_string (s1 +:+ s2) = list_ascii_of_string s1 ++ list_ascii_of_string s2.
Proof.
  induction s1 as [|a s1 IH]; [reflexivity|].
  change (String a s1 +:+ s2) with (String a (s1 +:+ s2)).
  cbn [list_ascii_of_string app]. rewrite IH. reflexivity.
Qed.

Lemma string_of_list_ascii_app (l1 l2 : list ascii) :
  string_of_list_ascii (l1 ++ l2) = string_of_list_ascii l1 +:+ string_of_list_ascii l2.
Proof.
  induction l1 as [|a l1 IH]; [reflexivity|].
  cbn [string_of_list_ascii app]. rewrite IH. reflexivity.
Qed.

Lemma forallb_eqb_repeat (c : ascii) (t : list ascii) :
  forallb (Ascii.eqb c) t = true -> t = repeat c (length t).
Proof.
  induction t as [|a t IH]; [reflexivity|]. cbn. intros H.
  apply andb_true_iff in H as [Ha Ht]. apply Ascii.eqb_eq in Ha. subst a.
  rewrite <- IH by exact Ht. reflexivity.
Qed.

Lemma rstrip_spec (c : ascii) (s : string) :
  (exists n, s = rstrip c s +:+ string_of_list_ascii (repeat c n))
  /\ (forall s', rstrip c s <> s' +:+ String c EmptyString).
Proof.
  unfold rstrip. split.
  - destruct (rstrip_list_split (Ascii.eqb c) (list_ascii_of_string s)) as (t & Hs & Ht).
    exists (length t). rewrite <- (forallb_eqb_repeat c t Ht).
    rewrite <- string_of_list_ascii_app, <- Hs.
    symmetry. apply string_of_list_ascii_of_string.
  - intros s' H.
    apply (f_equal list_ascii_of_string) in H.
    rewrite list_ascii_of_string_of_list_ascii, list_ascii_of_string_app in H.
    apply rstrip_list_last in H. rewrite Ascii.eqb_refl in H. discriminate.
Qed.

Lemma length_substring_le (n : nat) (s : string) :
  String.length (String.substring 0 n s) <= n.
Proof.
  revert s. induction n as [|n IH]; intros s.
  - destruct s; cbn; lia.
  - destruct s as [|a s]; cbn; [lia|]. specialize (IH s). lia.
Qed.

Lemma substring_prefix (n : nat) (s : string) :
  String.prefix (String.substring 0 n s) s = true.
Proof.
  revert s. induction n as [|n IH]; intros s.
  - destruct s; reflexivity.
  - destruct s as [|a s]; cbn; [reflexivity|].
    destruct (ascii_dec a a); [apply IH | contradiction].
Qed.

(** X12. Whatever [TRASHMAIL_API_URL] holds, the base URL is that value with
    its trailing slashes taken off and none left, so the request URL of
    either builder ends in exactly one slash; unset, it is
    "https://trashmail.com".  The default language is the first two
    characters at most of [TRASHMAIL_LANG], "en" when unset. *)
Theorem configuration_is_normalised (TRASHMAIL_API_URL TRASHMAIL_LANG : option string) :
  let value := default "https://trashmail.com" TRASHMAIL_API_URL in
  let base := TrashmailApi.API_BASE_URL TRASHMAIL_API_URL in
  FailingOpaque.API_BASE_URL TRASHMAIL_API_URL = base
  /\ (exists n, value = base +:+ string_of_list_ascii (repeat "/"%char n))
  /\ (forall s', base <> s' +:+ "/")
  /\ (forall lang extra cmd api,
        url (TrashmailApi._build_url (TrashmailApi.__init__ base lang) cmd api extra)
        = base +:+ "/"
        /\ url (FailingOpaque.build_url TRASHMAIL_API_URL api lang (Some cmd) extra)
           = base +:+ "/")
  /\ TrashmailApi.API_BASE_URL None = "https://trashmail.com"
  /\ String.length (TrashmailApi.DEFAULT_LANG TRASHMAIL_LANG) <= 2
  /\ String.prefix (TrashmailApi.DEFAULT_LANG TRASHMAIL_LANG)
       (default "en" TRASHMAIL_LANG) = true
  /\ FailingOpaque.DEFAULT_LANG TRASHMAIL_LANG = TrashmailApi.DEFAULT_LANG TRASHMAIL_LANG
  /\ TrashmailApi.DEFAULT_LANG None = "en".
Proof.
  intros value base. subst value base.
  unfold TrashmailApi.API_BASE_URL, FailingOpaque.API_BASE_URL,
    TrashmailApi.DEFAULT_LANG, FailingOpaque.DEFAULT_LANG, str_prefix.
  destruct (rstrip_spec "/" (default "https://trashmail.com" TRASHMAIL_API_URL))
    as [Hsplit Hlast].
  split; [reflexivity|]. split; [exact Hsplit|]. split; [exact Hlast|].
  split; [intros; split; reflexivity|].
  split; [reflexivity|].
  split; [apply length_substring_le|].
  split; [apply substring_prefix|].
  split; reflexivity.
Qed.

(** * Further properties of [failing_opaque_code.py] *)

(** ** The capability probe *)

Section Probe.

Import FailingOpaque.

Variable TRASHMAIL_API_URL : option string.
Variable net : Transport.

Lemma script_call_eq (lang cmd : string) (body : gmap string pyval) (sess : Session) :
  cmd <> "" ->
  the_call (build_url TRASHMAIL_API_URL true lang (Some cmd) ∅) (PyDict body) sess
  = script_call TRASHMAIL_API_URL lang cmd body sess.
Proof.
  intros Hcmd. unfold the_call, script_call, build_url. cbn [url params truthy Z.b2z].
  destruct (String.eqb_spec cmd ""); [contradiction|]. cbn [negb].
  rewrite (left_id_L ∅ (∪)). reflexivity.
Qed.

Lemma wire_script_posted (spec : UrlSpec) (body : pyval) (s : St) :
  wire (posted net spec body s) = wire s ++ [the_call spec body (session s)].
Proof. unfold posted. destruct (net (wire s) _); reflexivity. Qed.

Lemma opaque_check_run (u lang : string) (s : St) :
  opaque_check TRASHMAIL_API_URL net u lang s
  = (Return
       (probe_result
          (net (wire s)
             (script_call TRASHMAIL_API_URL lang "opaque_check"
                {[ "username" := PyStr u ]} (session s)))),
     posted net (build_url TRASHMAIL_API_URL true lang (Some "opaque_check") ∅)
       (PyDict {[ "username" := PyStr u ]}) s).
Proof.
  rewrite <- script_call_eq by discriminate.
  unfold opaque_check, try_except, probe_result.
  unfold bind at 1. unfold post at 1.
  destruct (net _ _) as [e|r].
  - rewrite isinstance_Exception. reflexivity.
  - unfold bind at 1. unfold _safe_json, try_except, lift_lib.
    destruct (json_method r) as [je|v].
    + cbn [raise isinstance].
      destruct (issubclass (exc_cls je) RequestsJSONDecodeError).
      * reflexivity.
      * unfold raise. cbv beta iota. cbn [isinstance].
        rewrite issubclass_Exception. reflexivity.
    + unfold ret at 1. cbv beta iota zeta.
      destruct v as [| | | | | | |d];
        try (destruct (truthy _); [|reflexivity];
             unfold bind at 1; cbn [py_get raise_lib raise];
             rewrite isinstance_Exception; reflexivity).
      destruct (truthy (PyDict d)) eqn:Ht; [reflexivity|].
      cbn [truthy] in Ht. destruct (map_to_list d) eqn:Hl; [|discriminate].
      apply map_to_list_empty_iff in Hl. subst d. reflexivity.
Qed.

Lemma probe_result_shape (answer : lib_exn + Response) :
  probe_result answer = PyNone
  \/ exists d, probe_result answer = PyDict d /\ dom d = capability_keys.
Proof.
  unfold probe_result. destruct answer as [e|r]; [left; reflexivity|].
  destruct (json_method r) as [je|v].
  - destruct (issubclass _ _); [right|left; reflexivity].
    eexists. split; [reflexivity | apply dom_capabilities_of].
  - destruct v; try (destruct (truthy _); [left; reflexivity|right];
                     eexists; split; [reflexivity | apply dom_capabilities_of]).
    right. eexists. split; [reflexivity | apply dom_capabilities_of].
Qed.

End Probe.

(** X13. [opaque_check] never raises and posts ["opaque_check"] with the
    username exactly once.  It returns None when the transport or
    [response.json()] raised or the answer is a true JSON value that is no
    object, and otherwise a dict with exactly the three capability keys, read
    off the answer with False for what is missing. *)
Theorem opaque_check_always_answers (TRASHMAIL_API_URL : option string)
    (net : Transport) (u lang : string) (s : FailingOpaque.St) :
  let call :=
    script_call TRASHMAIL_API_URL lang "opaque_check" {[ "username" := PyStr u ]}
      (FailingOpaque.session s) in
  exists v,
    fst (FailingOpaque.opaque_check TRASHMAIL_API_URL net u lang s) = Return v
    /\ (v = PyNone \/ exists d, v = PyDict d /\ dom d = capability_keys)
    /\ FailingOpaque.wire (snd (FailingOpaque.opaque_check TRASHMAIL_API_URL net u lang s))
       = FailingOpaque.wire s ++ [call]
    /\ (forall e, net (FailingOpaque.wire s) call = inl e -> v = PyNone)
    /\ (forall r d, net (FailingOpaque.wire s) call = inr r ->
                    json_method r = inr (PyDict d) ->
                    v = PyDict (capabilities_of d)).
Proof.
  intros call. subst call. rewrite opaque_check_run. cbn [fst snd].
  eexists. split; [reflexivity|].
  split; [apply probe_result_shape|].
  split; [rewrite wire_script_posted, script_call_eq by discriminate; reflexivity|].
  split.
  - intros e ->. reflexivity.
  - intros r d -> Hj. cbn [probe_result]. rewrite Hj. reflexivity.
Qed.

Lemma opaque_check_always_answers_witness :
  fst (FailingOpaque.opaque_check None unreachable "user@example.com" "en"
         (FailingOpaque.mkSt Session_new []))
  = Return PyNone.
Proof.
  destruct (opaque_check_always_answers None unreachable "user@example.com" "en"
              (FailingOpaque.mkSt Session_new []))
    as (v & Hret & _ & _ & Hdown & _).
  rewrite Hret. f_equal.
  apply (Hdown (LibExn Timeout "HTTPSConnectionPool: Read timed out.")). reflexivity.
Defined.

(** ** The outcomes of [api_login] *)

Lemma run_bind {S A B} (c : M S A) (k : A -> M S B) (s : S) :
  bind c k s
  = match c s with
    | (Return a, s') => k a s'
    | (Raise e, s') => (Raise e, s')
    end.
Proof. reflexivity. Qed.

Lemma run_ret {S A} (a : A) (s : S) : ret a s = (Return a, s).
Proof. reflexivity. Qed.

Section ApiLogin.

Import FailingOpaque.

Variable TRASHMAIL_API_URL TRASHMAIL_LANG : option string.
Variable net : Transport.
Variable opaque_lib : lib_exn + OpaqueLib.
Variable legacy_login : string -> string -> M St pyval.
Variable HTTPError : pyval -> Response -> exn.
Variable isinstance_HTTPError : exn -> bool.

Lemma legacy_login_call (u p : string) (s : St) :
  (ok <- load_global "legacy_login" (legacy_login u p) ;;
   s' <- get_state ;;
   if truthy ok then ret (true, Some (session s')) else ret (false, None)) s
  = (Raise (PyExc (LibExn NameError "name 'legacy_login' is not defined")), s).
Proof.
  rewrite run_bind. unfold load_global. rewrite legacy_login_unbound. reflexivity.
Qed.

(** The [try] block of the OPAQUE path either returns the session or hands
    its exception to the handlers, where the first [except] clause fails on
    its own class expression. *)
Lemma opaque_attempt (u p lang : string) (s : St) :
  let attempt :=
    try_except
      (started <- pat_opaque_start TRASHMAIL_API_URL net opaque_lib HTTPError u p lang ;;
       let '(client_sec, login_response, session_id) := started in
       pat_opaque_finish TRASHMAIL_API_URL net opaque_lib client_sec login_response
         session_id lang ;;;
       s' <- get_state ;;
       ret (Some (true, Some (session s'))))
      (fun e =>
         is_http <- load_global "HTTPError" (ret (isinstance_HTTPError e)) ;;
         if is_http : bool then raise e
         else if isinstance e Exception then raise e
         else raise e) in
  (exists s', attempt s = (Return (Some (true, Some (session s'))), s'))
  \/ (exists s', attempt s
                 = (Raise (PyExc (LibExn NameError "name 'HTTPError' is not defined")), s')).
Proof.
  intros attempt. subst attempt. unfold try_except.
  rewrite run_bind.
  destruct (pat_opaque_start _ _ _ _ u p lang s) as [[[[cs lr] sid]|e] s1].
  - rewrite run_bind.
    destruct (pat_opaque_finish _ _ _ cs lr sid lang s1) as [[b|e] s2].
    + left. exists s2. reflexivity.
    + right. exists s2. rewrite run_bind. unfold load_global.
      rewrite HTTPError_unbound. reflexivity.
  - right. exists s1. rewrite run_bind. unfold load_global.
    rewrite HTTPError_unbound. reflexivity.
Qed.

End ApiLogin.

(** X14. [api_login] never returns [(False, None)].  Whatever the service,
    the [opaque] package and the password, it either returns
    [(True, session)] out of the OPAQUE path, which takes a PAT as password,
    or raises [NameError]: for [legacy_login] where it falls back to the
    classic login, for [HTTPError] where anything in the OPAQUE path
    raised. *)
Theorem api_login_outcomes
    (TRASHMAIL_API_URL TRASHMAIL_LANG : option string) (net : Transport)
    (opaque_lib : lib_exn + FailingOpaque.OpaqueLib)
    (legacy_login : string -> string -> M FailingOpaque.St pyval)
    (HTTPError : pyval -> Response -> exn) (isinstance_HTTPError : exn -> bool)
    (username password : string) (s : FailingOpaque.St) :
  let out :=
    FailingOpaque.api_login TRASHMAIL_API_URL TRASHMAIL_LANG net opaque_lib
      legacy_login HTTPError isinstance_HTTPError username password s in
  (exists s', out = (Return (true, Some (FailingOpaque.session s')), s')
              /\ FailingOpaque.is_pat_token (PyStr password) = true)
  \/ (exists s',
        out = (Raise (PyExc (LibExn NameError "name 'legacy_login' is not defined")), s'))
  \/ (exists s',
        out = (Raise (PyExc (LibExn NameError "name 'HTTPError' is not defined")), s')
        /\ FailingOpaque.is_pat_token (PyStr password) = true).
Proof.
  intros out.
  assert (Hout : out = FailingOpaque.api_login TRASHMAIL_API_URL TRASHMAIL_LANG net
                         opaque_lib legacy_login HTTPError isinstance_HTTPError
                         username password s) by reflexivity.
  clearbody out. unfold FailingOpaque.api_login in Hout.
  rewrite run_bind in Hout. unfold modify at 1 in Hout. cbv beta iota in Hout.
  destruct (FailingOpaque.is_pat_token (PyStr password)) eqn:Hpat.
  - rewrite run_bind in Hout. rewrite run_bind in Hout.
    rewrite opaque_check_run in Hout.
    cbv beta iota in Hout. rewrite run_bind in Hout.
    match type of Hout with context [probe_result ?a] =>
      destruct (probe_result_shape a) as [Hp | (d & Hp & _)]; rewrite Hp in Hout
    end.
    + cbn [ret] in Hout. cbv beta iota in Hout.
      match type of Hout with context [try_except ?b ?h ?st] =>
        destruct (opaque_attempt TRASHMAIL_API_URL net opaque_lib HTTPError
                    isinstance_HTTPError username password
                    (FailingOpaque.DEFAULT_LANG TRASHMAIL_LANG) st)
          as [(s' & Ha) | (s' & Ha)]; rewrite Ha in Hout
      end.
      * left. exists s'. split; [exact Hout | reflexivity].
      * right. right. exists s'. split; [exact Hout | reflexivity].
    + rewrite run_bind in Hout. cbn [py_get ret] in Hout. cbv beta iota in Hout.
      destruct (truthy (default (PyBool false) (d !! "opaque_enabled"))).
      * match type of Hout with context [try_except ?b ?h ?st] =>
          destruct (opaque_attempt TRASHMAIL_API_URL net opaque_lib HTTPError
                      isinstance_HTTPError username password
                      (FailingOpaque.DEFAULT_LANG TRASHMAIL_LANG) st)
            as [(s' & Ha) | (s' & Ha)]; rewrite Ha in Hout
        end.
        -- left. exists s'. split; [exact Hout | reflexivity].
        -- right. right. exists s'. split; [exact Hout | reflexivity].
      * rewrite run_ret in Hout. cbv beta iota in Hout.
        rewrite legacy_login_call in Hout.
        right. left. eexists. exact Hout.
  - rewrite run_bind, run_ret in Hout. cbv beta iota in Hout.
    rewrite legacy_login_call in Hout.
    right. left. eexists. exact Hout.
Qed.

(** * The base64 helpers *)

(** ** Checks by enumeration *)

Lemma in_all_bytes (b : byte) : In b all_bytes.
Proof.
  assert (H : existsb (Byte.eqb b) all_bytes = true)
    by (destruct b; vm_compute; reflexivity).
  apply existsb_exists in H as (x & Hin & Heq).
  apply Byte.byte_dec_bl in Heq. subst x. exact Hin.
Qed.

Lemma for_all_bytes (P : byte -> bool) :
  forallb P all_bytes = true -> forall b, P b = true.
Proof. intros H b. apply (proj1 (forallb_forall P all_bytes) H), in_all_bytes. Qed.

Lemma for_all_byte_pairs (P : byte -> byte -> bool) :
  forallb (fun x => forallb (P x) all_bytes) all_bytes = true ->
  forall x y, P x y = true.
Proof.
  intros H x y.
  apply (for_all_bytes (P x)).
  apply (for_all_bytes (fun x => forallb (P x) all_bytes) H).
Qed.

Lemma for_all_sextets (P : N -> bool) :
  forallb P sextets = true -> forall n, (n < 64)%N -> P n = true.
Proof.
  intros H n Hn. apply (proj1 (forallb_forall P sextets) H).
  unfold sextets. rewrite <- (N2Nat.id n). apply in_map, in_seq. lia.
Qed.

Lemma N_pairs (f g : byte -> byte -> N) :
  forallb (fun x => forallb (fun y => N.eqb (f x y) (g x y)) all_bytes) all_bytes = true ->
  forall x y, f x y = g x y.
Proof.
  intros H x y. apply N.eqb_eq.
  apply (for_all_byte_pairs (fun x y => N.eqb (f x y) (g x y)) H).
Qed.

Lemma byte_pairs (f g : byte -> byte -> byte) :
  forallb (fun x => forallb (fun y => Byte.eqb (f x y) (g x y)) all_bytes) all_bytes = true ->
  forall x y, f x y = g x y.
Proof.
  intros H x y. apply Byte.byte_dec_bl.
  apply (for_all_byte_pairs (fun x y => Byte.eqb (f x y) (g x y)) H).
Qed.

(** ** Sextets *)

Lemma sextet_bounds (x y : byte) :
  (sextet1 x < 64 /\ sextet2 x y < 64 /\ sextet3 x y < 64 /\ sextet4 x < 64
   /\ sextet2_last x < 64 /\ sextet3_last x < 64)%N.
Proof.
  pose proof (for_all_byte_pairs
                (fun x y => (sextet1 x <? 64) && (sextet2 x y <? 64)
                            && (sextet3 x y <? 64) && (sextet4 x <? 64)
                            && (sextet2_last x <? 64) && (sextet3_last x <? 64))%N
                ltac:(vm_compute; reflexivity) x y) as H.
  cbv beta in H. rewrite !andb_true_iff, !N.ltb_lt in H. tauto.
Qed.

Lemma first_byte_back (x y : byte) :
  Base64.byte_of (N.lor (N.shiftl (sextet1 x) 2) (N.shiftr (sextet2 x y) 4)) = x.
Proof.
  apply (byte_pairs
           (fun x y => Base64.byte_of
                         (N.lor (N.shiftl (sextet1 x) 2) (N.shiftr (sextet2 x y) 4)))
           (fun x _ => x)).
  vm_compute. reflexivity.
Qed.

Lemma first_byte_back_last (x : byte) :
  Base64.byte_of (N.lor (N.shiftl (sextet1 x) 2) (N.shiftr (sextet2_last x) 4)) = x.
Proof.
  apply Byte.byte_dec_bl.
  apply (for_all_bytes
           (fun x => Byte.eqb
                       (Base64.byte_of
                          (N.lor (N.shiftl (sextet1 x) 2) (N.shiftr (sextet2_last x) 4)))
                       x)).
  vm_compute. reflexivity.
Qed.

Lemma second_byte_back (x y z : byte) :
  Base64.byte_of
    (N.lor (N.shiftl (N.land (sextet2 x y) 15) 4) (N.shiftr (sextet3 y z) 2)) = y.
Proof.
  rewrite (N_pairs (fun x y => N.land (sextet2 x y) 15)
             (fun _ y => N.shiftr (Byte.to_N y) 4) ltac:(vm_compute; reflexivity)).
  rewrite (N_pairs (fun y z => N.shiftr (sextet3 y z) 2)
             (fun y _ => N.land (Byte.to_N y) 15) ltac:(vm_compute; reflexivity)).
  apply Byte.byte_dec_bl.
  apply (for_all_bytes
           (fun y => Byte.eqb
                       (Base64.byte_of
                          (N.lor (N.shiftl (N.shiftr (Byte.to_N y) 4) 4)
                             (N.land (Byte.to_N y) 15)))
                       y)).
  vm_compute. reflexivity.
Qed.

Lemma second_byte_back_last (x y : byte) :
  Base64.byte_of
    (N.lor (N.shiftl (N.land (sextet2 x y) 15) 4) (N.shiftr (sextet3_last y) 2)) = y.
Proof.
  apply (byte_pairs
           (fun x y => Base64.byte_of
                         (N.lor (N.shiftl (N.land (sextet2 x y) 15) 4)
                            (N.shiftr (sextet3_last y) 2)))
           (fun _ y => y)).
  vm_compute. reflexivity.
Qed.

Lemma third_byte_back (y z : byte) :
  Base64.byte_of (N.lor (N.shiftl (N.land (sextet3 y z) 3) 6) (sextet4 z)) = z.
Proof.
  apply (byte_pairs
           (fun y z => Base64.byte_of
                         (N.lor (N.shiftl (N.land (sextet3 y z) 3) 6) (sextet4 z)))
           (fun _ z => z)).
  vm_compute. reflexivity.
Qed.

(** ** The decoder on encoded text *)

Lemma sextet_char (n : N) :
  (n < 64)%N ->
  Base64.a2b (Base64.b2a n) = Some n
  /\ Byte.eqb (Base64.b2a n) Base64.pad = false
  /\ Byte.eqb (Base64._urlsafe_encode_translation (Base64.b2a n)) Base64.pad = false
  /\ Base64.is_ascii (Base64._urlsafe_encode_translation (Base64.b2a n)) = true
  /\ Base64._urlsafe_decode_translation
       (Base64._urlsafe_encode_translation (Base64.b2a n)) = Base64.b2a n
  /\ In (Base64._urlsafe_encode_translation (Base64.b2a n)) urlsafe_alphabet.
Proof.
  intros Hn.
  pose proof (for_all_sextets
                (fun n =>
                   match Base64.a2b (Base64.b2a n) with
                   | Some m => N.eqb m n
                   | None => false
                   end
                   && negb (Byte.eqb (Base64.b2a n) Base64.pad)
                   && negb (Byte.eqb (Base64._urlsafe_encode_translation (Base64.b2a n))
                              Base64.pad)
                   && Base64.is_ascii (Base64._urlsafe_encode_translation (Base64.b2a n))
                   && Byte.eqb
                        (Base64._urlsafe_decode_translation
                           (Base64._urlsafe_encode_translation (Base64.b2a n)))
                        (Base64.b2a n)
                   && existsb
                        (Byte.eqb (Base64._urlsafe_encode_translation (Base64.b2a n)))
                        urlsafe_alphabet)
                ltac:(vm_compute; reflexivity) n Hn) as H.
  cbv beta in H. rewrite !andb_true_iff, !negb_true_iff in H.
  destruct H as (((((H1 & H2) & H3) & H4) & H5) & H6).
  repeat split; try assumption.
  - destruct (Base64.a2b (Base64.b2a n)) as [m|]; [|discriminate].
    apply N.eqb_eq in H1. subst m. reflexivity.
  - apply Byte.byte_dec_bl. exact H5.
  - apply existsb_exists in H6 as (c & Hin & Heq).
    apply Byte.byte_dec_bl in Heq. rewrite Heq. exact Hin.
Qed.

Section DecoderSteps.

Import Base64.

Variables (n : N) (rest : list byte) (leftchar pads : N) (bin_data : list byte).
Hypothesis Hn : (n < 64)%N.

Lemma a2b_loop_char0 :
  a2b_loop (b2a n :: rest) 0 leftchar pads bin_data = a2b_loop rest 1 n 0 bin_data.
Proof.
  destruct (sextet_char n Hn) as (Ha & Hp & _).
  cbn [a2b_loop]. rewrite Hp, Ha. reflexivity.
Qed.

Lemma a2b_loop_char1 :
  a2b_loop (b2a n :: rest) 1 leftchar pads bin_data
  = a2b_loop rest 2 (N.land n 15) 0
      (bin_data ++ [byte_of (N.lor (N.shiftl leftchar 2) (N.shiftr n 4))]).
Proof.
  destruct (sextet_char n Hn) as (Ha & Hp & _).
  cbn [a2b_loop]. rewrite Hp, Ha. reflexivity.
Qed.

Lemma a2b_loop_char2 :
  a2b_loop (b2a n :: rest) 2 leftchar pads bin_data
  = a2b_loop rest 3 (N.land n 3) 0
      (bin_data ++ [byte_of (N.lor (N.shiftl leftchar 4) (N.shiftr n 2))]).
Proof.
  destruct (sextet_char n Hn) as (Ha & Hp & _).
  cbn [a2b_loop]. rewrite Hp, Ha. reflexivity.
Qed.

Lemma a2b_loop_char3 :
  a2b_loop (b2a n :: rest) 3 leftchar pads bin_data
  = a2b_loop rest 0 0 0 (bin_data ++ [byte_of (N.lor (N.shiftl leftchar 6) n)]).
Proof.
  destruct (sextet_char n Hn) as (Ha & Hp & _).
  cbn [a2b_loop]. rewrite Hp, Ha. reflexivity.
Qed.

End DecoderSteps.

Lemma list_ind3 {A} (P : list A -> Prop) :
  P [] -> (forall x, P [x]) -> (forall x y, P [x; y]) ->
  (forall x y z rest, P rest -> P (x :: y :: z :: rest)) ->
  forall l, P l.
Proof.
  intros H0 H1 H2 H3 l.
  assert (H : P l /\ (forall x, P (x :: l)) /\ (forall x y, P (x :: y :: l))).
  { induction l as [|a l (IH0 & IH1 & IH2)].
    - repeat split; auto.
    - repeat split; auto. }
  apply H.
Qed.

Lemma b2a_base64_group (x y z : byte) (rest : list byte) :
  Base64.b2a_base64 (x :: y :: z :: rest)
  = Base64.b2a (sextet1 x) :: Base64.b2a (sextet2 x y) :: Base64.b2a (sextet3 y z)
    :: Base64.b2a (sextet4 z) :: Base64.b2a_base64 rest.
Proof. reflexivity. Qed.

Lemma b2a_base64_two (x y : byte) :
  Base64.b2a_base64 [x; y]
  = [Base64.b2a (sextet1 x); Base64.b2a (sextet2 x y); Base64.b2a (sextet3_last y);
     Base64.pad].
Proof. reflexivity. Qed.

Lemma b2a_base64_one (x : byte) :
  Base64.b2a_base64 [x]
  = [Base64.b2a (sextet1 x); Base64.b2a (sextet2_last x); Base64.pad; Base64.pad].
Proof. reflexivity. Qed.

(** The decoder undoes the encoder, from any state at the start of a quad. *)
Lemma a2b_loop_b2a_base64 (data : list byte) :
  forall leftchar pads out,
    Base64.a2b_loop (Base64.b2a_base64 data) 0 leftchar pads out = inr (out ++ data).
Proof.
  induction data as [|x|x y|x y z rest IH] using list_ind3; intros l p out.
  - cbn. rewrite app_nil_r. reflexivity.
  - rewrite b2a_base64_one.
    destruct (sextet_bounds x x) as (H1 & _ & _ & _ & H2 & _).
    rewrite a2b_loop_char0, a2b_loop_char1 by assumption.
    rewrite first_byte_back_last. reflexivity.
  - rewrite b2a_base64_two.
    destruct (sextet_bounds x y) as (H1 & H2 & _).
    destruct (sextet_bounds y y) as (_ & _ & _ & _ & _ & H3).
    rewrite a2b_loop_char0, a2b_loop_char1, a2b_loop_char2 by assumption.
    rewrite first_byte_back, second_byte_back_last.
    cbn. rewrite <- app_assoc. reflexivity.
  - rewrite b2a_base64_group.
    destruct (sextet_bounds x y) as (H1 & H2 & _).
    destruct (sextet_bounds y z) as (_ & _ & H3 & _).
    destruct (sextet_bounds z z) as (_ & _ & _ & H4 & _).
    rewrite a2b_loop_char0, a2b_loop_char1, a2b_loop_char2, a2b_loop_char3
      by assumption.
    rewrite first_byte_back, second_byte_back, third_byte_back.
    rewrite IH. rewrite <- !app_assoc. reflexivity.
Qed.

(** ** Encoded text *)

Lemma b2a_base64_chars (data : list byte) : Forall encoded_char (Base64.b2a_base64 data).
Proof.
  induction data as [|x|x y|x y z rest IH] using list_ind3.
  - constructor.
  - rewrite b2a_base64_one.
    destruct (sextet_bounds x x) as (H1 & _ & _ & _ & H2 & _).
    repeat (constructor;
            [first [ left; eexists; split; cycle 1; [reflexivity | assumption]
                   | right; reflexivity ]|]);
      constructor.
  - rewrite b2a_base64_two.
    destruct (sextet_bounds x y) as (H1 & H2 & _).
    destruct (sextet_bounds y y) as (_ & _ & _ & _ & _ & H3).
    repeat (constructor;
            [first [ left; eexists; split; cycle 1; [reflexivity | assumption]
                   | right; reflexivity ]|]);
      constructor.
  - rewrite b2a_base64_group.
    destruct (sextet_bounds x y) as (H1 & H2 & _).
    destruct (sextet_bounds y z) as (_ & _ & H3 & _).
    destruct (sextet_bounds z z) as (_ & _ & _ & H4 & _).
    repeat (constructor; [left; eexists; split; cycle 1; [reflexivity | assumption]|]).
    exact IH.
Qed.

Lemma encoded_char_translations (c : byte) :
  encoded_char c ->
  Base64.is_ascii (Base64._urlsafe_encode_translation c) = true
  /\ Base64._urlsafe_decode_translation (Base64._urlsafe_encode_translation c) = c
  /\ (standard_char (Base64._urlsafe_encode_translation c) = true ->
      Base64._urlsafe_encode_translation c = c).
Proof.
  intros [(n & Hn & ->) | ->].
  - destruct (sextet_char n Hn) as (_ & _ & _ & Ha & Hd & _).
    split; [exact Ha|]. split; [exact Hd|].
    pose proof (for_all_sextets
                  (fun n =>
                     implb (standard_char (Base64._urlsafe_encode_translation (Base64.b2a n)))
                       (Byte.eqb (Base64._urlsafe_encode_translation (Base64.b2a n))
                          (Base64.b2a n)))
                  ltac:(vm_compute; reflexivity) n Hn) as H.
    cbv beta in H. intros Hs. rewrite Hs in H. apply Byte.byte_dec_bl. exact H.
  - repeat split.
Qed.

Lemma urlsafe_text_ascii (data : list byte) :
  forallb Base64.is_ascii (Base64.urlsafe_b64encode data) = true.
Proof.
  unfold Base64.urlsafe_b64encode, Base64.b64encode.
  induction (b2a_base64_chars data) as [|c l Hc _ IH]; [reflexivity|].
  cbn [map forallb]. rewrite IH.
  destruct (encoded_char_translations c Hc) as (-> & _). reflexivity.
Qed.

Lemma urlsafe_text_decodes (data : list byte) :
  map Base64._urlsafe_decode_translation (Base64.urlsafe_b64encode data)
  = Base64.b2a_base64 data.
Proof.
  unfold Base64.urlsafe_b64encode, Base64.b64encode.
  induction (b2a_base64_chars data) as [|c l Hc _ IH]; [reflexivity|].
  cbn [map]. rewrite IH.
  destruct (encoded_char_translations c Hc) as (_ & -> & _). reflexivity.
Qed.

Lemma urlsafe_text_standard (data : list byte) :
  forallb standard_char (Base64.urlsafe_b64encode data) = true ->
  Base64.urlsafe_b64encode data = Base64.b2a_base64 data.
Proof.
  unfold Base64.urlsafe_b64encode, Base64.b64encode.
  induction (b2a_base64_chars data) as [|c l Hc _ IH]; [reflexivity|].
  cbn [map forallb]. intros H. apply andb_true_iff in H as [Hs Hl].
  rewrite IH by exact Hl.
  destruct (encoded_char_translations c Hc) as (_ & _ & Heq).
  rewrite Heq by exact Hs. reflexivity.
Qed.

(** ** Stripping the padding and putting it back *)

Lemma rstrip_list_keep {A} (is_c : A -> bool) (x : A) (l : list A) :
  is_c x = false -> rstrip_list is_c (x :: l) = x :: rstrip_list is_c l.
Proof.
  intros Hx. cbn [rstrip_list]. destruct (rstrip_list is_c l); [rewrite Hx|]; reflexivity.
Qed.

Lemma pad_eqb_char (n : N) :
  (n < 64)%N ->
  Byte.eqb "="%byte (Base64._urlsafe_encode_translation (Base64.b2a n)) = false.
Proof.
  intros Hn. destruct (sextet_char n Hn) as (_ & _ & Hp & _).
  destruct (Byte.eqb "="%byte _) eqn:He; [|reflexivity].
  apply Byte.byte_dec_bl in He. rewrite <- He in Hp. discriminate.
Qed.

Lemma repad_group (a b c d : byte) (l : list byte) :
  repad (a :: b :: c :: d :: l) = a :: b :: c :: d :: repad l.
Proof.
  unfold repad. cbn [length].
  replace (S (S (S (S (length l)))) mod 4) with (length l mod 4); [reflexivity|].
  symmetry. rewrite <- (Nat.Div0.mod_add (length l) 1 4). f_equal. lia.
Qed.

Lemma stripped_repad (data : list byte) :
  repad (stripped data) = Base64.urlsafe_b64encode data
  /\ length (stripped data) = (4 * length data + 2) / 3
  /\ Forall (fun c => In c urlsafe_alphabet) (stripped data).
Proof.
  unfold stripped, Base64.urlsafe_b64encode, Base64.b64encode.
  induction data as [|x|x y|x y z rest (IH1 & IH2 & IH3)] using list_ind3.
  - repeat split. constructor.
  - rewrite b2a_base64_one. cbn [map].
    destruct (sextet_bounds x x) as (H1 & _ & _ & _ & H2 & _).
    rewrite !rstrip_list_keep by (apply pad_eqb_char; assumption).
    repeat split.
    repeat (constructor; [apply sextet_char; assumption|]); constructor.
  - rewrite b2a_base64_two. cbn [map].
    destruct (sextet_bounds x y) as (H1 & H2 & _).
    destruct (sextet_bounds y y) as (_ & _ & _ & _ & _ & H3).
    rewrite !rstrip_list_keep by (apply pad_eqb_char; assumption).
    repeat split.
    repeat (constructor; [apply sextet_char; assumption|]); constructor.
  - rewrite b2a_base64_group. cbn [map].
    destruct (sextet_bounds x y) as (H1 & H2 & _).
    destruct (sextet_bounds y z) as (_ & _ & H3 & _).
    destruct (sextet_bounds z z) as (_ & _ & _ & H4 & _).
    rewrite !rstrip_list_keep by (apply pad_eqb_char; assumption).
    rewrite repad_group, IH1. split; [reflexivity|]. split.
    + cbn [length]. rewrite IH2.
      replace (4 * S (S (S (length rest))) + 2) with ((4 * length rest + 2) + 4 * 3) by lia.
      rewrite Nat.div_add by lia. lia.
    + repeat (constructor; [apply sextet_char; assumption|]). exact IH3.
Qed.

(** ** From bytes to str and back *)

Lemma length_string_of_list_byte (l : list byte) :
  String.length (string_of_list_byte l) = length l.
Proof. induction l as [|b l IH]; [reflexivity|]. cbn. rewrite <- IH. reflexivity. Qed.

Lemma list_byte_of_string_app (s1 s2 : string) :
  list_byte_of_string (s1 +:+ s2) = list_byte_of_string s1 ++ list_byte_of_string s2.
Proof.
  unfold list_byte_of_string. rewrite list_ascii_of_string_app. apply map_app.
Qed.

Lemma list_byte_of_pads (k : nat) :
  list_byte_of_string (string_of_list_ascii (repeat "="%char k)) = repeat Base64.pad k.
Proof.
  unfold list_byte_of_string. rewrite list_ascii_of_string_of_list_ascii.
  induction k as [|k IH]; [reflexivity|]. cbn [repeat map]. rewrite IH. reflexivity.
Qed.

Lemma stripped_ascii (data : list byte) :
  forallb Base64.is_ascii (stripped data) = true.
Proof.
  pose proof (urlsafe_text_ascii data) as H.
  destruct (rstrip_list_split (Byte.eqb "="%byte) (Base64.urlsafe_b64encode data))
    as (t & Hsplit & _).
  fold (stripped data) in Hsplit. rewrite Hsplit, forallb_app in H.
  apply andb_true_iff in H as [H _]. exact H.
Qed.

Lemma b64encode_eq (data : list byte) :
  FailingOpaque._b64encode data = inr (string_of_list_byte (stripped data)).
Proof.
  unfold FailingOpaque._b64encode, Base64.decode_ascii. fold (stripped data).
  rewrite stripped_ascii. reflexivity.
Qed.

Lemma padded_text_bytes (data : list byte) :
  list_byte_of_string (padded_text (string_of_list_byte (stripped data)))
  = Base64.urlsafe_b64encode data.
Proof.
  unfold padded_text.
  rewrite list_byte_of_string_app, list_byte_of_pads, list_byte_of_string_of_list_byte,
    length_string_of_list_byte.
  apply stripped_repad.
Qed.

Lemma urlsafe_alphabet_chars (c : byte) :
  In c urlsafe_alphabet ->
  c <> "="%byte /\ c <> "+"%byte /\ c <> "/"%byte.
Proof.
  intros Hc.
  assert (H : forallb (fun c => negb (Byte.eqb c "=") && negb (Byte.eqb c "+")
                                && negb (Byte.eqb c "/"))%byte urlsafe_alphabet = true)
    by (vm_compute; reflexivity).
  apply (proj1 (forallb_forall _ _) H) in Hc.
  rewrite !andb_true_iff, !negb_true_iff in Hc. destruct Hc as [[H1 H2] H3].
  repeat split; intros ->; discriminate.
Qed.

(** X15. [_b64encode] never fails.  For [n] bytes it gives a str of
    [(4n + 2) / 3] characters, each from the url-safe alphabet: no padding
    ["="], and none of ["+"] and ["/"]. *)
Theorem b64encode_text (data : list byte) :
  exists s,
    FailingOpaque._b64encode data = inr s
    /\ String.length s = (4 * length data + 2) / 3
    /\ forall c, In c (list_byte_of_string s) ->
                 In c urlsafe_alphabet
                 /\ c <> "="%byte /\ c <> "+"%byte /\ c <> "/"%byte.
Proof.
  exists (string_of_list_byte (stripped data)).
  destruct (stripped_repad data) as (_ & Hlen & Hchars).
  split; [apply b64encode_eq|]. split.
  - rewrite length_string_of_list_byte. exact Hlen.
  - intros c Hc. rewrite list_byte_of_string_of_list_byte in Hc.
    assert (Hin : In c urlsafe_alphabet)
      by (apply (proj1 (List.Forall_forall _ _) Hchars); exact Hc).
    split; [exact Hin | apply urlsafe_alphabet_chars; exact Hin].
Qed.

Lemma b64encode_text_witness :
  exists s,
    FailingOpaque._b64encode [xff; xff; xff; xfb] = inr s
    /\ String.length s = 6
    /\ ~ In "="%byte (list_byte_of_string s).
Proof.
  destruct (b64encode_text [xff; xff; xff; xfb]) as (s & Henc & Hlen & Hchars).
  exists s. split; [exact Henc|]. split; [exact Hlen|].
  intros Hin. destruct (Hchars _ Hin) as (_ & Hpad & _). apply Hpad. reflexivity.
Defined.

(** X16. What [_b64encode] writes, the url-safe decoder reads back: for
    every byte string [b], [urlsafe_b64decode] on the padded encoding is [b].
    [_b64decode], which tries the standard decoder first, gives [b] back
    whenever the encoding holds neither ["-"] nor ["_"]. *)
Theorem b64_roundtrip_on_standard_text (data : list byte) :
  exists s,
    FailingOpaque._b64encode data = inr s
    /\ Base64.urlsafe_b64decode (padded_text s) = inr data
    /\ (forallb standard_char (list_byte_of_string s) = true ->
        FailingOpaque._b64decode s = inr data).
Proof.
  exists (string_of_list_byte (stripped data)).
  split; [apply b64encode_eq|]. split.
  - unfold Base64.urlsafe_b64decode, Base64._bytes_from_decode_data.
    rewrite padded_text_bytes, urlsafe_text_ascii, urlsafe_text_decodes.
    unfold Base64.a2b_base64. rewrite a2b_loop_b2a_base64. reflexivity.
  - intros Hstd. rewrite list_byte_of_string_of_list_byte in Hstd.
    assert (Hall : forallb standard_char (Base64.urlsafe_b64encode data) = true).
    { destruct (stripped_repad data) as (Hre & _). rewrite <- Hre.
      unfold repad. rewrite forallb_app, Hstd.
      generalize ((4 - length (stripped data) mod 4) mod 4). intros k.
      induction k as [|k IH]; [reflexivity | exact IH]. }
    change (FailingOpaque._b64decode (string_of_list_byte (stripped data)))
      with (match Base64.b64decode (padded_text (string_of_list_byte (stripped data))) with
            | inr b => inr b
            | inl e =>
                if issubclass (exc_cls e) Exception
                then Base64.urlsafe_b64decode
                       (padded_text (string_of_list_byte (stripped data)))
                else inl e
            end).
    unfold Base64.b64decode, Base64._bytes_from_decode_data.
    rewrite padded_text_bytes, urlsafe_text_ascii, (urlsafe_text_standard data Hall).
    unfold Base64.a2b_base64. rewrite a2b_loop_b2a_base64. reflexivity.
Qed.

Lemma b64_roundtrip_on_standard_text_witness :
  FailingOpaque._b64decode "aGVsbG8" = inr (list_byte_of_string "hello").
Proof.
  destruct (b64_roundtrip_on_standard_text (list_byte_of_string "hello"))
    as (s & Henc & _ & Hstd).
  assert (Hs : s = "aGVsbG8") by (vm_compute in Henc; congruence).
  subst s. apply Hstd. vm_compute. reflexivity.
Defined.

(** ** The start of the OPAQUE login *)

Section OpaqueStart.

Import FailingOpaque.

Variable TRASHMAIL_API_URL : option string.
Variable net : Transport.
Variable HTTPError : pyval -> Response -> exn.
Variable lib : OpaqueLib.
Variables (u token lang : string) (start_pub client_sec : list byte).
Hypothesis Hcreate : CreateCredentialRequest lib token = inr (start_pub, client_sec).

Lemma pat_opaque_start_posts (s : St) :
  pat_opaque_start TRASHMAIL_API_URL net (inr lib) HTTPError u token lang s
  = match net (wire s)
            (script_call TRASHMAIL_API_URL lang "pat_opaque_auth_init"
               (start_payload u token start_pub) (session s)) with
    | inl e =>
        (Raise (PyExc e), start_posted TRASHMAIL_API_URL net u token lang start_pub s)
    | inr response =>
        (result <- lift_lib (json_method response) ;;
         success <- py_get result "success" PyNone ;;
         (if negb (truthy success) then
            load_global "HTTPError"
              (raise (HTTPError
                        (PyList [PyStr "400 Client Error: OPAQUE start failed"; result])
                        response))
          else ret tt) ;;;
         session_id <- py_getitem result "session_id" ;;
         set_cookie_on_session "session_id" session_id ;;;
         login_response <- py_getitem result "loginResponse" ;;
         session_id' <- py_getitem result "session_id" ;;
         ret (client_sec, login_response, session_id'))
          (start_posted TRASHMAIL_API_URL net u token lang start_pub s)
    end.
Proof.
  rewrite <- script_call_eq by discriminate.
  unfold pat_opaque_start, start_posted, start_payload.
  rewrite run_bind. cbn [lift_lib]. rewrite run_ret.
  rewrite run_bind. rewrite Hcreate. cbn [lift_lib]. rewrite run_ret.
  cbv beta iota.
  rewrite run_bind. rewrite b64encode_eq. cbn [lift_lib]. rewrite run_ret.
  cbv beta iota zeta.
  rewrite run_bind. unfold post at 1.
  destruct (net _ _) as [e|response]; reflexivity.
Qed.

End OpaqueStart.

#[local] Instance script_same_wire_preorder : PreOrder script_same_wire.
Proof.
  split.
  - intros s. reflexivity.
  - intros s1 s2 s3 H1 H2. unfold script_same_wire in *. congruence.
Qed.


Lemma keeps_set_cookie name value :
  keeps script_same_wire (FailingOpaque.set_cookie_on_session name value).
Proof. intros s. reflexivity. Qed.

(** X17. A refused start does not surface as an HTTP error: when the
    answer to the start request is a JSON object whose ["success"] is missing
    or false, [pat_opaque_start] raises [NameError] for the unbound name
    [HTTPError], and the session holds no cookie of the function's
    making. *)
Theorem pat_opaque_start_refused (TRASHMAIL_API_URL : option string) (net : Transport)
    (HTTPError : pyval -> Response -> exn) (lib : FailingOpaque.OpaqueLib)
    (u token lang : string) (start_pub client_sec : list byte)
    (s : FailingOpaque.St) (r : Response) (d : gmap string pyval) :
  FailingOpaque.CreateCredentialRequest lib token = inr (start_pub, client_sec) ->
  net (FailingOpaque.wire s)
    (script_call TRASHMAIL_API_URL lang "pat_opaque_auth_init"
       (start_payload u token start_pub) (FailingOpaque.session s)) = inr r ->
  json_method r = inr (PyDict d) ->
  truthy (default PyNone (d !! "success")) = false ->
  FailingOpaque.pat_opaque_start TRASHMAIL_API_URL net (inr lib) HTTPError u token lang s
  = (Raise HTTPError_unbound_error,
     start_posted TRASHMAIL_API_URL net u token lang start_pub s)
  /\ FailingOpaque.session (start_posted TRASHMAIL_API_URL net u token lang start_pub s)
     = store_cookies r (FailingOpaque.session s).
Proof.
  intros Hcreate Hnet Hjson Hsucc. split.
  - rewrite (pat_opaque_start_posts _ _ _ _ _ _ _ _ _ Hcreate), Hnet.
    rewrite run_bind, Hjson. cbn [lift_lib]. rewrite run_ret. cbv beta iota.
    rewrite run_bind. cbn [py_get]. rewrite run_ret. cbv beta iota.
    rewrite Hsucc. cbn [negb].
    rewrite run_bind. unfold FailingOpaque.load_global.
    rewrite HTTPError_unbound. reflexivity.
  - unfold start_posted, FailingOpaque.posted.
    rewrite script_call_eq by discriminate. rewrite Hnet. reflexivity.
Qed.

Lemma pat_opaque_start_refused_witness :
  fst (FailingOpaque.pat_opaque_start None (always rejected_response) (inr canned_opaque)
         (fun _ _ => PyExc (LibExn RequestException "400 Client Error"))
         "user@example.com" "tmpat_0123456789abcdef" "en"
         (FailingOpaque.mkSt Session_new []))
  = Raise HTTPError_unbound_error.
Proof.
  destruct (pat_opaque_start_refused None (always rejected_response)
              (fun _ _ => PyExc (LibExn RequestException "400 Client Error"))
              canned_opaque "user@example.com" "tmpat_0123456789abcdef" "en"
              [x01; x02; x03] [x0a; x0b] (FailingOpaque.mkSt Session_new [])
              rejected_response
              (<["success" := PyBool false]>
               (<["msg" := PyStr "Invalid credentials"]>
                (<["error_code" := PyInt 2]> ∅)))
              eq_refl eq_refl eq_refl eq_refl) as [H _].
  rewrite H. reflexivity.
Defined.

(** X18. An accepted start: when the answer is a JSON object with a true
    ["success"], [pat_opaque_start] stores the answer's ["session_id"] as
    the session cookie of that name and returns the client secret with the
    answer's ["loginResponse"] and ["session_id"].  A missing
    ["session_id"] is a [KeyError] with no cookie set, a missing
    ["loginResponse"] a [KeyError] after the cookie was set. *)
Theorem pat_opaque_start_accepted (TRASHMAIL_API_URL : option string) (net : Transport)
    (HTTPError : pyval -> Response -> exn) (lib : FailingOpaque.OpaqueLib)
    (u token lang : string) (start_pub client_sec : list byte)
    (s : FailingOpaque.St) (r : Response) (d : gmap string pyval) (v : pyval) :
  FailingOpaque.CreateCredentialRequest lib token = inr (start_pub, client_sec) ->
  net (FailingOpaque.wire s)
    (script_call TRASHMAIL_API_URL lang "pat_opaque_auth_init"
       (start_payload u token start_pub) (FailingOpaque.session s)) = inr r ->
  json_method r = inr (PyDict d) ->
  d !! "success" = Some v -> truthy v = true ->
  let s1 := start_posted TRASHMAIL_API_URL net u token lang start_pub s in
  FailingOpaque.pat_opaque_start TRASHMAIL_API_URL net (inr lib) HTTPError u token lang s
  = match d !! "session_id" with
    | None => (Raise (key_error "session_id"), s1)
    | Some session_id =>
        (match d !! "loginResponse" with
         | None => Raise (key_error "loginResponse")
         | Some login_response => Return (client_sec, login_response, session_id)
         end,
         with_cookie "session_id" session_id s1)
    end.
Proof.
  intros Hcreate Hnet Hjson Hsucc Hv s1. subst s1.
  rewrite (pat_opaque_start_posts _ _ _ _ _ _ _ _ _ Hcreate), Hnet.
  rewrite run_bind, Hjson. cbn [lift_lib]. rewrite run_ret. cbv beta iota.
  rewrite run_bind. cbn [py_get]. rewrite run_ret. cbv beta iota.
  rewrite Hsucc. unfold default at 1. cbn [from_option id]. rewrite Hv. cbn [negb].
  rewrite run_bind, run_ret. cbv beta iota.
  rewrite run_bind. cbn [py_getitem].
  destruct (d !! "session_id") as [sid|]; [|reflexivity].
  rewrite run_ret. cbv beta iota.
  rewrite run_bind. unfold FailingOpaque.set_cookie_on_session at 1. unfold modify at 1.
  cbv beta iota.
  rewrite run_bind.
  destruct (d !! "loginResponse") as [lr|]; [|reflexivity].
  rewrite run_ret. cbv beta iota. reflexivity.
Qed.

Lemma pat_opaque_start_accepted_witness :
  FailingOpaque.pat_opaque_start None (always start_accepted_response) (inr canned_opaque)
    (fun _ _ => PyExc (LibExn RequestException "400 Client Error"))
    "user@example.com" "tmpat_0123456789abcdef" "en"
    (FailingOpaque.mkSt Session_new [])
  = (Return ([x0a; x0b], PyStr "AQID", PyStr "sid-1"),
     with_cookie "session_id" (PyStr "sid-1")
       (start_posted None (always start_accepted_response) "user@example.com"
          "tmpat_0123456789abcdef" "en" [x01; x02; x03]
          (FailingOpaque.mkSt Session_new []))).
Proof.
  rewrite (pat_opaque_start_accepted None (always start_accepted_response)
             (fun _ _ => PyExc (LibExn RequestException "400 Client Error"))
             canned_opaque "user@example.com" "tmpat_0123456789abcdef" "en"
             [x01; x02; x03] [x0a; x0b] (FailingOpaque.mkSt Session_new [])
             start_accepted_response
             (<["success" := PyBool true]>
              (<["session_id" := PyStr "sid-1"]>
               (<["loginResponse" := PyStr "AQID"]> ∅)))
             (PyBool true)) by reflexivity.
  reflexivity.
Defined.





Lemma encoded_length_mod4 (data : list byte) :
  length (Base64.urlsafe_b64encode data) mod 4 = 0.
Proof.
  unfold Base64.urlsafe_b64encode, Base64.b64encode. rewrite length_map.
  induction data as [|x|x y|x y z rest IH] using list_ind3; try reflexivity.
  rewrite b2a_base64_group. cbn [length].
  replace (S (S (S (S (length (Base64.b2a_base64 rest))))))
    with (length (Base64.b2a_base64 rest) + 1 * 4) by lia.
  rewrite Nat.Div0.mod_add. exact IH.
Qed.

(** ** The end of the OPAQUE login *)

Section OpaqueFinish.

Import FailingOpaque.

Variable TRASHMAIL_API_URL : option string.
Variable net : Transport.
Variable lib : OpaqueLib.
Variables (client_sec : list byte) (lr lang : string) (session_id : pyval).
Variables (ke2 auth_u : list byte) (export_key server_id : pyval).
Hypothesis Hdecode : Base64.urlsafe_b64decode (lr +:+ "===") = inr ke2.
Hypothesis Hrecover :
  RecoverCredentials lib ke2 client_sec OPAQUE_CONTEXT = inr (export_key, auth_u, server_id).

Lemma pat_opaque_finish_posts (s : St) :
  pat_opaque_finish TRASHMAIL_API_URL net (inr lib) client_sec (PyStr lr) session_id lang s
  = match net (wire s)
            (script_call TRASHMAIL_API_URL lang "pat_opaque_auth_finish"
               (finish_payload session_id auth_u) (session s)) with
    | inl e =>
        (Raise (PyExc e), finish_posted TRASHMAIL_API_URL net lang session_id auth_u s)
    | inr response =>
        (result <- lift_lib (json_method response) ;;
         data <- py_getitem result "data" ;;
         sid_data <- py_get data "session_id" PyNone ;;
         final_session_id <-
           (if truthy sid_data then ret sid_data
            else sid_result <- py_get result "session_id" PyNone ;;
                 if truthy sid_result then ret sid_result else ret session_id) ;;
         (if truthy final_session_id
          then set_cookie_on_session "session_id" final_session_id else ret tt) ;;;
         pat_token <- py_get data "pat" PyNone ;;
         (if truthy pat_token then set_cookie_on_session "pat" pat_token else ret tt) ;;;
         ret true)
          (finish_posted TRASHMAIL_API_URL net lang session_id auth_u s)
    end.
Proof.
  rewrite <- script_call_eq by discriminate.
  unfold pat_opaque_finish, finish_posted, finish_payload.
  rewrite run_bind. cbn [lift_lib]. rewrite run_ret. cbv beta iota.
  rewrite run_bind. cbn [add_str]. rewrite run_ret. cbv beta iota.
  rewrite run_bind, Hdecode. cbn [lift_lib]. rewrite run_ret. cbv beta iota.
  rewrite run_bind. unfold try_except at 1. rewrite Hrecover. cbn [lift_lib].
  rewrite run_ret. cbv beta iota zeta.
  rewrite run_bind. unfold post at 1.
  destruct (net _ _) as [e|response]; reflexivity.
Qed.

(** Once it has the finish message the function posts exactly once,
    whatever the service then does. *)
Lemma pat_opaque_finish_wire (s : St) :
  wire (snd (pat_opaque_finish TRASHMAIL_API_URL net (inr lib) client_sec (PyStr lr)
               session_id lang s))
  = wire s
    ++ [script_call TRASHMAIL_API_URL lang "pat_opaque_auth_finish"
          (finish_payload session_id auth_u) (session s)].
Proof.
  rewrite pat_opaque_finish_posts.
  assert (Hposted :
            wire (finish_posted TRASHMAIL_API_URL net lang session_id auth_u s)
            = wire s
              ++ [script_call TRASHMAIL_API_URL lang "pat_opaque_auth_finish"
                    (finish_payload session_id auth_u) (session s)]).
  { unfold finish_posted. rewrite wire_script_posted, script_call_eq by discriminate.
    reflexivity. }
  destruct (net _ _) as [e|response]; [exact Hposted|].
  rewrite <- Hposted.
  match goal with |- wire (snd (?c ?s1)) = _ =>
    change (script_same_wire s1 (snd (c s1))); generalize s1; change (keeps script_same_wire c)
  end.
  keeps_auto; apply keeps_set_cookie.
Qed.

End OpaqueFinish.

(** X20. [pat_opaque_finish] sends nothing until it has the finish
    message: a failed import, a login response that is no str ([TypeError]),
    one that does not decode, or a failure of [RecoverCredentials] comes out
    with the state untouched.  Once it has the message it posts exactly once,
    whatever the service answers and whatever the call then returns or
    raises: the command ["pat_opaque_auth_finish"] on the session as it was,
    with a JSON body of two entries, the session id and the message as
    [bytes], base64 with its padding kept.  An exception of that post comes
    out as it is. *)
Theorem pat_opaque_finish_request (TRASHMAIL_API_URL : option string) (net : Transport)
    (client_sec : list byte) (login_response session_id : pyval) (lang : string)
    (s : FailingOpaque.St) :
  (forall e,
     FailingOpaque.pat_opaque_finish TRASHMAIL_API_URL net (inl e) client_sec
       login_response session_id lang s = (Raise (PyExc e), s))
  /\ (forall lib,
        is_str login_response = false ->
        exists msg,
          FailingOpaque.pat_opaque_finish TRASHMAIL_API_URL net (inr lib) client_sec
            login_response session_id lang s
          = (Raise (PyExc (LibExn TypeError msg)), s))
  /\ (forall lib lr e,
        login_response = PyStr lr ->
        Base64.urlsafe_b64decode (lr +:+ "===") = inl e ->
        FailingOpaque.pat_opaque_finish TRASHMAIL_API_URL net (inr lib) client_sec
          login_response session_id lang s = (Raise (PyExc e), s))
  /\ (forall lib lr ke2 e,
        login_response = PyStr lr ->
        Base64.urlsafe_b64decode (lr +:+ "===") = inr ke2 ->
        FailingOpaque.RecoverCredentials lib ke2 client_sec FailingOpaque.OPAQUE_CONTEXT
        = inl e ->
        FailingOpaque.pat_opaque_finish TRASHMAIL_API_URL net (inr lib) client_sec
          login_response session_id lang s = (Raise (PyExc e), s))
  /\ (forall lib lr ke2 export_key auth_u server_id,
        login_response = PyStr lr ->
        Base64.urlsafe_b64decode (lr +:+ "===") = inr ke2 ->
        FailingOpaque.RecoverCredentials lib ke2 client_sec FailingOpaque.OPAQUE_CONTEXT
        = inr (export_key, auth_u, server_id) ->
        let body := finish_payload session_id auth_u in
        let call :=
          script_call TRASHMAIL_API_URL lang "pat_opaque_auth_finish" body
            (FailingOpaque.session s) in
        let after :=
          FailingOpaque.pat_opaque_finish TRASHMAIL_API_URL net (inr lib) client_sec
            login_response session_id lang s in
        FailingOpaque.wire (snd after) = FailingOpaque.wire s ++ [call]
        /\ dom body = {[ "session_id"; "finishLoginRequest" ]}
        /\ body !! "session_id" = Some session_id
        /\ body !! "finishLoginRequest"
           = Some (PyBytes (Base64.urlsafe_b64encode auth_u))
        /\ length (Base64.urlsafe_b64encode auth_u) mod 4 = 0
        /\ (forall e,
              net (FailingOpaque.wire s) call = inl e ->
              after
              = (Raise (PyExc e),
                 finish_posted TRASHMAIL_API_URL net lang session_id auth_u s))).
Proof.
  split; [|split; [|split; [|split]]].
  - intros e. reflexivity.
  - intros lib Hstr. unfold FailingOpaque.pat_opaque_finish.
    rewrite run_bind. cbn [lift_lib]. rewrite run_ret. cbv beta iota.
    rewrite run_bind.
    destruct login_response; try discriminate; eexists; reflexivity.
  - intros lib lr e -> Hdec. unfold FailingOpaque.pat_opaque_finish.
    rewrite run_bind. cbn [lift_lib]. rewrite run_ret. cbv beta iota.
    rewrite run_bind. cbn [FailingOpaque.add_str]. rewrite run_ret. cbv beta iota.
    rewrite run_bind, Hdec. reflexivity.
  - intros lib lr ke2 e -> Hdec Hrec. unfold FailingOpaque.pat_opaque_finish.
    rewrite run_bind. cbn [lift_lib]. rewrite run_ret. cbv beta iota.
    rewrite run_bind. cbn [FailingOpaque.add_str]. rewrite run_ret. cbv beta iota.
    rewrite run_bind, Hdec. cbn [lift_lib]. rewrite run_ret. cbv beta iota.
    rewrite run_bind. unfold try_except at 1. rewrite Hrec. reflexivity.
  - intros lib lr ke2 export_key auth_u server_id -> Hdec Hrec body call after.
    subst body call after.
    split; [|split; [|split; [reflexivity|split; [reflexivity|split]]]].
    + apply (pat_opaque_finish_wire _ _ _ _ _ _ _ _ _ _ _ Hdec Hrec).
    + unfold finish_payload. rewrite !dom_insert_L, dom_empty_L. set_solver.
    + apply encoded_length_mod4.
    + intros e Hnet.
      rewrite (pat_opaque_finish_posts _ _ _ _ _ _ _ _ _ _ _ Hdec Hrec), Hnet.
      reflexivity.
Qed.

Lemma pat_opaque_finish_request_witness :
  (exists msg,
     FailingOpaque.pat_opaque_finish None unreachable (inr canned_opaque) [x0a; x0b]
       (PyInt 5) (PyStr "sid-1") "en" (FailingOpaque.mkSt Session_new [])
     = (Raise (PyExc (LibExn TypeError msg)), FailingOpaque.mkSt Session_new []))
  /\ FailingOpaque.wire
       (snd (FailingOpaque.pat_opaque_finish None (always finish_accepted_response)
               (inr canned_opaque) [x0a; x0b] (PyStr "AQID") (PyStr "sid-1") "en"
               (FailingOpaque.mkSt Session_new [])))
     = [script_call None "en" "pat_opaque_auth_finish"
          (finish_payload (PyStr "sid-1") [xff; xfe]) Session_new].
Proof.
  split.
  - destruct (pat_opaque_finish_request None unreachable [x0a; x0b] (PyInt 5)
                (PyStr "sid-1") "en" (FailingOpaque.mkSt Session_new []))
      as (_ & Htype & _).
    apply Htype. reflexivity.
  - destruct (pat_opaque_finish_request None (always finish_accepted_response)
                [x0a; x0b] (PyStr "AQID") (PyStr "sid-1") "en"
                (FailingOpaque.mkSt Session_new []))
      as (_ & _ & _ & _ & Hpost).
    destruct (Hpost canned_opaque "AQID" [x01; x02; x03] PyNone [xff; xfe] PyNone
                eq_refl eq_refl eq_refl)
      as (Hwire & _).
    exact Hwire.
Defined.

(** X21. When the answer to the finish request is a JSON object whose
    ["data"] is an object, [pat_opaque_finish] returns True.  It stores as
    the [session_id] cookie the first true value among [data.session_id], the
    answer's own [session_id] and the session id it was given, if there is
    one, and as the [pat] cookie a true [data.pat].  An answer without
    ["data"] is a [KeyError]. *)
Theorem pat_opaque_finish_cookies (TRASHMAIL_API_URL : option string) (net : Transport)
    (lib : FailingOpaque.OpaqueLib) (client_sec : list byte) (lr lang : string)
    (session_id : pyval) (ke2 auth_u : list byte) (export_key server_id : pyval)
    (s : FailingOpaque.St) (r : Response) (result : gmap string pyval) :
  Base64.urlsafe_b64decode (lr +:+ "===") = inr ke2 ->
  FailingOpaque.RecoverCredentials lib ke2 client_sec FailingOpaque.OPAQUE_CONTEXT
  = inr (export_key, auth_u, server_id) ->
  net (FailingOpaque.wire s)
    (script_call TRASHMAIL_API_URL lang "pat_opaque_auth_finish"
       (finish_payload session_id auth_u) (FailingOpaque.session s)) = inr r ->
  json_method r = inr (PyDict result) ->
  let s1 := finish_posted TRASHMAIL_API_URL net lang session_id auth_u s in
  FailingOpaque.pat_opaque_finish TRASHMAIL_API_URL net (inr lib) client_sec (PyStr lr)
    session_id lang s
  = match result !! "data" with
    | None => (Raise (key_error "data"), s1)
    | Some (PyDict data) => (Return true, finish_cookies result data session_id s1)
    | Some other => (Raise (PyExc (no_get_error other)), s1)
    end.
Proof.
  intros Hdec Hrec Hnet Hjson s1. subst s1.
  rewrite (pat_opaque_finish_posts _ _ _ _ _ _ _ _ _ _ _ Hdec Hrec), Hnet.
  rewrite run_bind, Hjson. cbn [lift_lib]. rewrite run_ret. cbv beta iota.
  rewrite run_bind. cbn [py_getitem].
  destruct (result !! "data") as [data|]; [|reflexivity].
  rewrite run_ret. cbv beta iota.
  rewrite run_bind.
  destruct data as [| | | | | | |data]; try reflexivity.
  cbn [py_get]. rewrite run_ret. cbv beta iota.
  unfold finish_cookies, first_truthy.
  rewrite run_bind.
  destruct (truthy (default PyNone (data !! "session_id"))) eqn:H1.
  - rewrite run_ret. cbv beta iota.
    rewrite H1. rewrite run_bind.
    unfold FailingOpaque.set_cookie_on_session, modify. cbv beta iota.
    rewrite run_bind, run_ret. cbv beta iota.
    destruct (truthy (default PyNone (data !! "pat"))); reflexivity.
  - rewrite run_bind, run_ret. cbv beta iota.
    destruct (truthy (default PyNone (result !! "session_id"))) eqn:H2.
    + rewrite run_ret. cbv beta iota. rewrite H2. rewrite run_bind.
      unfold FailingOpaque.set_cookie_on_session, modify. cbv beta iota.
      rewrite run_bind, run_ret. cbv beta iota.
      destruct (truthy (default PyNone (data !! "pat"))); reflexivity.
    + rewrite run_ret. cbv beta iota. rewrite run_bind.
      destruct (truthy session_id).
      * unfold FailingOpaque.set_cookie_on_session, modify. cbv beta iota.
        rewrite run_bind, run_ret. cbv beta iota.
        destruct (truthy (default PyNone (data !! "pat"))); reflexivity.
      * rewrite run_ret. cbv beta iota.
        rewrite run_bind, run_ret. cbv beta iota.
        destruct (truthy (default PyNone (data !! "pat"))); reflexivity.
Qed.

Lemma pat_opaque_finish_cookies_witness :
  FailingOpaque.pat_opaque_finish None (always finish_accepted_response)
    (inr canned_opaque) [x0a; x0b] (PyStr "AQID") (PyStr "sid-1") "en"
    (FailingOpaque.mkSt Session_new [])
  = (Return true,
     with_cookie "pat" (PyStr "tmpat_fresh")
       (with_cookie "session_id" (PyStr "sid-2")
          (finish_posted None (always finish_accepted_response) "en" (PyStr "sid-1")
             [xff; xfe] (FailingOpaque.mkSt Session_new [])))).
Proof.
  rewrite (pat_opaque_finish_cookies None (always finish_accepted_response)
             canned_opaque [x0a; x0b] "AQID" "en" (PyStr "sid-1") [x01; x02; x03]
             [xff; xfe] PyNone PyNone (FailingOpaque.mkSt Session_new [])
             finish_accepted_response
             (<["session_id" := PyStr "sid-2"]>
              (<["data" := PyDict {[ "pat" := PyStr "tmpat_fresh" ]}]> ∅)))
    by reflexivity.
  reflexivity.
Defined.

(** ** Unpadded text under three pads *)

Lemma stripped_group (x y z : byte) (rest : list byte) :
  stripped (x :: y :: z :: rest)
  = Base64._urlsafe_encode_translation (Base64.b2a (sextet1 x))
    :: Base64._urlsafe_encode_translation (Base64.b2a (sextet2 x y))
    :: Base64._urlsafe_encode_translation (Base64.b2a (sextet3 y z))
    :: Base64._urlsafe_encode_translation (Base64.b2a (sextet4 z))
    :: stripped rest.
Proof.
  unfold stripped, Base64.urlsafe_b64encode, Base64.b64encode.
  rewrite b2a_base64_group. cbn [map].
  destruct (sextet_bounds x y) as (H1 & H2 & _).
  destruct (sextet_bounds y z) as (_ & _ & H3 & _).
  destruct (sextet_bounds z z) as (_ & _ & _ & H4 & _).
  rewrite !rstrip_list_keep by (apply pad_eqb_char; assumption). reflexivity.
Qed.

Lemma stripped_two (x y : byte) :
  stripped [x; y]
  = [Base64._urlsafe_encode_translation (Base64.b2a (sextet1 x));
     Base64._urlsafe_encode_translation (Base64.b2a (sextet2 x y));
     Base64._urlsafe_encode_translation (Base64.b2a (sextet3_last y))].
Proof.
  unfold stripped, Base64.urlsafe_b64encode, Base64.b64encode.
  rewrite b2a_base64_two. cbn [map].
  destruct (sextet_bounds x y) as (H1 & H2 & _).
  destruct (sextet_bounds y y) as (_ & _ & _ & _ & _ & H3).
  rewrite !rstrip_list_keep by (apply pad_eqb_char; assumption). reflexivity.
Qed.

Lemma stripped_one (x : byte) :
  stripped [x]
  = [Base64._urlsafe_encode_translation (Base64.b2a (sextet1 x));
     Base64._urlsafe_encode_translation (Base64.b2a (sextet2_last x))].
Proof.
  unfold stripped, Base64.urlsafe_b64encode, Base64.b64encode.
  rewrite b2a_base64_one. cbn [map].
  destruct (sextet_bounds x x) as (H1 & _ & _ & _ & H2 & _).
  rewrite !rstrip_list_keep by (apply pad_eqb_char; assumption). reflexivity.
Qed.

Lemma decode_translation_back (n : N) :
  (n < 64)%N ->
  Base64._urlsafe_decode_translation (Base64._urlsafe_encode_translation (Base64.b2a n))
  = Base64.b2a n.
Proof. intros Hn. apply (sextet_char n Hn). Qed.

Lemma a2b_loop_stripped (data : list byte) :
  forall leftchar pads out,
    Base64.a2b_loop
      (map Base64._urlsafe_decode_translation
         (stripped data ++ [Base64.pad; Base64.pad; Base64.pad]))
      0 leftchar pads out
    = inr (out ++ data).
Proof.
  induction data as [|x|x y|x y z rest IH] using list_ind3; intros l p out.
  - cbn. rewrite app_nil_r. reflexivity.
  - rewrite stripped_one. cbn [app map].
    destruct (sextet_bounds x x) as (H1 & _ & _ & _ & H2 & _).
    rewrite !decode_translation_back by assumption.
    rewrite a2b_loop_char0, a2b_loop_char1 by assumption.
    rewrite first_byte_back_last. reflexivity.
  - rewrite stripped_two. cbn [app map].
    destruct (sextet_bounds x y) as (H1 & H2 & _).
    destruct (sextet_bounds y y) as (_ & _ & _ & _ & _ & H3).
    rewrite !decode_translation_back by assumption.
    rewrite a2b_loop_char0, a2b_loop_char1, a2b_loop_char2 by assumption.
    rewrite first_byte_back, second_byte_back_last.
    cbn. rewrite <- app_assoc. reflexivity.
  - rewrite stripped_group. cbn [app map].
    destruct (sextet_bounds x y) as (H1 & H2 & _).
    destruct (sextet_bounds y z) as (_ & _ & H3 & _).
    destruct (sextet_bounds z z) as (_ & _ & _ & H4 & _).
    rewrite !decode_translation_back by assumption.
    rewrite a2b_loop_char0, a2b_loop_char1, a2b_loop_char2, a2b_loop_char3
      by assumption.
    rewrite first_byte_back, second_byte_back, third_byte_back.
    rewrite IH. rewrite <- !app_assoc. reflexivity.
Qed.

(** X22. The decoding in [pat_opaque_finish] reads unpadded text: for every
    byte string [b], the url-safe decoder applied to [_b64encode(b)] with
    ["==="] appended gives [b] back. *)
Theorem three_pads_decode_unpadded_text (data : list byte) :
  exists s,
    FailingOpaque._b64encode data = inr s
    /\ Base64.urlsafe_b64decode (s +:+ "===") = inr data.
Proof.
  exists (string_of_list_byte (stripped data)).
  split; [apply b64encode_eq|].
  unfold Base64.urlsafe_b64decode, Base64._bytes_from_decode_data.
  rewrite list_byte_of_string_app, list_byte_of_string_of_list_byte.
  change (list_byte_of_string "===") with [Base64.pad; Base64.pad; Base64.pad].
  rewrite forallb_app, stripped_ascii. cbn [forallb andb].
  change (Base64.is_ascii Base64.pad) with true. cbn [andb].
  unfold Base64.a2b_base64. rewrite a2b_loop_stripped. reflexivity.
Qed.
